(** * AI Builder: the generation pipeline, its extractors and its validator

    A shallow embedding of the Python sources under [src/]:
    - [agents/validator.py]        module [Validator]
    - [agents/analyzer.py]         modules [Sections], [Analyzer]
    - [agents/architect.py]        module [Architect]
    - [agents/feature_planner.py]  modules [Items], [FeaturePlanner]
    - [agents/document_writer.py]  module [DocumentWriter]
    - [agents/refiner.py]          module [Refiner]
    - [orchestrator.py]            module [Orchestrator]

    The collaborators of [core/], the vector store and the reading side of
    the file system are the fields of [Runtime.env]; what the pipeline
    changes is [Runtime.world].

    Text is modelled by [string]: a Python [str] whose code points are
    below 256, one [ascii] per code point.  The character tables
    ([isspace], [isalnum], [isupper], [lower_char]) are those of Python's
    [str] on that range.  The file name of a feature is also given for
    features of any code points (module [Unicode]). *)

From Stdlib Require Import String Ascii List ZArith Lia Bool Arith DecimalString.
Import ListNotations.
Open Scope string_scope.

(** ** Python string operations *)

Module PyStr.

Definition code (c : ascii) : nat := nat_of_ascii c.

Definition between (lo hi : nat) (c : ascii) : bool :=
  (lo <=? code c)%nat && (code c <=? hi)%nat.

(** [str.isspace] on one character. *)
Definition isspace (c : ascii) : bool :=
  between 9 13 c || between 28 32 c
  || (code c =? 133)%nat || (code c =? 160)%nat.

(** [str.isalnum] on one character. *)
Definition isalnum (c : ascii) : bool :=
  between 48 57 c || between 65 90 c || between 97 122 c
  || (code c =? 170)%nat || between 178 179 c || (code c =? 181)%nat
  || between 185 186 c || between 188 190 c
  || between 192 214 c || between 216 246 c || between 248 255 c.

Definition isupper (c : ascii) : bool :=
  between 65 90 c || between 192 214 c || between 216 222 c.

Definition lower_char (c : ascii) : ascii :=
  if isupper c then ascii_of_nat (code c + 32) else c.

Fixpoint map_str (f : ascii -> ascii) (s : string) : string :=
  match s with
  | EmptyString => EmptyString
  | String c s' => String (f c) (map_str f s')
  end.

(** [s.lower()] *)
Definition lower (s : string) : string := map_str lower_char s.

Fixpoint mem_char (c : ascii) (chars : string) : bool :=
  match chars with
  | EmptyString => false
  | String d chars' => Ascii.eqb c d || mem_char c chars'
  end.

Fixpoint drop_while (p : ascii -> bool) (s : string) : string :=
  match s with
  | EmptyString => EmptyString
  | String c s' => if p c then drop_while p s' else s
  end.

Fixpoint rev_str (acc s : string) : string :=
  match s with
  | EmptyString => acc
  | String c s' => rev_str (String c acc) s'
  end.

Definition drop_while_end (p : ascii -> bool) (s : string) : string :=
  rev_str EmptyString (drop_while p (rev_str EmptyString s)).

(** [s.lstrip(chars)], [s.strip(chars)] and [s.strip()] *)
Definition lstrip_chars (chars s : string) : string :=
  drop_while (fun c => mem_char c chars) s.

Definition strip_chars (chars s : string) : string :=
  drop_while_end (fun c => mem_char c chars) (lstrip_chars chars s).

Definition strip (s : string) : string :=
  drop_while_end isspace (drop_while isspace s).

(** [s.startswith(p)] *)
Definition startswith (p s : string) : bool := prefix p s.

(** [s.startswith(tuple(chars))]: the first character is one of [chars]. *)
Definition startswith_any (chars s : string) : bool :=
  match s with
  | EmptyString => false
  | String c _ => mem_char c chars
  end.

(** [s.endswith(p)] *)
Definition endswith (p s : string) : bool :=
  prefix (rev_str EmptyString p) (rev_str EmptyString s).

(** [sub in s] *)
Fixpoint contains (sub s : string) : bool :=
  prefix sub s ||
  match s with
  | EmptyString => false
  | String _ s' => contains sub s'
  end.

(** [any(k in s for k in keywords)] *)
Definition any_in (keywords : list string) (s : string) : bool :=
  existsb (fun k => contains k s) keywords.

(** [s.split(sep)] for a one-character separator. *)
Fixpoint split_on (sep : ascii) (s : string) : list string :=
  match s with
  | EmptyString => [EmptyString]
  | String c s' =>
      if Ascii.eqb c sep then EmptyString :: split_on sep s'
      else match split_on sep s' with
           | [] => [String c EmptyString]
           | h :: t => String c h :: t
           end
  end.

Definition newline : ascii := ascii_of_nat 10.
Definition nl : string := String newline EmptyString.

(** [s.split('\n')] *)
Definition split_lines (s : string) : list string := split_on newline s.

(** [sep.join(l)] *)
Definition join (sep : string) (l : list string) : string := String.concat sep l.

(** [s[:n]] *)
Fixpoint take (n : nat) (s : string) : string :=
  match n, s with
  | O, _ => EmptyString
  | _, EmptyString => EmptyString
  | S n', String c s' => String c (take n' s')
  end.

Fixpoint drop (n : nat) (s : string) : string :=
  match n, s with
  | O, _ => s
  | _, EmptyString => EmptyString
  | S n', String _ s' => drop n' s'
  end.

(** [s.split(sep, 1)] for a one-character separator: the text before the
    first separator and, when there is one, the text after it. *)
Fixpoint split_once (sep : ascii) (s : string) : string * option string :=
  match s with
  | EmptyString => (EmptyString, None)
  | String c s' =>
      if Ascii.eqb c sep then (EmptyString, Some s')
      else let '(h, t) := split_once sep s' in (String c h, t)
  end.

(** [s.count(sub)]: occurrences that do not overlap, from the left. *)
Fixpoint count_from (fuel : nat) (sub s : string) : nat :=
  match fuel with
  | O => 0
  | S fuel' =>
      match s with
      | EmptyString => 0
      | String _ s' =>
          if prefix sub s
          then S (count_from fuel' sub (drop (String.length sub) s))
          else count_from fuel' sub s'
      end
  end.

(** [str(n)] for a natural number. *)
Definition of_nat (n : nat) : string := NilZero.string_of_uint (Nat.to_uint n).

(** [str(z)] for an integer. *)
Definition of_Z (z : Z) : string :=
  match z with
  | Z0 => "0"
  | Zpos p => of_nat (Pos.to_nat p)
  | Zneg p => "-" ++ of_nat (Pos.to_nat p)
  end.

(** [bool(s)]: a string is true when it is not empty. *)
Definition truthy (s : string) : bool :=
  match s with EmptyString => false | _ => true end.

(** A block of text: every line followed by a newline. *)
Definition text (lines : list string) : string :=
String.concat EmptyString (map (fun line => line ++ nl) lines).

End PyStr.
Import PyStr.

(** ** Strings beyond Latin-1

    A Python [str] is a sequence of code points.  [PyStr] has the tables of
    the code points below 256, and the development works with such strings.
    For the other code points, whether [str.isalnum] and [str.isupper]
    accept a character is read from the Unicode database of the
    interpreter, and so is [str.lower] of a string that has such a code
    point: its result can depend on the neighbours of a character, as for
    the capital sigma.  The database is a parameter here. *)

Module Unicode.

Record database : Type := {
  db_isalnum : N -> bool;
  db_isupper : N -> bool;
  db_lower : list N -> list N
}.

Definition latin1 (c : N) : bool := (c <? 256)%N.

Definition underscore : N := 95%N.

(** [c.isalnum()] and [c.isupper()] for a code point *)
Definition isalnum (db : database) (c : N) : bool :=
  if latin1 c then PyStr.isalnum (ascii_of_N c) else db_isalnum db c.

Definition isupper (db : database) (c : N) : bool :=
  if latin1 c then PyStr.isupper (ascii_of_N c) else db_isupper db c.

(** [s.lower()] *)
Definition lower (db : database) (s : list N) : list N :=
  if forallb latin1 s
  then map (fun c => N_of_ascii (PyStr.lower_char (ascii_of_N c))) s
  else db_lower db s.

Fixpoint drop_while (p : N -> bool) (s : list N) : list N :=
  match s with
  | [] => []
  | c :: s' => if p c then drop_while p s' else s
  end.

Definition drop_while_end (p : N -> bool) (s : list N) : list N :=
  rev (drop_while p (rev s)).

(** [s.strip(chars)] *)
Definition strip_chars (chars s : list N) : list N :=
  drop_while_end (fun c => existsb (N.eqb c) chars)
                 (drop_while (fun c => existsb (N.eqb c) chars) s).

(** The code points of a string of [PyStr]. *)
Fixpoint of_string (s : string) : list N :=
  match s with
  | EmptyString => []
  | String c s' => N_of_ascii c :: of_string s'
  end.

End Unicode.

(** ** Ordered dictionaries

    A Python [dict] keeps its keys in insertion order; assigning to a key
    that is present replaces the value in place. *)

Module Dict.

Fixpoint get {V : Type} (k : string) (d : list (string * V)) : option V :=
  match d with
  | [] => None
  | (k', v) :: d' => if String.eqb k k' then Some v else get k d'
  end.

Fixpoint set {V : Type} (k : string) (v : V) (d : list (string * V))
  : list (string * V) :=
  match d with
  | [] => [(k, v)]
  | (k', v') :: d' =>
      if String.eqb k k' then (k, v) :: d' else (k', v') :: set k v d'
  end.

Definition keys {V : Type} (d : list (string * V)) : list string := map fst d.
Definition values {V : Type} (d : list (string * V)) : list V := map snd d.

(** [d.get(k, default)] *)
Definition get_default {V : Type} (k : string) (default : V)
           (d : list (string * V)) : V :=
  match get k d with Some v => v | None => default end.

End Dict.

(** ** Python values and exceptions

    The agents pass dictionaries of type [Dict[str, Any]] to each other.
    [value] is the part of Python's object universe that the pipeline
    builds.  A float is kept as the exact quotient it was computed from, and a
    [datetime] as the reading of the clock it was taken from. *)

#[warnings="-register-all"] Inductive value : Type :=
| VNone
| VBool (b : bool)
| VInt (z : Z)
| VRatio (num den : Z)
| VTime (t : Z)
| VStr (s : string)
| VList (l : list value)
| VDict (d : list (string * value)).

(** An exception: its class and [str(e)]. *)
Inductive exn : Type := Exception (class msg : string).

Definition str_of_exn (e : exn) : string :=
  match e with Exception _ msg => msg end.

Inductive outcome (A : Type) : Type :=
| Ok (a : A)
| Raise (e : exn).
Arguments Ok {A} a.
Arguments Raise {A} e.

Module Py.

Definition str_list (l : list string) : value := VList (map VStr l).

Definition str_dict (d : list (string * string)) : value :=
  VDict (map (fun kv => (fst kv, VStr (snd kv))) d).

Definition list_dict (d : list (string * list string)) : value :=
  VDict (map (fun kv => (fst kv, str_list (snd kv))) d).

Definition type_name (v : value) : string :=
  match v with
  | VNone => "NoneType"
  | VBool _ => "bool"
  | VInt _ => "int"
  | VRatio _ _ => "float"
  | VTime _ => "datetime.datetime"
  | VStr _ => "str"
  | VList _ => "list"
  | VDict _ => "dict"
  end.

Definition attribute_error {A : Type} (v : value) (attr : string) : outcome A :=
  Raise (Exception "AttributeError"
           ("'" ++ type_name v ++ "' object has no attribute '" ++ attr ++ "'")).

Definition type_error {A : Type} (msg : string) : outcome A :=
  Raise (Exception "TypeError" msg).

(** [bool(v)] *)
Definition truthy (v : value) : bool :=
  match v with
  | VNone => false
  | VBool b => b
  | VInt z => negb (z =? 0)%Z
  | VRatio n _ => negb (n =? 0)%Z
  | VTime _ => true
  | VStr s => PyStr.truthy s
  | VList l => match l with [] => false | _ => true end
  | VDict d => match d with [] => false | _ => true end
  end.

(** [v is not None] *)
Definition is_not_none (v : value) : bool :=
  match v with VNone => false | _ => true end.

(** [v or {}] *)
Definition or_empty_dict (v : value) : value :=
  if truthy v then v else VDict [].

(** [v.get(k, default)] *)
Definition get (v : value) (k : string) (default : value) : outcome value :=
  match v with
  | VDict d => Ok (Dict.get_default k default d)
  | _ => attribute_error v "get"
  end.

(** [v[k]] for a string key *)
Definition index (v : value) (k : string) : outcome value :=
  match v with
  | VDict d =>
      match Dict.get k d with
      | Some x => Ok x
      | None => Raise (Exception "KeyError" ("'" ++ k ++ "'"))
      end
  | VStr _ => type_error "string indices must be integers, not 'str'"
  | VList _ => type_error "list indices must be integers or slices, not str"
  | _ => type_error ("'" ++ type_name v ++ "' object is not subscriptable")
  end.

(** [isinstance(v, dict) and k in v] *)
Definition is_dict_with (k : string) (v : value) : bool :=
  match v with
  | VDict d => match Dict.get k d with Some _ => true | None => false end
  | _ => false
  end.

Fixpoint chars (s : string) : list value :=
  match s with
  | EmptyString => []
  | String c s' => VStr (String c EmptyString) :: chars s'
  end.

(** The elements that [for x in v] visits. *)
Definition iter (v : value) : outcome (list value) :=
  match v with
  | VList l => Ok l
  | VDict d => Ok (map VStr (Dict.keys d))
  | VStr s => Ok (chars s)
  | _ => type_error ("'" ++ type_name v ++ "' object is not iterable")
  end.

(** [len(v)] *)
Definition len (v : value) : outcome nat :=
  match v with
  | VList l => Ok (List.length l)
  | VDict d => Ok (List.length d)
  | VStr s => Ok (String.length s)
  | _ => type_error ("object of type '" ++ type_name v ++ "' has no len()")
  end.

(** [v.items()] and [v.values()] *)
Definition items (v : value) : outcome (list (string * value)) :=
  match v with
  | VDict d => Ok d
  | _ => attribute_error v "items"
  end.

Definition values (v : value) : outcome (list value) :=
  match v with
  | VDict d => Ok (Dict.values d)
  | _ => attribute_error v "values"
  end.

(** The strings of a list that [sep.join] accepts: every item is a [str]. *)
Fixpoint strings_from (i : nat) (l : list value) : outcome (list string) :=
  match l with
  | [] => Ok []
  | VStr s :: l' =>
      match strings_from (S i) l' with
      | Ok ss => Ok (s :: ss)
      | Raise e => Raise e
      end
  | v :: _ =>
      type_error ("sequence item " ++ of_nat i ++ ": expected str instance, "
                  ++ type_name v ++ " found")
  end.

(** [sep.join(v)] *)
Definition join (sep : string) (v : value) : outcome string :=
  match iter v with
  | Ok l =>
      match strings_from 0 l with
      | Ok ss => Ok (PyStr.join sep ss)
      | Raise e => Raise e
      end
  | Raise _ => type_error "can only join an iterable"
  end.

(** A method of [str] called on [v]: [AttributeError] unless [v] is a
    string. *)
Definition as_str (attr : string) (v : value) : outcome string :=
  match v with
  | VStr s => Ok s
  | _ => attribute_error v attr
  end.

(** [k in v] for a string [k] *)
Definition has_key (k : string) (v : value) : outcome bool :=
match v with
| VDict d => Ok (match Dict.get k d with Some _ => true | None => false end)
| VStr s => Ok (contains k s)
| VList l =>
    Ok (existsb (fun x => match x with VStr s => String.eqb s k | _ => false end)
                l)
| _ => type_error ("argument of type '" ++ type_name v ++ "' is not iterable")
end.

(** [v.copy()] *)
Definition copy (v : value) : outcome (list (string * value)) :=
match v with
| VDict d => Ok d
| _ => attribute_error v "copy"
end.

(** [v[k] = x] for a string key: the container after the assignment. *)
Definition set_item (v : value) (k : string) (x : value) : outcome value :=
match v with
| VDict d => Ok (VDict (Dict.set k x d))
| VList _ => type_error "list indices must be integers or slices, not str"
| _ => type_error ("'" ++ type_name v
                   ++ "' object does not support item assignment")
end.

End Py.

(** ** The collaborators and the state the pipeline acts on *)

Module Runtime.

(** [core/config_manager.py]: the values read from [config.yaml]. *)
Record config : Type := {
  base_path : string;
  current_version : string;
  project_name : string;
  project_author : string;
  project_description : string;
  llm_provider : string;
  llm_model_name : string;
  collection_name : string
}.

(** The state: how many completion calls were issued, how often the clock
    was read, the directories and files written, the documents in the
    vector store, the entries of [logs/history.jsonl], and the
    orchestrator's attribute [build_state]. *)
Record world : Type := {
  llm_calls : nat;
  clock : nat;
  dirs : list string;
  files : list (string * string);
  vector_store : list (string * value);
  history : list value;
  build_state : value
}.

(** What lies outside the repository: the completion provider, the prompt
    templates, the file system, the vector store, the clock and the
    interpreter's own formatting.

    - [complete k prompt system_prompt] answers the [k]-th call of
      [llm_manager.complete] (counted from 0) or raises;
    - [get_prompt] is [prompt_manager.get_prompt], which catches its errors
      and falls back to a default template;
    - [str_format template feature] is [template.format(feature=feature)];
    - [fs_error path] is [None] when [path] can be created or opened for
      writing, and the [OSError] otherwise;
    - [vector_error store content metadata] is [None] when the collection
      accepts the document, and the exception of [collection.add]
      otherwise;
    - [os_path_exists w path], [os_walk w top] and [read_text w path] are
      [os.path.exists(path)], the triples [(root, dirs, files)] that
      [os.walk(top)] yields, and [open(path, 'r', encoding='utf-8').read()],
      on the file system as the run has left it in the state [w]: how the
      operating system resolves a path, what was on the disk before and
      how a text is decoded are not the repository's code. *)
Record env : Type := {
  cfg : config;
  complete : nat -> string -> string -> outcome string;
  get_prompt : string -> list (string * value) -> string;
  str_format : string -> value -> outcome string;
  fs_error : string -> option exn;
  vector_error : list (string * value) -> string -> value -> option exn;
  os_path_exists : world -> string -> bool;
  os_walk : world -> string -> list (string * list string * list string);
  read_text : world -> string -> outcome string;
  md5 : string -> string;
  now : nat -> Z;
  strftime : Z -> string;
  repr : value -> string;
  json_dumps : value -> string;
  str_upper : string -> string
}.

Definition with_llm_calls (n : nat) (w : world) : world :=
  {| llm_calls := n; clock := clock w; dirs := dirs w; files := files w;
     vector_store := vector_store w; history := history w;
     build_state := build_state w |}.

Definition with_clock (n : nat) (w : world) : world :=
  {| llm_calls := llm_calls w; clock := n; dirs := dirs w; files := files w;
     vector_store := vector_store w; history := history w;
     build_state := build_state w |}.

Definition with_dirs (d : list string) (w : world) : world :=
  {| llm_calls := llm_calls w; clock := clock w; dirs := d; files := files w;
     vector_store := vector_store w; history := history w;
     build_state := build_state w |}.

Definition with_files (f : list (string * string)) (w : world) : world :=
  {| llm_calls := llm_calls w; clock := clock w; dirs := dirs w; files := f;
     vector_store := vector_store w; history := history w;
     build_state := build_state w |}.

Definition with_vector_store (s : list (string * value)) (w : world) : world :=
  {| llm_calls := llm_calls w; clock := clock w; dirs := dirs w;
     files := files w; vector_store := s; history := history w;
     build_state := build_state w |}.

Definition with_history (h : list value) (w : world) : world :=
  {| llm_calls := llm_calls w; clock := clock w; dirs := dirs w;
     files := files w; vector_store := vector_store w; history := h;
     build_state := build_state w |}.

(** A computation that reads and changes the state and returns or raises.
    The state reached when an exception is raised is kept: what was
    written before stays written. *)
Definition M (A : Type) : Type := world -> outcome A * world.

Definition ret {A : Type} (a : A) : M A := fun w => (Ok a, w).

Definition bind {A B : Type} (m : M A) (k : A -> M B) : M B :=
  fun w =>
    match m w with
    | (Ok a, w') => k a w'
    | (Raise e, w') => (Raise e, w')
    end.

Definition raise {A : Type} (e : exn) : M A := fun w => (Raise e, w).

Definition lift {A : Type} (o : outcome A) : M A := fun w => (o, w).

(** [try: body  except Exception as e: handler(e)] *)
Definition try_except {A : Type} (body : M A) (handler : exn -> M A) : M A :=
  fun w =>
    match body w with
    | (Ok a, w') => (Ok a, w')
    | (Raise e, w') => handler e w'
    end.

Declare Scope py_scope.
Delimit Scope py_scope with py.
Notation "x <- m ;; k" := (bind m (fun x => k))
  (at level 61, m at next level, right associativity) : py_scope.
Notation "m ;;; k" := (bind m (fun _ => k))
  (at level 61, right associativity) : py_scope.
Open Scope py_scope.

(** [for x in l: body x] *)
Fixpoint for_each {A : Type} (l : list A) (body : A -> M unit) : M unit :=
  match l with
  | [] => ret tt
  | x :: l' => body x ;;; for_each l' body
  end.

(** A loop that carries an accumulator. *)
Fixpoint fold_m {A S : Type} (l : list A) (body : S -> A -> M S) (s : S)
  : M S :=
  match l with
  | [] => ret s
  | x :: l' => s' <- body s x ;; fold_m l' body s'
  end.

Section WithEnv.
Variable E : env.

(** [llm_manager.complete]: the error is logged and raised again. *)
Definition llm_complete (prompt system_prompt : string) : M string :=
  fun w =>
    (complete E (llm_calls w) prompt system_prompt,
     with_llm_calls (S (llm_calls w)) w).

(** [os.path.join] of two components. *)
Definition path_join (a b : string) : string :=
  if startswith "/" b then b
  else if negb (PyStr.truthy a) || endswith "/" a then a ++ b
  else a ++ "/" ++ b.

(** [config.get_output_path()], which the orchestrator keeps as
    [output_base], and [self.version]. *)
Definition output_base : string :=
  path_join (base_path (cfg E)) (current_version (cfg E)).

Definition version : string := current_version (cfg E).

(** [os.makedirs(path, exist_ok=True)] *)
Definition makedirs (path : string) : M unit :=
  fun w =>
    match fs_error E path with
    | None => (Ok tt, with_dirs (dirs w ++ [path]) w)
    | Some e => (Raise e, w)
    end.

(** [with open(path, 'w', encoding='utf-8') as f: f.write(content)].
    Every caller has created the directory of [path] before. *)
Definition write_file (path content : string) : M unit :=
  fun w =>
    match fs_error E path with
    | None => (Ok tt, with_files (Dict.set path content (files w)) w)
    | Some e => (Raise e, w)
    end.

(** [datetime.now()] *)
Definition datetime_now : M value :=
  fun w => (Ok (VTime (now E (clock w))), with_clock (S (clock w)) w).

(** [str(v)], as an f-string formats a value. *)
Definition str (v : value) : string :=
  match v with
  | VStr s => s
  | VNone => "None"
  | VBool true => "True"
  | VBool false => "False"
  | VInt z => of_Z z
  | _ => repr E v
  end.

(** [vector_manager.add_document]: the error is logged and raised
    again. *)
Definition add_document (content : value) (metadata : list (string * value))
  : M string :=
  match content with
  | VStr text =>
      let doc_metadata :=
        VDict (Dict.set "type" (VStr "document")
                 (Dict.set "length" (VInt (Z.of_nat (String.length text)))
                           metadata)) in
      fun w =>
        match vector_error E (vector_store w) text doc_metadata with
        | None =>
            (Ok (md5 E text),
             with_vector_store (vector_store w ++ [(text, doc_metadata)]) w)
        | Some e => (Raise e, w)
        end
  | _ => lift (Py.attribute_error content "encode")
  end.

(** [vector_manager.get_collection_stats] *)
Definition get_collection_stats : M value :=
  fun w =>
    (Ok (VDict [("document_count",
                 VInt (Z.of_nat (List.length (vector_store w))));
                ("collection_name", VStr (collection_name (cfg E)))]), w).

Definition history_file : string :=
  path_join (path_join output_base "logs") "history.jsonl".

(** [logger.log_history]: an entry that cannot be written is dropped with
    a warning; nothing is raised. *)
Definition log_history (state : string) (files : value) (version : string)
           (metadata : value) : M unit :=
  timestamp <- datetime_now ;;
  let entry :=
    VDict [("timestamp", timestamp); ("state", VStr state);
           ("files", files); ("version", VStr version);
           ("metadata", Py.or_empty_dict metadata)] in
  fun w =>
    match fs_error E history_file with
    | None => (Ok tt, with_history (history w ++ [entry]) w)
    | Some _ => (Ok tt, w)
    end.

(** [os.path.exists(path)] *)
Definition path_exists (path : string) : M bool :=
  fun w => (Ok (os_path_exists E w path), w).

End WithEnv.

End Runtime.
Import Runtime.

(** ** agents/validator.py *)

Module Validator.

(** The dictionary [validation_result], whose five keys are fixed. *)
Record validation_result := mk_result {
  valid : bool;
  errors : list string;
  warnings : list string;
  score : Z;
  suggestions : list string
}.

Definition add_error (msg : string) (r : validation_result) :=
  mk_result (valid r) (errors r ++ [msg]) (warnings r) (score r) (suggestions r).

Definition add_errors (msgs : list string) (r : validation_result) :=
  mk_result (valid r) (errors r ++ msgs) (warnings r) (score r) (suggestions r).

Definition add_warning (msg : string) (r : validation_result) :=
  mk_result (valid r) (errors r) (warnings r ++ [msg]) (score r) (suggestions r).

Definition add_warnings (msgs : list string) (r : validation_result) :=
  mk_result (valid r) (errors r) (warnings r ++ msgs) (score r) (suggestions r).

(** [self.validation_rules[doc_type].get('required_sections', [])]; [None]
    when [doc_type] is not a key of [validation_rules]. *)
Definition required_sections (doc_type : string) : option (list string) :=
  if String.eqb doc_type "markdown" then Some []
  else if String.eqb doc_type "brd" then
    Some ["Executive Summary"; "Business Objectives";
          "Functional Requirements"; "Non-functional Requirements"]
  else if String.eqb doc_type "srs" then
    Some ["System Overview"; "Functional Specifications";
          "Technical Requirements"; "Interface Requirements"]
  else None.

(** The loop over [enumerate(lines, 1)] of [_check_basic_format]. *)
Fixpoint long_line_warnings (i : nat) (lines : list string) : list string :=
  match lines with
  | [] => []
  | line :: rest =>
      List.app
        (if (200 <? String.length line)%nat
         then ["Line " ++ of_nat i ++ " is very long ("
               ++ of_nat (String.length line) ++ " characters)"]
         else [])
        (long_line_warnings (S i) rest)
  end.

Definition _check_basic_format (content : string) (r : validation_result)
  : validation_result :=
  if negb (truthy (strip content)) then add_error "Document is empty" r
  else
    let lines := split_lines content in
    let r := add_warnings (long_line_warnings 1 lines) r in
    if (List.length lines <? 5)%nat
    then add_warning "Document seems too short" r
    else r.

(** [len(line) - len(line.lstrip('#'))] for every line whose stripped form
    starts with a hash. *)
Definition header_levels (lines : list string) : list nat :=
  map (fun line => String.length line - String.length (lstrip_chars "#" line))
      (filter (fun line => startswith "#" (strip line)) lines).

(** Is there an [i >= 1] with [levels[i] > levels[i-1] + 1]? *)
Fixpoint level_skipped (levels : list nat) : bool :=
  match levels with
  | a :: ((b :: _) as rest) => (a + 1 <? b)%nat || level_skipped rest
  | _ => false
  end.

Definition _check_markdown_structure (content : string) (r : validation_result)
  : validation_result :=
  let levels := header_levels (split_lines content) in
  let r := match levels with
           | [] => add_error "No markdown headers found" r
           | _ => r
           end in
  if level_skipped levels
  then add_warning "Header level skipped - poor hierarchy" r
  else r.

Definition missing_sections (required : list string) (content : string)
  : list string :=
  filter (fun section => negb (contains (lower section) (lower content)))
         required.

Definition _check_document_sections (content doc_type : string)
           (r : validation_result) : validation_result :=
  match required_sections doc_type with
  | None => r
  | Some required =>
      add_errors
        (map (fun section => "Missing required section: " ++ section)
             (missing_sections required content))
        r
  end.

Definition _calculate_score (r : validation_result) : Z :=
  let base_score := 100%Z in
  let error_penalty := (Z.of_nat (List.length (errors r)) * 20)%Z in
  let warning_penalty := (Z.of_nat (List.length (warnings r)) * 5)%Z in
  Z.max 0 (base_score - error_penalty - warning_penalty).

Definition is_in (s : string) (l : list string) : bool :=
  existsb (String.eqb s) l.

(** [validate_document].  None of the checks raises on a string, so the
    [except] branch is not reached and the model has no error case. *)
Definition validate_document (content doc_type : string) : validation_result :=
  let r := mk_result true [] [] 0 [] in
  let r := _check_basic_format content r in
  let r := if is_in doc_type ["markdown"; "brd"; "srs"]
           then _check_markdown_structure content r else r in
  let r := if is_in doc_type ["brd"; "srs"]
           then _check_document_sections content doc_type r else r in
  let s := _calculate_score r in
  mk_result (70 <=? s)%Z (errors r) (warnings r) s (suggestions r).

(** The dictionary that [validate_document] returns. *)
Definition result_value (r : validation_result) : list (string * value) :=
  [("valid", VBool (valid r));
   ("errors", Py.str_list (errors r));
   ("warnings", Py.str_list (warnings r));
   ("score", VInt (score r));
   ("suggestions", Py.str_list (suggestions r))].

(** [os.path.basename] *)
Definition basename (path : string) : string :=
  last (split_on "/" path) EmptyString.

(** The document type that [validate_project_output] reads off a file
    name. *)
Definition doc_type_of (file_path : string) : string :=
  let filename := lower (basename file_path) in
  if contains "brd" filename then "brd"
  else if contains "srs" filename then "srs"
  else "markdown".

Section WithEnv.
Variable E : env.

(** [validate_file]: the text is read and validated; any exception, as
    the one of a file that cannot be read, gives a failed result. *)
Definition validate_file (file_path doc_type : string) : M value :=
  fun w =>
    match read_text E w file_path with
    | Ok content =>
        (Ok (VDict (Dict.set "file_path" (VStr file_path)
                             (result_value (validate_document content doc_type)))),
         w)
    | Raise e =>
        (Ok (VDict
               [("valid", VBool false);
                ("errors",
                 VList [VStr ("Failed to read file: " ++ str_of_exn e)]);
                ("warnings", VList []);
                ("score", VInt 0);
                ("file_path", VStr file_path)]), w)
    end.

(** [md_files]: for every triple [(root, dirs, files)] of
    [os.walk(output_dir)], [os.path.join(root, file)] for the files whose
    name ends with [.md]. *)
Definition md_files_under (output_dir : string) (w : world) : list string :=
  flat_map
    (fun entry =>
       let '(root, _, files) := entry in
       map (path_join root) (filter (endswith ".md") files))
    (os_walk E w output_dir).

(** [result['score']] and [result['valid']] of a result of [validate_file],
    which always has both keys. *)
Definition score_of (result : value) : Z :=
  match Py.index result "score" with Ok (VInt z) => z | _ => 0%Z end.

Definition valid_of (result : value) : bool :=
  match Py.index result "valid" with Ok v => Py.truthy v | _ => false end.

(** The loop of [validate_project_output] over [md_files]; the state is
    [validation_results['files']], [total_score] and [valid_count]. *)
Definition validate_step (st : list (string * value) * Z * nat)
           (file_path : string) : M (list (string * value) * Z * nat) :=
  let '(results, total_score, valid_count) := st in
  result <- validate_file file_path (doc_type_of file_path) ;;
  ret (Dict.set file_path result results,
       (total_score + score_of result)%Z,
       if valid_of result then S valid_count else valid_count).

Definition project_result (overall_valid : bool) (results : list (string * value))
           (total_files valid_files : nat) (average_score : value) : value :=
  VDict [("overall_valid", VBool overall_valid);
         ("files", VDict results);
         ("summary",
          VDict [("total_files", VInt (Z.of_nat total_files));
                 ("valid_files", VInt (Z.of_nat valid_files));
                 ("average_score", average_score)])].

(** [validate_project_output].  Nothing in the body raises, so the handler
    that would clear [overall_valid] is not reached. *)
Definition validate_project_output (output_dir : string) : M value :=
  found <- path_exists E output_dir ;;
  if negb found then ret (project_result false [] 0 0 (VInt 0))
  else
    md_files <- (fun w => (Ok (md_files_under output_dir w), w)) ;;
    st <- fold_m md_files validate_step ([], 0%Z, 0) ;;
    let '(results, total_score, valid_count) := st in
    let total := List.length md_files in
    ret (project_result
           (valid_count =? total)%nat results total valid_count
           (match md_files with
            | [] => VInt 0
            | _ => VRatio total_score (Z.of_nat total)
            end)).

End WithEnv.

End Validator.

(** ** Section extraction: agents/analyzer.py, agents/document_writer.py *)

Module Sections.

(** The loop state: [sections], [current_section] ([None] at the start)
    and [current_content]. *)
Definition state : Type :=
  list (string * string) * option string * list string.

(** [if current_section:] is false for [None] and for the empty title. *)
Definition open_section (current_section : option string) : option string :=
  match current_section with
  | Some title => if truthy title then Some title else None
  | None => None
  end.

Definition is_heading (line : string) : bool := startswith "#" (strip line).

Definition flush (st : state) : list (string * string) :=
  let '(sections, current_section, current_content) := st in
  match open_section current_section with
  | Some title => Dict.set title (strip (join nl current_content)) sections
  | None => sections
  end.

Definition step (st : state) (line : string) : state :=
  let '(sections, current_section, current_content) := st in
  if is_heading line then
    (flush st, Some (strip (lstrip_chars "#" (strip line))), [])
  else
    match open_section current_section with
    | Some _ => (sections, current_section, (current_content ++ [line])%list)
    | None => st
    end.

Definition extract_lines (lines : list string) : list (string * string) :=
  flush (fold_left step lines ([], None, [])).

End Sections.

(** ** agents/analyzer.py

    Calls of [logger.logger.info] and [logger.log_error] write to the console
    and the application log; they change nothing the pipeline reads and are
    left out throughout. *)

Module Analyzer.

Definition name : string := "Analyzer".

Definition _extract_sections (content : string) : list (string * string) :=
  Sections.extract_lines (split_lines content).

Section WithEnv.
Variable E : env.

Definition analyze_requirements (requirements : string) (context : value)
  : M value :=
  try_except
    (let prompt :=
       get_prompt E "analysis"
         [("requirements", VStr requirements);
          ("context", Py.or_empty_dict context)] in
     analysis_content <-
       llm_complete E prompt
         "You are an expert business analyst. Provide thorough and structured analysis." ;;
     ret (VDict
            [("raw_requirements", VStr requirements);
             ("analysis_content", VStr analysis_content);
             ("metadata",
              VDict [("agent", VStr name); ("version", VStr (version E));
                     ("context", context)]);
             ("sections", Py.str_dict (_extract_sections analysis_content))]))
    (fun e =>
       ret (VDict
              [("error", VStr (str_of_exn e));
               ("raw_requirements", VStr requirements);
               ("analysis_content", VStr "");
               ("metadata",
                VDict [("agent", VStr name); ("error", VBool true)])])).

Definition analyze_bnmp (bnm context : value) : M value :=
  try_except
    (let prompt :=
       get_prompt E "bnm_analysis"
         [("bnm", bnm); ("context", Py.or_empty_dict context)] in
     analysis_content <-
       llm_complete E prompt
         "You are a business strategist. Analyze the business needs and market position." ;;
     ret (VDict
            [("business_needs", bnm);
             ("analysis_content", VStr analysis_content);
             ("metadata",
              VDict [("agent", VStr name); ("version", VStr (version E));
                     ("context", context)]);
             ("sections", Py.str_dict (_extract_sections analysis_content))]))
    (fun e =>
       ret (VDict
              [("error", VStr (str_of_exn e));
               ("business_needs", bnm);
               ("analysis_content", VStr "");
               ("metadata",
                VDict [("agent", VStr name); ("error", VBool true)])])).

(** [save_analysis]: an error is logged and raised again. *)
Definition save_analysis (analysis : value) (output_dir : string) : M string :=
  makedirs E output_dir ;;;
  let file_path := path_join output_dir "analysis_overview.md" in
  raw_requirements <- lift (Py.get analysis "raw_requirements" (VStr "N/A")) ;;
  analysis_content <- lift (Py.get analysis "analysis_content" (VStr "N/A")) ;;
  metadata <- lift (Py.get analysis "metadata" (VDict [])) ;;
  agent <- lift (Py.get metadata "agent" (VStr "Unknown")) ;;
  metadata <- lift (Py.get analysis "metadata" (VDict [])) ;;
  version <- lift (Py.get metadata "version" (VStr "Unknown")) ;;
  metadata <- lift (Py.get analysis "metadata" (VDict [])) ;;
  timestamp <- lift (Py.get metadata "timestamp" (VStr "Unknown")) ;;
  let content :=
    text ["# Project Analysis Overview"; "";
          "## Raw Requirements"; str E raw_requirements; "";
          "## Analysis Content"; str E analysis_content; "";
          "## Metadata";
          "- Agent: " ++ str E agent;
          "- Version: " ++ str E version;
          "- Generated: " ++ str E timestamp] in
  write_file E file_path content ;;;
  ret file_path.

(** [refine_analysis].  [analysis.copy()] is a shallow copy: the dictionary
    under ['metadata'] is shared between the copy and the argument, so the
    two assignments to it change the argument too.  The result is the
    returned dictionary together with the argument as the call leaves it. *)
Definition refine_analysis (analysis : value) (feedback : string)
  : M (value * value) :=
  try_except
    (analysis_content <- lift (Py.get analysis "analysis_content" (VStr "")) ;;
     let refinement_prompt :=
       text [""; "Original Analysis:"; str E analysis_content; "";
             "Feedback:"; feedback; "";
             "Please refine the analysis based on the feedback provided. Keep the good parts and improve the areas mentioned in the feedback."] in
     refined_content <-
       llm_complete E refinement_prompt
         "You are refining a business analysis based on feedback. Maintain structure while addressing concerns." ;;
     original <- lift (Py.copy analysis) ;;
     let refined_analysis :=
       Dict.set "analysis_content" (VStr refined_content) original in
     metadata <- lift (Py.index (VDict refined_analysis) "metadata") ;;
     metadata <- lift (Py.set_item metadata "refined" (VBool true)) ;;
     metadata <- lift (Py.set_item metadata "feedback" (VStr feedback)) ;;
     let refined_analysis := Dict.set "metadata" metadata refined_analysis in
     let refined_analysis :=
       Dict.set "sections" (Py.str_dict (_extract_sections refined_content))
                refined_analysis in
     ret (VDict refined_analysis, VDict (Dict.set "metadata" metadata original)))
    (fun e => ret (analysis, analysis)).

End WithEnv.

End Analyzer.

(** ** agents/architect.py *)

Module Architect.

Definition name : string := "Architect".

Fixpoint dedup (seen : list string) (l : list string) : list string :=
  match l with
  | [] => []
  | x :: l' =>
      if existsb (String.eqb x) seen then dedup seen l'
      else x :: dedup (x :: seen) l'
  end.

Definition component_of (raw : string) : list string :=
  let line := strip raw in
  if any_in ["component"; "service"; "module"; "layer"] (lower line)
     && truthy line && negb (startswith "#" line)
  then
    let component := strip (hd EmptyString (split_on ":" line)) in
    if truthy component && (String.length component <? 50)%nat
    then [component] else []
  else [].

(** [_extract_components].  The source returns [list(set(components))],
    whose order Python leaves open; the model keeps first occurrences. *)
Definition _extract_components (content : string) : list string :=
  dedup [] (flat_map component_of (split_lines content)).

Definition techs_in (techs : list string) (content_lower : string)
  : list string :=
  filter (fun tech => contains tech content_lower) techs.

Definition _extract_technology_stack (content : string)
  : list (string * list string) :=
  let content_lower := lower content in
  [ ("backend", techs_in ["python"; "java"; "node.js"; "go"; "rust"; "c#"; ".net"]
                         content_lower);
    ("frontend", techs_in ["react"; "vue"; "angular"; "svelte"; "html"; "css";
                           "javascript"] content_lower);
    ("mobile", techs_in ["flutter"; "react native"; "swift"; "kotlin";
                         "java (android)"; "objective-c"] content_lower);
    ("database", techs_in ["postgresql"; "mysql"; "mongodb"; "redis"; "sqlite";
                           "elasticsearch"] content_lower);
    ("infrastructure", techs_in ["docker"; "kubernetes"; "aws"; "azure"; "gcp";
                                 "nginx"; "apache"] content_lower) ].

(** The lines [- item] that the report files list. *)
Definition bullets (E : env) (l : list value) : string :=
  join nl (map (fun x => "- " ++ str E x) l).

Section WithEnv.
Variable E : env.

Definition design_architecture (analysis : value) (requirements : string)
  : M value :=
  try_except
    (analysis_content <- lift (Py.get analysis "analysis_content" (VStr "")) ;;
     let prompt :=
       get_prompt E "architecture"
         [("analysis", analysis_content); ("requirements", VStr requirements)] in
     architecture_content <-
       llm_complete E prompt
         "You are a senior software architect. Design scalable and maintainable system architecture." ;;
     metadata <- lift (Py.get analysis "metadata" (VDict [])) ;;
     based_on <- lift (Py.get metadata "agent" (VStr "Unknown")) ;;
     ret (VDict
            [("base_analysis", analysis);
             ("architecture_content", VStr architecture_content);
             ("metadata",
              VDict [("agent", VStr name); ("version", VStr (version E));
                     ("based_on", based_on)]);
             ("components",
              Py.str_list (_extract_components architecture_content));
             ("technology_stack",
              Py.list_dict (_extract_technology_stack architecture_content))]))
    (fun e =>
       ret (VDict
              [("error", VStr (str_of_exn e));
               ("base_analysis", analysis);
               ("architecture_content", VStr "");
               ("metadata",
                VDict [("agent", VStr name); ("error", VBool true)])])).

(** [architecture.get('technology_stack', {}).get(category, [])], listed *)
Definition stack_bullets (architecture : value) (category : string) : M string :=
  technology_stack <- lift (Py.get architecture "technology_stack" (VDict [])) ;;
  techs <- lift (Py.get technology_stack category (VList [])) ;;
  techs <- lift (Py.iter techs) ;;
  ret (bullets E techs).

(** [save_architecture]: an error is logged and raised again. *)
Definition save_architecture (architecture : value) (output_dir : string)
  : M string :=
  makedirs E output_dir ;;;
  let file_path := path_join output_dir "system_architecture.md" in
  architecture_content <-
    lift (Py.get architecture "architecture_content" (VStr "N/A")) ;;
  components <- lift (Py.get architecture "components" (VList [])) ;;
  components <- lift (Py.iter components) ;;
  backend <- stack_bullets architecture "backend" ;;
  frontend <- stack_bullets architecture "frontend" ;;
  mobile <- stack_bullets architecture "mobile" ;;
  database <- stack_bullets architecture "database" ;;
  infrastructure <- stack_bullets architecture "infrastructure" ;;
  metadata <- lift (Py.get architecture "metadata" (VDict [])) ;;
  agent <- lift (Py.get metadata "agent" (VStr "Unknown")) ;;
  metadata <- lift (Py.get architecture "metadata" (VDict [])) ;;
  version <- lift (Py.get metadata "version" (VStr "Unknown")) ;;
  metadata <- lift (Py.get architecture "metadata" (VDict [])) ;;
  based_on <- lift (Py.get metadata "based_on" (VStr "Unknown")) ;;
  let content :=
    text ["# System Architecture Design"; "";
          "## Architecture Overview"; str E architecture_content; "";
          "## System Components"; bullets E components; "";
          "## Technology Stack"; "";
          "### Backend"; backend; "";
          "### Frontend"; frontend; "";
          "### Mobile"; mobile; "";
          "### Database"; database; "";
          "### Infrastructure"; infrastructure; "";
          "## Metadata";
          "- Agent: " ++ str E agent;
          "- Version: " ++ str E version;
          "- Based on: " ++ str E based_on] in
  write_file E file_path content ;;;
  ret file_path.

(** [refine_architecture]; the result is read as in
    [Analyzer.refine_analysis]. *)
Definition refine_architecture (architecture : value) (feedback : string)
  : M (value * value) :=
  try_except
    (architecture_content <-
       lift (Py.get architecture "architecture_content" (VStr "")) ;;
     let refinement_prompt :=
       text [""; "Original Architecture:"; str E architecture_content; "";
             "Feedback:"; feedback; "";
             "Please refine the architecture design based on the feedback provided. Address the concerns while maintaining system integrity."] in
     refined_content <-
       llm_complete E refinement_prompt
         "You are refining a system architecture based on feedback. Ensure technical feasibility." ;;
     original <- lift (Py.copy architecture) ;;
     let refined_architecture :=
       Dict.set "architecture_content" (VStr refined_content) original in
     metadata <- lift (Py.index (VDict refined_architecture) "metadata") ;;
     metadata <- lift (Py.set_item metadata "refined" (VBool true)) ;;
     metadata <- lift (Py.set_item metadata "feedback" (VStr feedback)) ;;
     let refined_architecture :=
       Dict.set "metadata" metadata refined_architecture in
     let refined_architecture :=
       Dict.set "components"
                (Py.str_list (_extract_components refined_content))
                refined_architecture in
     let refined_architecture :=
       Dict.set "technology_stack"
                (Py.list_dict (_extract_technology_stack refined_content))
                refined_architecture in
     ret (VDict refined_architecture,
          VDict (Dict.set "metadata" metadata original)))
    (fun e => ret (architecture, architecture)).

End WithEnv.

End Architect.

(** ** Bulleted and numbered lines, as the feature planner and the document
    writer read them *)

Module Items.

(** The text of a bulleted or numbered line:
    [line.lstrip('-').lstrip('0123456789').lstrip('.').strip()] *)
Definition item_text (line : string) : string :=
  strip (lstrip_chars "." (lstrip_chars "0123456789" (lstrip_chars "-" line))).

(** [line.startswith('-') or line.startswith(tuple('123456789'))] *)
Definition is_item (line : string) : bool :=
  startswith "-" line || startswith_any "123456789" line.

End Items.

(** ** agents/feature_planner.py *)

Module FeaturePlanner.

Definition name : string := "FeaturePlanner".

Definition category_of (line_lower : string) (current : option string)
  : option string :=
  if any_in ["core"; "must-have"; "essential"] line_lower then Some "core"
  else if any_in ["enhanced"; "should-have"; "important"] line_lower
  then Some "enhanced"
  else if any_in ["optional"; "nice-to-have"; "future"] line_lower
  then Some "optional"
  else current.

Definition category_step (st : list (string * list string) * option string)
           (raw : string) : list (string * list string) * option string :=
  let '(categories, current_category) := st in
  let line := strip raw in
  let current_category := category_of (lower line) current_category in
  match current_category with
  | Some cat =>
      if Items.is_item line then
        let feature := Items.item_text line in
        if truthy feature && (String.length feature <? 100)%nat
        then (Dict.set cat (Dict.get_default cat [] categories ++ [feature])%list
                       categories,
              current_category)
        else (categories, current_category)
      else (categories, current_category)
  | None => (categories, current_category)
  end.

Definition _extract_feature_categories (content : string)
  : list (string * list string) :=
  fst (fold_left category_step (split_lines content)
                 ([("core", []); ("enhanced", []); ("optional", [])], None)).

Definition timeline_step (timeline : list (string * string)) (line : string)
  : list (string * string) :=
  if any_in ["phase"; "sprint"; "week"; "month"; "quarter"] (lower line) then
    match split_once ":" line with
    | (label, Some description) =>
        Dict.set (strip label) (strip description) timeline
    | (_, None) => timeline
    end
  else timeline.

Definition _extract_timeline (content : string) : list (string * string) :=
  fold_left timeline_step (split_lines content) [].

(** The file name stem of a detailed feature specification:
    [''.join(c if c.isalnum() or c == '_' else '_'
             for c in feature.lower()).strip('_')[:50]] *)
Definition safe_char (c : ascii) : ascii :=
  if isalnum c || Ascii.eqb c "_" then c else "_"%char.

Definition safe_name (feature : string) : string :=
  take 50 (strip_chars "_" (map_str safe_char (lower feature))).

(** The same expression for a feature of any code points. *)
Definition safe_char_unicode (db : Unicode.database) (c : N) : N :=
  if Unicode.isalnum db c || (c =? Unicode.underscore)%N then c
  else Unicode.underscore.

Definition safe_name_unicode (db : Unicode.database) (feature : list N)
  : list N :=
  firstn 50
    (Unicode.strip_chars [Unicode.underscore]
       (map (safe_char_unicode db) (Unicode.lower db feature))).

(** [all_features]: the three categories in the order core, enhanced,
    optional.  [categories.get(cat, [])] *)
Definition all_features_of (categories : list (string * list string))
  : list string :=
  flat_map (fun cat => Dict.get_default cat [] categories)
           ["core"; "enhanced"; "optional"].

Section WithEnv.
Variable E : env.

(** One iteration of the loop of [generate_detailed_features] over
    [all_features]; [detailed_features] is the dictionary filled so far. *)
Definition detail_step (detail_prompt_template output_dir : string)
           (detailed_features : list (string * value)) (feature : value)
  : M (list (string * value)) :=
  prompt <- lift (str_format E detail_prompt_template feature) ;;
  detail_content <-
    llm_complete E prompt
      "You are a senior product manager. Write a detailed, clear, and actionable feature specification." ;;
  feature_text <- lift (Py.as_str "lower" feature) ;;
  let file_path :=
    path_join (path_join output_dir "features")
              (safe_name feature_text ++ ".md") in
  write_file E file_path detail_content ;;;
  ret (Dict.set feature_text
                (VDict [("content", VStr detail_content);
                        ("file_path", VStr file_path)])
                detailed_features).

(** [all_features.extend(categories.get(cat, []))] for the three
    categories *)
Definition all_features (categories : value) : outcome (list value) :=
  fold_left
    (fun acc cat =>
       match acc with
       | Raise e => Raise e
       | Ok collected =>
           match Py.get categories cat (VList []) with
           | Raise e => Raise e
           | Ok features =>
               match Py.iter features with
               | Raise e => Raise e
               | Ok l => Ok (collected ++ l)%list
               end
           end
       end)
    ["core"; "enhanced"; "optional"] (Ok []).

Definition generate_detailed_features (features : value) (output_dir : string)
  : M value :=
  try_except
    (let detail_prompt_template := get_prompt E "feature_detail" [] in
     categories <- lift (Py.get features "feature_categories" (VDict [])) ;;
     all_features <- lift (all_features categories) ;;
     makedirs E (path_join output_dir "features") ;;;
     detailed_features <-
       fold_m all_features (detail_step detail_prompt_template output_dir) [] ;;
     ret (VDict detailed_features))
    (fun e => ret (VDict [("error", VStr (str_of_exn e))])).

Definition plan_features (analysis architecture : value)
           (detailed_features : bool) (output_dir : option string) : M value :=
  try_except
    (analysis_content <- lift (Py.get analysis "analysis_content" (VStr "")) ;;
     architecture_content <-
       lift (Py.get architecture "architecture_content" (VStr "")) ;;
     let prompt :=
       get_prompt E "features"
         [("analysis", analysis_content);
          ("architecture", architecture_content)] in
     features_content <-
       llm_complete E prompt
         "You are a product manager. Create a comprehensive feature plan with clear priorities." ;;
     let features_result :=
       [("base_analysis", analysis);
        ("base_architecture", architecture);
        ("features_content", VStr features_content);
        ("metadata",
         VDict [("agent", VStr name); ("version", VStr (version E));
                ("inputs", VList [VStr "analysis"; VStr "architecture"])]);
        ("feature_categories",
         Py.list_dict (_extract_feature_categories features_content));
        ("timeline", Py.str_dict (_extract_timeline features_content))] in
     match output_dir with
     | Some dir =>
         if detailed_features && PyStr.truthy dir then
           detailed_specs <- generate_detailed_features (VDict features_result) dir ;;
           ret (VDict (Dict.set "detailed_features" detailed_specs
                                features_result))
         else ret (VDict features_result)
     | None => ret (VDict features_result)
     end)
    (fun e =>
       ret (VDict
              [("error", VStr (str_of_exn e));
               ("base_analysis", analysis);
               ("base_architecture", architecture);
               ("features_content", VStr "");
               ("metadata",
                VDict [("agent", VStr name); ("error", VBool true)])])).

(** [features.get('feature_categories', {}).get(category, [])], listed *)
Definition category_bullets (features : value) (category : string) : M string :=
  feature_categories <- lift (Py.get features "feature_categories" (VDict [])) ;;
  l <- lift (Py.get feature_categories category (VList [])) ;;
  l <- lift (Py.iter l) ;;
  ret (Architect.bullets E l).

(** [save_feature_plan]: an error is logged and raised again. *)
Definition save_feature_plan (features : value) (output_dir : string)
  : M string :=
  makedirs E output_dir ;;;
  let file_path := path_join output_dir "feature_list.md" in
  features_content <- lift (Py.get features "features_content" (VStr "N/A")) ;;
  core <- category_bullets features "core" ;;
  enhanced <- category_bullets features "enhanced" ;;
  optional <- category_bullets features "optional" ;;
  timeline <- lift (Py.get features "timeline" (VDict [])) ;;
  timeline <- lift (Py.items timeline) ;;
  metadata <- lift (Py.get features "metadata" (VDict [])) ;;
  agent <- lift (Py.get metadata "agent" (VStr "Unknown")) ;;
  metadata <- lift (Py.get features "metadata" (VDict [])) ;;
  version <- lift (Py.get metadata "version" (VStr "Unknown")) ;;
  metadata <- lift (Py.get features "metadata" (VDict [])) ;;
  inputs <- lift (Py.get metadata "inputs" (VList [])) ;;
  inputs <- lift (Py.join ", " inputs) ;;
  let content :=
    text ["# Feature Plan"; "";
          "## Feature Overview"; str E features_content; "";
          "## Feature Categories"; "";
          "### Core Features (Must-Have)"; core; "";
          "### Enhanced Features (Should-Have)"; enhanced; "";
          "### Optional Features (Nice-to-Have)"; optional; "";
          "## Implementation Timeline";
          join nl (map (fun kv => "**" ++ fst kv ++ "**: " ++ str E (snd kv))
                       timeline);
          "";
          "## Metadata";
          "- Agent: " ++ str E agent;
          "- Version: " ++ str E version;
          "- Based on: " ++ inputs] in
  write_file E file_path content ;;;
  ret file_path.

(** [refine_features]; the result is read as in
    [Analyzer.refine_analysis]. *)
Definition refine_features (features : value) (feedback : string)
  : M (value * value) :=
  try_except
    (features_content <- lift (Py.get features "features_content" (VStr "")) ;;
     let refinement_prompt :=
       text [""; "Original Feature Plan:"; str E features_content; "";
             "Feedback:"; feedback; "";
             "Please refine the feature plan based on the feedback provided. Adjust priorities and add/remove features as needed."] in
     refined_content <-
       llm_complete E refinement_prompt
         "You are refining a feature plan based on feedback. Balance user needs with technical constraints." ;;
     original <- lift (Py.copy features) ;;
     let refined_features :=
       Dict.set "features_content" (VStr refined_content) original in
     metadata <- lift (Py.index (VDict refined_features) "metadata") ;;
     metadata <- lift (Py.set_item metadata "refined" (VBool true)) ;;
     metadata <- lift (Py.set_item metadata "feedback" (VStr feedback)) ;;
     let refined_features := Dict.set "metadata" metadata refined_features in
     let refined_features :=
       Dict.set "feature_categories"
                (Py.list_dict (_extract_feature_categories refined_content))
                refined_features in
     let refined_features :=
       Dict.set "timeline" (Py.str_dict (_extract_timeline refined_content))
                refined_features in
     ret (VDict refined_features, VDict (Dict.set "metadata" metadata original)))
    (fun e => ret (features, features)).

End WithEnv.

End FeaturePlanner.

(** ** agents/document_writer.py *)

Module DocumentWriter.

Definition name : string := "DocumentWriter".

(** [DocumentWriterAgent._extract_document_sections]: the same loop as the
    analyzer's. *)
Definition _extract_document_sections (content : string)
  : list (string * string) :=
  Sections.extract_lines (split_lines content).

(** One iteration of the loop of [_extract_requirements] and of
    [_extract_technical_requirements], which differ in their keywords
    only.  The state is the flag and the list collected so far. *)
Definition requirement_step (keywords : list string)
           (st : bool * list string) (raw : string) : bool * list string :=
  let '(in_section, requirements) := st in
  let line := strip raw in
  if any_in keywords (lower line) then (true, requirements)
  else
    let requirements :=
      if in_section && Items.is_item line then
        let req := Items.item_text line in
        if truthy req && (10 <? String.length req)%nat
        then (requirements ++ [req])%list else requirements
      else requirements in
    let in_section :=
      if startswith "#" line && in_section then false else in_section in
    (in_section, requirements).

Definition requirement_keywords : list string :=
  ["requirement"; "functional"; "business rule"].

Definition technical_keywords : list string :=
  ["technical"; "system"; "performance"; "security"].

Definition requirements_loop (keywords : list string) (lines : list string)
  : bool * list string :=
  fold_left (requirement_step keywords) lines (false, []).

Definition _extract_requirements (content : string) : list string :=
  snd (requirements_loop requirement_keywords (split_lines content)).

Definition _extract_technical_requirements (content : string) : list string :=
  snd (requirements_loop technical_keywords (split_lines content)).

Section WithEnv.
Variable E : env.

Definition generate_brd (analysis features : value) : M value :=
  try_except
    (analysis_content <- lift (Py.get analysis "analysis_content" (VStr "")) ;;
     features_content <- lift (Py.get features "features_content" (VStr "")) ;;
     let prompt :=
       get_prompt E "brd"
         [("analysis", analysis_content); ("features", features_content)] in
     brd_content <-
       llm_complete E prompt
         "You are a business analyst creating a formal Business Requirements Document. Be comprehensive and professional." ;;
     ret (VDict
            [("document_type", VStr "brd");
             ("content", VStr brd_content);
             ("metadata",
              VDict [("agent", VStr name); ("version", VStr (version E));
                     ("inputs", VList [VStr "analysis"; VStr "features"]);
                     ("document_version", VStr "1.0")]);
             ("sections", Py.str_dict (_extract_document_sections brd_content));
             ("requirements", Py.str_list (_extract_requirements brd_content))]))
    (fun e =>
       ret (VDict
              [("error", VStr (str_of_exn e));
               ("document_type", VStr "brd");
               ("content", VStr "");
               ("metadata",
                VDict [("agent", VStr name); ("error", VBool true)])])).

Definition generate_srs (analysis architecture features : value) : M value :=
  try_except
    (analysis_content <- lift (Py.get analysis "analysis_content" (VStr "")) ;;
     architecture_content <-
       lift (Py.get architecture "architecture_content" (VStr "")) ;;
     features_content <- lift (Py.get features "features_content" (VStr "")) ;;
     let prompt :=
       get_prompt E "srs"
         [("analysis", analysis_content);
          ("architecture", architecture_content);
          ("features", features_content)] in
     srs_content <-
       llm_complete E prompt
         "You are a technical writer creating a detailed Software Requirements Specification. Include technical details and specifications." ;;
     ret (VDict
            [("document_type", VStr "srs");
             ("content", VStr srs_content);
             ("metadata",
              VDict [("agent", VStr name); ("version", VStr (version E));
                     ("inputs",
                      VList [VStr "analysis"; VStr "architecture";
                             VStr "features"]);
                     ("document_version", VStr "1.0")]);
             ("sections", Py.str_dict (_extract_document_sections srs_content));
             ("technical_requirements",
              Py.str_list (_extract_technical_requirements srs_content))]))
    (fun e =>
       ret (VDict
              [("error", VStr (str_of_exn e));
               ("document_type", VStr "srs");
               ("content", VStr "");
               ("metadata",
                VDict [("agent", VStr name); ("error", VBool true)])])).

(** The handlers of [save_document] and [refine_document] format their log
    message with [doc_type].  When the exception was raised before
    [doc_type] was assigned, the handler itself raises this error. *)
Definition doc_type_unbound : exn :=
  Exception "UnboundLocalError"
    "cannot access local variable 'doc_type' where it is not associated with a value".

(** [save_document]: an error is logged and raised again. *)
Definition save_document (document : value) (output_dir : string) : M string :=
  try_except (makedirs E output_dir) (fun _ => raise doc_type_unbound) ;;;
  doc_type <-
    try_except (lift (Py.get document "document_type" (VStr "document")))
               (fun _ => raise doc_type_unbound) ;;
  let file_path := path_join output_dir (str E doc_type ++ ".md") in
  doc_type_text <- lift (Py.as_str "upper" doc_type) ;;
  content <- lift (Py.get document "content" (VStr "N/A")) ;;
  metadata <- lift (Py.get document "metadata" (VDict [])) ;;
  document_version <- lift (Py.get metadata "document_version" (VStr "1.0")) ;;
  metadata <- lift (Py.get document "metadata" (VDict [])) ;;
  agent <- lift (Py.get metadata "agent" (VStr "Unknown")) ;;
  metadata <- lift (Py.get document "metadata" (VDict [])) ;;
  inputs <- lift (Py.get metadata "inputs" (VList [])) ;;
  inputs <- lift (Py.join ", " inputs) ;;
  metadata <- lift (Py.get document "metadata" (VDict [])) ;;
  version <- lift (Py.get metadata "version" (VStr "Unknown")) ;;
  let text_content :=
    text ["# " ++ str_upper E doc_type_text ++ " - " ++ project_name (cfg E);
          "";
          str E content; "";
          "---"; "";
          "## Document Metadata";
          "- Document Type: " ++ str_upper E doc_type_text;
          "- Version: " ++ str E document_version;
          "- Generated by: " ++ str E agent;
          "- Based on: " ++ inputs;
          "- Project Version: " ++ str E version] in
  write_file E file_path text_content ;;;
  ret file_path.

(** [refine_document]; the result is read as in
    [Analyzer.refine_analysis]. *)
Definition refine_document (document : value) (feedback : string)
  : M (value * value) :=
  doc_type <-
    try_except (lift (Py.get document "document_type" (VStr "document")))
               (fun _ => raise doc_type_unbound) ;;
  try_except
    (doc_type_text <- lift (Py.as_str "upper" doc_type) ;;
     content <- lift (Py.get document "content" (VStr "")) ;;
     let refinement_prompt :=
       text [""; "Original " ++ str_upper E doc_type_text ++ ":";
             str E content; "";
             "Feedback:"; feedback; "";
             "Please refine the " ++ str_upper E doc_type_text
             ++ " based on the feedback provided. Maintain professional formatting and completeness."] in
     refined_content <-
       llm_complete E refinement_prompt
         ("You are refining a " ++ str_upper E doc_type_text
          ++ " based on feedback. Maintain document structure and professionalism.") ;;
     original <- lift (Py.copy document) ;;
     let refined_document := Dict.set "content" (VStr refined_content) original in
     metadata <- lift (Py.index (VDict refined_document) "metadata") ;;
     metadata <- lift (Py.set_item metadata "refined" (VBool true)) ;;
     metadata <- lift (Py.set_item metadata "feedback" (VStr feedback)) ;;
     let refined_document := Dict.set "metadata" metadata refined_document in
     let refined_document :=
       Dict.set "sections"
                (Py.str_dict (_extract_document_sections refined_content))
                refined_document in
     let refined_document :=
       if String.eqb doc_type_text "brd" then
         Dict.set "requirements"
                  (Py.str_list (_extract_requirements refined_content))
                  refined_document
       else if String.eqb doc_type_text "srs" then
         Dict.set "technical_requirements"
                  (Py.str_list (_extract_technical_requirements refined_content))
                  refined_document
       else refined_document in
     ret (VDict refined_document, VDict (Dict.set "metadata" metadata original)))
    (fun e => ret (document, document)).

End WithEnv.

End DocumentWriter.

(** ** agents/refiner.py *)

Module Refiner.

Definition name : string := "Refiner".

Definition _analyze_feedback (feedback : string) : string :=
  let feedback_lower := lower feedback in
  if any_in ["structure"; "organize"; "format"; "section"] feedback_lower
  then "structure_improvement"
  else if any_in ["unclear"; "confusing"; "explain"; "clarify"] feedback_lower
  then "clarity_optimization"
  else if any_in ["missing"; "incomplete"; "add"; "include"] feedback_lower
  then "completeness_check"
  else "content_enhancement".

Definition strategy_instructions : list (string * string) :=
  [ ("structure_improvement",
     "Focus on improving the structure, organization, and formatting. Reorganize sections for better flow.");
    ("clarity_optimization",
     "Focus on making the content clearer and easier to understand. Simplify complex concepts.");
    ("completeness_check",
     "Focus on adding missing information and ensuring comprehensive coverage of all topics.");
    ("content_enhancement",
     "Focus on overall content quality, accuracy, and professional presentation.") ].

Definition _create_refinement_prompt
           (content feedback content_type strategy : string) : string :=
  let base_prompt :=
    nl ++ "Original " ++ content_type ++ ":" ++ nl ++ content ++ nl ++ nl
    ++ "Feedback received:" ++ nl ++ feedback ++ nl ++ nl
    ++ "Refinement strategy: " ++ strategy ++ nl in
  let instruction :=
    Dict.get_default strategy
      "Focus on overall content quality, accuracy, and professional presentation."
      strategy_instructions in
  base_prompt ++ nl ++ nl ++ instruction ++ nl ++ nl
  ++ "Please provide the refined " ++ content_type
  ++ " that addresses the feedback while maintaining or improving the overall quality."
  ++ nl.

Definition count (sub s : string) : nat :=
  count_from (S (String.length s)) sub s.

Definition headers_of (s : string) : list string :=
  filter Sections.is_heading (split_lines s).

Definition _identify_improvements (original refined : string) : list string :=
  let original_lines := List.length (split_lines original) in
  let refined_lines := List.length (split_lines refined) in
  let original_headers := List.length (headers_of original) in
  let refined_headers := List.length (headers_of refined) in
  let original_lists := count "- " original in
  let refined_lists := count "- " refined in
  List.app
    (if (original_lines <? refined_lines)%nat
     then ["Expanded content from " ++ of_nat original_lines ++ " to "
           ++ of_nat refined_lines ++ " lines"] else [])
    (List.app
       (if (original_headers <? refined_headers)%nat
        then ["Added " ++ of_nat (refined_headers - original_headers)
              ++ " new sections"] else [])
       (List.app
          (if contains "##" refined && negb (contains "##" original)
           then ["Improved document structure with sub-sections"] else [])
          (if (original_lists <? refined_lists)%nat
           then ["Added " ++ of_nat (refined_lists - original_lists)
                 ++ " new list items for better organization"] else []))).

Section WithEnv.
Variable E : env.

Definition refine_content (content : value) (feedback content_type : string)
  : M value :=
  try_except
    (let refinement_strategy := _analyze_feedback feedback in
     let prompt :=
       _create_refinement_prompt (str E content) feedback content_type
                                 refinement_strategy in
     refined_content <-
       llm_complete E prompt
         ("You are an expert editor refining " ++ content_type
          ++ ". Focus on addressing feedback while maintaining quality.") ;;
     original <- lift (Py.as_str "split" content) ;;
     ret (VDict
            [("original_content", content);
             ("refined_content", VStr refined_content);
             ("feedback", VStr feedback);
             ("content_type", VStr content_type);
             ("refinement_strategy", VStr refinement_strategy);
             ("metadata",
              VDict [("agent", VStr name); ("version", VStr (version E));
                     ("refinement_round", VInt 1)]);
             ("improvements",
              Py.str_list (_identify_improvements original refined_content))]))
    (fun e =>
       ret (VDict
              [("error", VStr (str_of_exn e));
               ("original_content", content);
               ("refined_content", content);
               ("feedback", VStr feedback);
               ("metadata",
                VDict [("agent", VStr name); ("error", VBool true)])])).

(** One round of [iterative_refinement]: the body of its loop over
    [enumerate(feedback_list, 1)], on the current content and the history. *)
Definition refinement_round (content_type : string)
           (st : value * list value) (round : nat * string)
  : M (value * list value) :=
  let '(current_content, refinement_history) := st in
  let '(i, feedback) := round in
  refinement_result <- refine_content current_content feedback content_type ;;
  next_content <-
    lift (Py.get refinement_result "refined_content" current_content) ;;
  strategy <- lift (Py.get refinement_result "refinement_strategy" VNone) ;;
  improvements <- lift (Py.get refinement_result "improvements" (VList [])) ;;
  ret (next_content,
       List.app refinement_history
         [VDict [("round", VInt (Z.of_nat i));
                 ("feedback", VStr feedback);
                 ("strategy", strategy);
                 ("improvements", improvements)]]).

(** [enumerate(l, start)] *)
Fixpoint enumerate {A : Type} (start : nat) (l : list A) : list (nat * A) :=
  match l with
  | [] => []
  | x :: l' => (start, x) :: enumerate (S start) l'
  end.

Definition iterative_refinement (content : value) (feedback_list : list string)
           (content_type : string) : M value :=
  try_except
    (st <- fold_m (enumerate 1 feedback_list) (refinement_round content_type)
                  (content, []) ;;
     let '(current_content, refinement_history) := st in
     ret (VDict
            [("original_content", content);
             ("final_refined_content", current_content);
             ("total_rounds", VInt (Z.of_nat (List.length feedback_list)));
             ("refinement_history", VList refinement_history);
             ("metadata",
              VDict [("agent", VStr name); ("version", VStr (version E));
                     ("content_type", VStr content_type);
                     ("iterative", VBool true)])]))
    (fun e =>
       ret (VDict
              [("error", VStr (str_of_exn e));
               ("original_content", content);
               ("final_refined_content", content);
               ("metadata",
                VDict [("agent", VStr name); ("error", VBool true)])])).

(** One line of the refinement history of an iterative refinement. *)
Definition history_line (r : value) : outcome string :=
  match Py.index r "round" with
  | Raise e => Raise e
  | Ok round =>
      match Py.index r "feedback" with
      | Raise e => Raise e
      | Ok feedback =>
          match Py.index r "strategy" with
          | Raise e => Raise e
          | Ok strategy =>
              Ok ("**Round " ++ str E round ++ "**: " ++ str E feedback
                  ++ " (Strategy: " ++ str E strategy ++ ")")
          end
      end
  end.

Fixpoint history_lines (l : list value) : outcome (list string) :=
  match l with
  | [] => Ok []
  | r :: l' =>
      match history_line r with
      | Raise e => Raise e
      | Ok line =>
          match history_lines l' with
          | Raise e => Raise e
          | Ok lines => Ok (line :: lines)
          end
      end
  end.

(** [save_refinement]: an error is logged and raised again. *)
Definition save_refinement (refinement : value) (output_dir : string)
           (filename : option string) : M string :=
  makedirs E output_dir ;;;
  filename <-
    match filename with
    | Some f =>
        if PyStr.truthy f then ret f
        else
          content_type <-
            lift (Py.get refinement "content_type" (VStr "document")) ;;
          ret ("refined_" ++ str E content_type ++ ".md")
    | None =>
        content_type <-
          lift (Py.get refinement "content_type" (VStr "document")) ;;
        ret ("refined_" ++ str E content_type ++ ".md")
    end ;;
  let file_path := path_join output_dir filename in
  iterative <- lift (Py.has_key "final_refined_content" refinement) ;;
  saved <-
    (if iterative : bool then
       content_to_save <- lift (Py.index refinement "final_refined_content") ;;
       total_rounds <- lift (Py.get refinement "total_rounds" (VInt 0)) ;;
       metadata <- lift (Py.get refinement "metadata" (VDict [])) ;;
       content_type <- lift (Py.get metadata "content_type" (VStr "Unknown")) ;;
       metadata <- lift (Py.get refinement "metadata" (VDict [])) ;;
       agent <- lift (Py.get metadata "agent" (VStr "Unknown")) ;;
       refinement_history <-
         lift (Py.get refinement "refinement_history" (VList [])) ;;
       refinement_history <- lift (Py.iter refinement_history) ;;
       lines <- lift (history_lines refinement_history) ;;
       ret (content_to_save,
            text [""; "## Refinement Summary";
                  "- Total refinement rounds: " ++ str E total_rounds;
                  "- Content type: " ++ str E content_type;
                  "- Agent: " ++ str E agent; "";
                  "### Refinement History";
                  join nl lines])
     else
       content_to_save <- lift (Py.get refinement "refined_content" (VStr "")) ;;
       refinement_strategy <-
         lift (Py.get refinement "refinement_strategy" (VStr "Unknown")) ;;
       improvements <- lift (Py.get refinement "improvements" (VList [])) ;;
       improvements <- lift (Py.join ", " improvements) ;;
       metadata <- lift (Py.get refinement "metadata" (VDict [])) ;;
       agent <- lift (Py.get metadata "agent" (VStr "Unknown")) ;;
       ret (content_to_save,
            text [""; "## Refinement Summary";
                  "- Strategy: " ++ str E refinement_strategy;
                  "- Improvements: " ++ improvements;
                  "- Agent: " ++ str E agent])) ;;
  let full_content :=
    text [str E (fst saved); ""; "---"; snd saved] in
  write_file E file_path full_content ;;;
  ret file_path.

End WithEnv.

End Refiner.

(** ** orchestrator.py *)

Module Orchestrator.

(** [self.state_dirs] *)
Definition state_dirs (n : nat) : string :=
  match n with
  | 1 => "state_1_analysis"
  | 2 => "state_2_architecture"
  | 3 => "state_3_features"
  | 4 => "state_4_documents"
  | 5 => "state_5_validation"
  | _ => "state_6_final"
  end.

(** What every handler of a stage returns. *)
Definition failed (e : exn) : M value :=
  ret (VDict [("status", VStr "failed"); ("error", VStr (str_of_exn e))]).

(** [f"{v:.2f}"] for an integer; a float is left to the environment. *)
Definition format_2f (E : env) (v : value) : outcome string :=
  match v with
  | VInt z => Ok (of_Z z ++ ".00")
  | VBool b => Ok (if b then "1.00" else "0.00")
  | VRatio _ _ => Ok (repr E v)
  | _ => Py.type_error ("unsupported format string passed to "
                        ++ Py.type_name v ++ ".__format__")
  end.

Definition with_build_state (v : value) (w : world) : world :=
  {| llm_calls := llm_calls w; clock := clock w; dirs := dirs w;
     files := files w; vector_store := vector_store w; history := history w;
     build_state := v |}.

Section WithEnv.
Variable E : env.

(** [_setup_output_structure]: an error is logged and raised again. *)
Definition _setup_output_structure : M unit :=
  makedirs E (output_base E) ;;;
  for_each [1; 2; 3; 4; 5; 6]
           (fun n => makedirs E (path_join (output_base E) (state_dirs n))) ;;;
  makedirs E (path_join (output_base E) "logs").

(** [__init__]: the only assignment to [self.build_state] in the class. *)
Definition init : M unit :=
  (fun w => (Ok tt, with_build_state (VDict []) w)) ;;;
  _setup_output_structure.

Definition _run_analysis (requirements : string) (context : value) : M value :=
  try_except
    (analysis_result <- Analyzer.analyze_requirements E requirements context ;;
     business_needs <- lift (Py.get context "business_needs" VNone) ;;
     (if Py.is_not_none business_needs then
        market_context <- lift (Py.get context "market_context" VNone) ;;
        if Py.is_not_none market_context then
          bnm <- lift (Py.index context "business_needs") ;;
          ctx <- lift (Py.index context "market_context") ;;
          Analyzer.analyze_bnmp E bnm ctx ;;; ret tt
        else ret tt
      else ret tt) ;;;
     let output_dir := path_join (output_base E) (state_dirs 1) in
     analysis_file <- Analyzer.save_analysis E analysis_result output_dir ;;
     analysis_content <-
       lift (Py.get analysis_result "analysis_content" (VStr "")) ;;
     add_document E analysis_content
       [("type", VStr "analysis"); ("agent", VStr "analyzer");
        ("version", VStr (version E)); ("file_path", VStr analysis_file)] ;;;
     log_history E "analysis_complete" (VList [VStr analysis_file]) (version E)
                 (VDict [("agent", VStr "analyzer")]) ;;;
     ret (VDict [("result", analysis_result);
                 ("files", VList [VStr analysis_file]);
                 ("status", VStr "completed")]))
    failed.

Definition _run_architecture (analysis_state : value) : M value :=
  try_except
    (analysis_result <- lift (Py.get analysis_state "result" (VDict [])) ;;
     architecture_result <-
       Architect.design_architecture E analysis_result "" ;;
     let output_dir := path_join (output_base E) (state_dirs 2) in
     architecture_file <-
       Architect.save_architecture E architecture_result output_dir ;;
     architecture_content <-
       lift (Py.get architecture_result "architecture_content" (VStr "")) ;;
     add_document E architecture_content
       [("type", VStr "architecture"); ("agent", VStr "architect");
        ("version", VStr (version E)); ("file_path", VStr architecture_file)] ;;;
     log_history E "architecture_complete" (VList [VStr architecture_file])
                 (version E) (VDict [("agent", VStr "architect")]) ;;;
     ret (VDict [("result", architecture_result);
                 ("files", VList [VStr architecture_file]);
                 ("status", VStr "completed")]))
    failed.

(** [[v["file_path"] for v in detailed_features.values()
      if isinstance(v, dict) and "file_path" in v]] *)
Definition detailed_files_of (details : list value) : outcome (list value) :=
  fold_right
    (fun v acc =>
       match acc with
       | Raise e => Raise e
       | Ok files =>
           if Py.is_dict_with "file_path" v then
             match Py.index v "file_path" with
             | Ok path => Ok (path :: files)
             | Raise e => Raise e
             end
           else Ok files
       end)
    (Ok []) details.

(** The loop that stores every detailed specification in the vector
    store. *)
Definition store_detail (item : string * value) : M unit :=
  let '(feature, detail) := item in
  if Py.is_dict_with "content" detail && Py.is_dict_with "file_path" detail
  then
    content <- lift (Py.index detail "content") ;;
    file_path <- lift (Py.index detail "file_path") ;;
    add_document E content
      [("type", VStr "feature_detail"); ("agent", VStr "feature_planner");
       ("feature", VStr feature); ("version", VStr (version E));
       ("file_path", file_path)] ;;;
    ret tt
  else ret tt.

(** [_run_feature_planning].  The flag [generate_detailed_features] is not
    read: [plan_features] is called with [detailed_features=True]. *)
Definition _run_feature_planning (analysis_state architecture_state : value)
           (generate_detailed_features : bool) : M value :=
  try_except
    (analysis_result <- lift (Py.get analysis_state "result" (VDict [])) ;;
     architecture_result <-
       lift (Py.get architecture_state "result" (VDict [])) ;;
     let output_dir := path_join (output_base E) (state_dirs 3) in
     features_result <-
       FeaturePlanner.plan_features E analysis_result architecture_result
                                    true (Some output_dir) ;;
     features_file <-
       FeaturePlanner.save_feature_plan E features_result output_dir ;;
     detailed_features <-
       lift (Py.get features_result "detailed_features" (VDict [])) ;;
     details <- lift (Py.values detailed_features) ;;
     detailed_files <- lift (detailed_files_of details) ;;
     items <- lift (Py.items detailed_features) ;;
     for_each items store_detail ;;;
     features_content <-
       lift (Py.get features_result "features_content" (VStr "")) ;;
     add_document E features_content
       [("type", VStr "features"); ("agent", VStr "feature_planner");
        ("version", VStr (version E)); ("file_path", VStr features_file)] ;;;
     let files := VList (VStr features_file :: detailed_files) in
     log_history E "features_complete" files (version E)
       (VDict [("agent", VStr "feature_planner");
               ("detailed_features",
                if Py.truthy detailed_features
                then Py.str_list (map fst items) else VNone)]) ;;;
     ret (VDict [("result", features_result);
                 ("files", files);
                 ("detailed_features", detailed_features);
                 ("status", VStr "completed")]))
    failed.

Definition _run_document_generation
           (analysis_state architecture_state features_state : value) : M value :=
  try_except
    (analysis_result <- lift (Py.get analysis_state "result" (VDict [])) ;;
     architecture_result <-
       lift (Py.get architecture_state "result" (VDict [])) ;;
     features_result <- lift (Py.get features_state "result" (VDict [])) ;;
     let output_dir := path_join (output_base E) (state_dirs 4) in
     brd_result <- DocumentWriter.generate_brd E analysis_result features_result ;;
     brd_file <- DocumentWriter.save_document E brd_result output_dir ;;
     srs_result <-
       DocumentWriter.generate_srs E analysis_result architecture_result
                                   features_result ;;
     srs_file <- DocumentWriter.save_document E srs_result output_dir ;;
     let generated_files := [VStr brd_file; VStr srs_file] in
     let documents := [("brd", brd_result); ("srs", srs_result)] in
     for_each documents
       (fun item =>
          let '(doc_type, doc_result) := item in
          content <- lift (Py.get doc_result "content" (VStr "")) ;;
          add_document E content
            [("type", VStr doc_type); ("agent", VStr "document_writer");
             ("version", VStr (version E));
             ("file_path",
              VStr (if String.eqb doc_type "srs" then srs_file else brd_file))] ;;;
          ret tt) ;;;
     log_history E "documents_complete" (VList generated_files) (version E)
       (VDict [("agent", VStr "document_writer");
               ("documents", VList [VStr "brd"; VStr "srs"])]) ;;;
     ret (VDict [("result", VDict documents);
                 ("files", VList generated_files);
                 ("status", VStr "completed")]))
    failed.

Definition _run_validation : M value :=
  try_except
    (validation_result <- Validator.validate_project_output E (output_base E) ;;
     let output_dir := path_join (output_base E) (state_dirs 5) in
     makedirs E output_dir ;;;
     let validation_file := path_join output_dir "validation_report.json" in
     write_file E validation_file (json_dumps E validation_result) ;;;
     overall_valid <- lift (Py.get validation_result "overall_valid" (VBool false)) ;;
     summary <- lift (Py.get validation_result "summary" (VDict [])) ;;
     average_score <- lift (Py.get summary "average_score" (VInt 0)) ;;
     log_history E "validation_complete" (VList [VStr validation_file])
       (version E)
       (VDict [("agent", VStr "validator");
               ("overall_valid", overall_valid);
               ("average_score", average_score)]) ;;;
     ret (VDict [("result", validation_result);
                 ("files", VList [VStr validation_file]);
                 ("status", VStr "completed")]))
    failed.

(** The two lines of the final report for one of the first four stages. *)
Definition phase_lines (states : value) (stage : string) : outcome (list string) :=
  match Py.index states stage with
  | Raise e => Raise e
  | Ok state =>
      match Py.index state "status" with
      | Raise e => Raise e
      | Ok status =>
          match Py.get state "files" (VList []) with
          | Raise e => Raise e
          | Ok files =>
              match Py.len files with
              | Raise e => Raise e
              | Ok n => Ok ["- Status: " ++ str E status;
                            "- Files: " ++ of_nat n]
              end
          end
      end
  end.

(** [[f"- {file}" for state in states.values()
      for file in state.get('files', [])]] *)
Fixpoint generated_files (states : list value) : outcome (list string) :=
  match states with
  | [] => Ok []
  | state :: rest =>
      match Py.get state "files" (VList []) with
      | Raise e => Raise e
      | Ok files =>
          match Py.iter files with
          | Raise e => Raise e
          | Ok l =>
              match generated_files rest with
              | Raise e => Raise e
              | Ok lines =>
                  Ok (List.app (map (fun file => "- " ++ str E file) l) lines)
              end
          end
      end
  end.

Definition _generate_final_report (build_result : value) : M value :=
  try_except
    (let output_dir := path_join (output_base E) (state_dirs 6) in
     makedirs E output_dir ;;;
     start_time <- lift (Py.index build_result "start_time") ;;
     generated <-
       lift (match start_time with
             | VTime t => Ok (strftime E t)
             | _ => Py.attribute_error start_time "strftime"
             end) ;;
     duration <- lift (Py.get build_result "duration" (VInt 0)) ;;
     duration <- lift (format_2f E duration) ;;
     requirements <- lift (Py.get build_result "requirements" (VStr "N/A")) ;;
     states <- lift (Py.index build_result "states") ;;
     analysis <- lift (phase_lines states "analysis") ;;
     states <- lift (Py.index build_result "states") ;;
     architecture <- lift (phase_lines states "architecture") ;;
     states <- lift (Py.index build_result "states") ;;
     features <- lift (phase_lines states "features") ;;
     states <- lift (Py.index build_result "states") ;;
     documents <- lift (phase_lines states "documents") ;;
     states <- lift (Py.index build_result "states") ;;
     validation <- lift (Py.index states "validation") ;;
     validation_status <- lift (Py.index validation "status") ;;
     validation_result <- lift (Py.get validation "result" (VDict [])) ;;
     overall_valid <-
       lift (Py.get validation_result "overall_valid" (VBool false)) ;;
     states <- lift (Py.index build_result "states") ;;
     all_states <- lift (Py.values states) ;;
     files <- lift (generated_files all_states) ;;
     stats <- get_collection_stats E ;;
     let report_content :=
       text (List.concat
               [["# " ++ project_name (cfg E) ++ " - Final Report"; "";
                 "## Project Overview";
                 "**Version**: " ++ version E;
                 "**Generated**: " ++ generated;
                 "**Duration**: " ++ duration ++ " seconds"; "";
                 "## Requirements"; str E requirements; "";
                 "## Build Summary"; "";
                 "### Analysis Phase"];
                analysis;
                [""; "### Architecture Phase"];
                architecture;
                [""; "### Features Phase"];
                features;
                [""; "### Documents Phase"];
                documents;
                [""; "### Validation Phase";
                 "- Status: " ++ str E validation_status;
                 "- Overall Valid: " ++ str E overall_valid; "";
                 "## Generated Files"; join nl files; "";
                 "## Vector Store Statistics"; str E stats; "";
                 "## Project Metadata";
                 "- Author: " ++ project_author (cfg E);
                 "- Description: " ++ project_description (cfg E);
                 "- LLM Provider: " ++ llm_provider (cfg E);
                 "- Model: " ++ llm_model_name (cfg E)]]) in
     let report_file := path_join output_dir "final_report.md" in
     write_file E report_file report_content ;;;
     all_files <- lift (Py.get build_result "files" (VList [])) ;;
     total_files <- lift (Py.len all_files) ;;
     log_history E "final_report_complete" (VList [VStr report_file])
       (version E)
       (VDict [("agent", VStr "orchestrator");
               ("total_files", VInt (Z.of_nat total_files))]) ;;;
     ret (VDict [("result", VDict [("report_content", VStr report_content)]);
                 ("files", VList [VStr report_file]);
                 ("status", VStr "completed")]))
    failed.

(** [(end - start).total_seconds()] *)
Definition total_seconds (start_time end_time : value) : value :=
  match start_time, end_time with
  | VTime s, VTime e => VRatio (e - s) 1000000
  | _, _ => VNone
  end.

(** [build_project]: its own handler logs the error and raises it again.
    No statement assigns [self.build_state]. *)
Definition build_project (requirements : string) (context : value)
           (generate_detailed_features : bool) : M value :=
  start_time <- datetime_now E ;;
  let build_result (states : list (string * value)) :=
    [("start_time", start_time);
     ("requirements", VStr requirements);
     ("context", Py.or_empty_dict context);
     ("states", VDict states);
     ("files", VList []);
     ("version", VStr (version E))] in
  analysis <- _run_analysis requirements context ;;
  architecture <- _run_architecture analysis ;;
  features <-
    _run_feature_planning analysis architecture generate_detailed_features ;;
  documents <- _run_document_generation analysis architecture features ;;
  validation <- _run_validation ;;
  let states :=
    [("analysis", analysis); ("architecture", architecture);
     ("features", features); ("documents", documents);
     ("validation", validation)] in
  final <- _generate_final_report (VDict (build_result states)) ;;
  end_time <- datetime_now E ;;
  let duration := total_seconds start_time end_time in
  log_history E "build_complete" (VList []) (version E)
              (VDict [("duration", duration)]) ;;;
  ret (VDict (List.app (build_result (List.app states [("final", final)]))
                       [("end_time", end_time); ("duration", duration)])).

Definition refine_document_of_state (feedback : string)
           (item : string * value) : M unit :=
  let '(doc_type, doc_result) := item in
  content <- lift (Py.get doc_result "content" (VStr "")) ;;
  refined_doc <- Refiner.refine_content E content feedback doc_type ;;
  let output_dir :=
    path_join (path_join (output_base E) (state_dirs 4)) "refined" in
  Refiner.save_refinement E refined_doc output_dir
                          (Some ("refined_" ++ doc_type ++ ".md")) ;;;
  ret tt.

Definition refine_with_feedback (feedback target_state : string) : M value :=
  try_except
    ((if String.eqb target_state "documents" then
        self_build_state <- (fun w => (Ok (build_state w), w)) ;;
        docs_state <- lift (Py.get self_build_state "documents" (VDict [])) ;;
        result <- lift (Py.get docs_state "result" VNone) ;;
        if Py.truthy result then
          result <- lift (Py.index docs_state "result") ;;
          items <- lift (Py.items result) ;;
          for_each items (refine_document_of_state feedback)
        else ret tt
      else ret tt) ;;;
     ret (VDict [("status", VStr "completed");
                 ("refined_state", VStr target_state)]))
    failed.

End WithEnv.

End Orchestrator.

(** * Properties

    The notions the statements below are written with, and the inputs of
    their examples. *)

Module Spec.

(** Every character of a string satisfies [p]. *)
Fixpoint all_chars (p : ascii -> bool) (s : string) : bool :=
  match s with
  | EmptyString => true
  | String c s' => p c && all_chars p s'
  end.

(** A character that [str.isalnum] accepts and that is not upper case. *)
Definition lower_alnum (c : ascii) : bool := isalnum c && negb (isupper c).

(** The characters of a sanitized file name. *)
Definition name_char (c : ascii) : bool := lower_alnum c || Ascii.eqb c "_".

(** Among the ASCII characters these are [a-z], [0-9] and the underscore. *)
Definition ascii_name_char (c : ascii) : bool :=
  (128 <=? code c)%nat || between 97 122 c || between 48 57 c || Ascii.eqb c "_".

(** MATHEMATICAL BOLD CAPITAL A (U+1D400): a letter of the category Lu
    that has no lower-case mapping.  The database below has its entry:
    in a string with this letter [str.lower] leaves the letter as it is
    and maps the characters below 256 as elsewhere.  Every other code
    point from 256 on is entered as a symbol without case. *)
Definition bold_capital_a : N := 119808%N.

Definition bold_capital_database : Unicode.database :=
  {| Unicode.db_isalnum := fun c => (c =? bold_capital_a)%N;
     Unicode.db_isupper := fun c => (c =? bold_capital_a)%N;
     Unicode.db_lower :=
       map (fun c => if Unicode.latin1 c
                     then N_of_ascii (PyStr.lower_char (ascii_of_N c))
                     else c) |}.

Definition brd_sections : list string :=
  ["Executive Summary"; "Business Objectives";
   "Functional Requirements"; "Non-functional Requirements"].

Definition missing_message (section : string) : string :=
  "Missing required section: " ++ section.

(** A BRD with headings, seven short lines and every mandatory section but
    the executive summary. *)
Definition brd_without_summary : string :=
  "# BRD" ++ nl ++
  "## Business Objectives" ++ nl ++ "Grow the readership." ++ nl ++
  "## Functional Requirements" ++ nl ++ "Posts and comments." ++ nl ++
  "## Non-functional Requirements" ++ nl ++ "Pages load fast.".

(** A BRD of two lines that lacks only the executive summary. *)
Definition short_brd_without_summary : string :=
  "# Business Objectives and Functional Requirements" ++ nl ++
  "Non-functional Requirements".

(** No line of the text is a heading. *)
Definition no_heading (content : string) : bool :=
  forallb (fun line => negb (Sections.is_heading line)) (split_lines content).

(** *** Stubbed collaborators for the scenarios *)

Definition sample_config : config :=
  {| base_path := "./output";
     current_version := "v1";
     project_name := "AI Builder Project";
     project_author := "AI Builder System";
     project_description := "";
     llm_provider := "ollama";
     llm_model_name := "llama3";
     collection_name := "ai_builder_docs" |}.

(** A file system that held nothing before the run and names every path
    as the run has written it: a path exists when it is a directory or
    file written or a prefix of one, the walk lists every file below the
    top directory with the top directory itself, and a text is read as it
    was written. *)
Definition written_path_exists (w : world) (path : string) : bool :=
  existsb (fun d => String.eqb d path || startswith (path ++ "/") d)
          (dirs w ++ Dict.keys (files w)).

Definition written_walk (w : world) (top : string)
  : list (string * list string * list string) :=
  [(top, [],
    map (drop (String.length (top ++ "/")))
        (filter (startswith (top ++ "/")) (Dict.keys (files w))))].

Definition written_text (w : world) (path : string) : outcome string :=
  match Dict.get path (files w) with
  | Some content => Ok content
  | None =>
      Raise (Exception "FileNotFoundError"
               ("[Errno 2] No such file or directory: '" ++ path ++ "'"))
  end.

(** An environment in which every write and every vector store insertion
    succeeds, and whose provider is [provider]. *)
Definition stub_env (provider : nat -> string -> string -> outcome string)
  : env :=
  {| cfg := sample_config;
     complete := provider;
     get_prompt := fun name _ => "Prompt: " ++ name;
     str_format := fun template _ => Ok template;
     fs_error := fun _ => None;
     vector_error := fun _ _ _ => None;
     os_path_exists := written_path_exists;
     os_walk := written_walk;
     read_text := written_text;
     md5 := fun text => text;
     now := fun ticks => Z.of_nat ticks;
     strftime := fun _ => "2025-01-01 00:00:00";
     repr := fun _ => "<object>";
     json_dumps := fun _ => "{}";
     str_upper := fun s => s |}.

Definition provider_error : exn := Exception "ProviderError" "provider unavailable".

(** The state before the orchestrator is constructed. *)
Definition empty_world : world :=
  {| llm_calls := 0; clock := 0; dirs := []; files := []; vector_store := [];
     history := []; build_state := VNone |}.

(** A feature plan with three extracted features. *)
Definition three_categories : list (string * list string) :=
  [("core", ["Login"; "Posts"]); ("enhanced", ["Comments"]); ("optional", [])].

Definition three_features_dict : list (string * value) :=
  [("features_content", VStr "plan");
   ("feature_categories", Py.list_dict three_categories)].

Definition three_features : value := VDict three_features_dict.

(** A provider that fails on its second call only. *)
Definition fails_on_second_call : nat -> string -> string -> outcome string :=
  fun k _ _ => if (k =? 1)%nat then Raise provider_error else Ok "A specification.".

Definition architect_system_prompt : string :=
  "You are a senior software architect. Design scalable and maintainable system architecture.".

Definition stub_markdown : string :=
  "# Overview" ++ nl ++ "Core features" ++ nl ++ "- Posts" ++ nl ++ "- Comments".

(** A provider that fails for the architect and answers every other agent
    with a fixed markdown text. *)
Definition fails_for_architect : nat -> string -> string -> outcome string :=
  fun _ _ system_prompt =>
    if String.eqb system_prompt architect_system_prompt
    then Raise provider_error else Ok stub_markdown.

(** A provider that always answers. *)
Definition always_answers : nat -> string -> string -> outcome string :=
  fun _ _ _ => Ok stub_markdown.

(** A provider that never answers. *)
Definition never_answers : nat -> string -> string -> outcome string :=
  fun _ _ _ => Raise provider_error.

Definition sample_analysis : list (string * value) :=
  [("raw_requirements", VStr "Build a blog");
   ("analysis_content", VStr "A blog.");
   ("metadata", VDict [("agent", VStr "Analyzer")])].

(** The provider raises on the next call, whatever it is asked. *)
Definition next_call_raises (E : env) (w : world) : Prop :=
  forall prompt system_prompt,
  exists e, complete E (llm_calls w) prompt system_prompt = Raise e.

(** The provider answers the calls number [from], ..., [from + count - 1]. *)
Definition answers (E : env) (from count : nat) : Prop :=
  forall k prompt system_prompt,
    from <= k < from + count ->
    exists text, complete E k prompt system_prompt = Ok text.

(** The provider raises [e] on call number [k]. *)
Definition raises_at (E : env) (k : nat) (e : exn) : Prop :=
  forall prompt system_prompt, complete E k prompt system_prompt = Raise e.

(** Every path can be written. *)
Definition writes_succeed (E : env) : Prop := forall path, fs_error E path = None.

(** The detail template can be formatted with every feature. *)
Definition format_succeeds (E : env) : Prop :=
  forall template feature,
  exists prompt, str_format E template (VStr feature) = Ok prompt.

(** The vector store accepts every document. *)
Definition store_accepts (E : env) : Prop :=
  forall store text metadata, vector_error E store text metadata = None.

(** An entry of the mapping of detailed features that carries generated
    content. *)
Definition detail_entry (v : value) : Prop :=
  exists content file_path,
    v = VDict [("content", VStr content); ("file_path", VStr file_path)].

(** Every key of the mapping is bound to an entry with content. *)
Definition all_detailed (d : list (string * value)) : Prop :=
  forall f, In f (Dict.keys d) -> exists v, Dict.get f d = Some v /\ detail_entry v.

(** A computation that leaves the orchestrator's [build_state] as it is,
    whether it returns or raises. *)
Definition keeps_build_state {A : Type} (m : M A) : Prop :=
  forall w, build_state (snd (m w)) = build_state w.

(** [d["states"][k]["status"]] of a build result, when it is there. *)
Definition stage_status (build_result : value) (stage : string) : option value :=
  match Py.index build_result "states" with
  | Ok states =>
      match Py.index states stage with
      | Ok state =>
          match Py.index state "status" with
          | Ok status => Some status
          | Raise _ => None
          end
      | Raise _ => None
      end
  | Raise _ => None
  end.

(** [m] returns from [w], with a result and a state that satisfy [P]. *)
Definition succeeds {A : Type} (m : M A) (w : world) (P : A -> world -> Prop)
  : Prop :=
  exists a w', m w = (Ok a, w') /\ P a w'.

(** Whenever [m] returns, its result satisfies [P]. *)
Definition returns_with {A : Type} (m : M A) (P : A -> Prop) : Prop :=
  forall w a w', m w = (Ok a, w') -> P a.

Definition is_dict (v : value) : Prop := exists d, v = VDict d.

(** What the orchestrator records for a stage: a dictionary with a status,
    completed or failed, and, when there are files, a list of them. *)
Definition stage_shape (v : value) : Prop :=
  exists d,
    v = VDict d
    /\ (exists s, Dict.get "status" d = Some (VStr s)
                  /\ (s = "completed" \/ s = "failed"))
    /\ (exists files, Dict.get_default "files" (VList []) d = VList files)
    /\ is_dict (Dict.get_default "result" (VDict []) d).

(** A stage recorded as completed. *)
Definition completed_stage (v : value) : Prop :=
  exists d, v = VDict d /\ Dict.get "status" d = Some (VStr "completed").

(** The degraded artifact of the architect. *)
Definition degraded_architecture (v : value) : Prop :=
  exists e analysis,
    v = VDict [("error", VStr e);
               ("base_analysis", analysis);
               ("architecture_content", VStr "");
               ("metadata",
                VDict [("agent", VStr "Architect"); ("error", VBool true)])].

(** Where the architect's artifact is saved, what the file holds for the
    degraded artifact, and the entry under which the vector store indexes
    it: its text is the empty [architecture_content]. *)
Definition architecture_file (E : env) : string :=
  path_join (path_join (output_base E) (Orchestrator.state_dirs 2))
            "system_architecture.md".

Definition degraded_architecture_text : string :=
  text ["# System Architecture Design"; "";
        "## Architecture Overview"; ""; "";
        "## System Components"; ""; "";
        "## Technology Stack"; "";
        "### Backend"; ""; "";
        "### Frontend"; ""; "";
        "### Mobile"; ""; "";
        "### Database"; ""; "";
        "### Infrastructure"; ""; "";
        "## Metadata";
        "- Agent: Architect";
        "- Version: Unknown";
        "- Based on: Unknown"].

Definition degraded_architecture_entry (E : env) : string * value :=
  (EmptyString,
   VDict [("type", VStr "document");
          ("agent", VStr "architect");
          ("version", VStr (version E));
          ("file_path", VStr (architecture_file E));
          ("length", VInt 0)]).

(** [d["states"][k]["files"]] of a build result, when it is there. *)
Definition stage_files (build_result : value) (stage : string) : option value :=
  match Py.index build_result "states" with
  | Ok states =>
      match Py.index states stage with
      | Ok state =>
          match Py.index state "files" with
          | Ok files => Some files
          | Raise _ => None
          end
      | Raise _ => None
      end
  | Raise _ => None
  end.

(** The values of the mapping that [generate_detailed_features] returns:
    entries with content, or the message under ["error"]. *)
Definition details_shape (v : value) : Prop :=
  exists r,
    v = VDict r
    /\ Forall (fun kv => detail_entry (snd kv) \/ exists msg, snd kv = VStr msg) r.

(** The two forms of the dictionary that [plan_features] returns. *)
Definition features_shape (v : value) : Prop :=
  (exists e analysis architecture,
      v = VDict [("error", VStr e);
                 ("base_analysis", analysis);
                 ("base_architecture", architecture);
                 ("features_content", VStr "");
                 ("metadata",
                  VDict [("agent", VStr "FeaturePlanner");
                         ("error", VBool true)])])
  \/ (exists analysis architecture content version categories timeline extra,
         v = VDict (List.app
                      [("base_analysis", analysis);
                       ("base_architecture", architecture);
                       ("features_content", VStr content);
                       ("metadata",
                        VDict [("agent", VStr "FeaturePlanner");
                               ("version", VStr version);
                               ("inputs",
                                VList [VStr "analysis"; VStr "architecture"])]);
                       ("feature_categories", Py.list_dict categories);
                       ("timeline", Py.str_dict timeline)]
                      extra)
         /\ (extra = []
             \/ exists details,
                 extra = [("detailed_features", details)]
                 /\ details_shape details)).

(** The provider raises whenever the architect calls it. *)
Definition architect_calls_raise (E : env) : Prop :=
  forall k prompt,
  exists e, complete E k prompt architect_system_prompt = Raise e.

(** The build that the examples refine: the orchestrator is constructed and
    a blog is built with a provider that always answers. *)
Definition blog_build : outcome value * world :=
  bind (Orchestrator.init (stub_env always_answers))
       (fun _ =>
          Orchestrator.build_project (stub_env always_answers)
            "Build a blog with posts and comments" (VDict []) false)
       empty_world.

(** The same build with a provider that fails for the architect. *)
Definition blog_build_without_architect : outcome value * world :=
  bind (Orchestrator.init (stub_env fails_for_architect))
       (fun _ =>
          Orchestrator.build_project (stub_env fails_for_architect)
            "Build a blog with posts and comments" (VDict []) false)
       empty_world.

(** [d["states"][k]["result"]] of a build result, when it is there. *)
Definition stage_result (build_result : value) (stage : string) : option value :=
  match Py.index build_result "states" with
  | Ok states =>
      match Py.index states stage with
      | Ok state =>
          match Py.index state "result" with
          | Ok result => Some result
          | Raise _ => None
          end
      | Raise _ => None
      end
  | Raise _ => None
  end.

(** The status recorded for a stage is "completed" or "failed". *)
Definition stage_recorded (build_result : value) (stage : string) : Prop :=
  exists s, stage_status build_result stage = Some (VStr s)
            /\ (s = "completed" \/ s = "failed").

(** The dictionary that [build_project] returns. *)
Definition built (E : env) (requirements : string) (context : value)
           (start_time end_time : Z)
           (analysis architecture features documents validation final : value)
  : value :=
  VDict [("start_time", VTime start_time);
         ("requirements", VStr requirements);
         ("context", Py.or_empty_dict context);
         ("states",
          VDict [("analysis", analysis); ("architecture", architecture);
                 ("features", features); ("documents", documents);
                 ("validation", validation); ("final", final)]);
         ("files", VList []);
         ("version", VStr (version E));
         ("end_time", VTime end_time);
         ("duration", VRatio (end_time - start_time) 1000000)].

(** The status and the result of a stage after a run that returned. *)
Definition status_after (run : outcome value * world) (stage : string)
  : option value :=
  match fst run with
  | Ok build_result => stage_status build_result stage
  | Raise _ => None
  end.

Definition result_after (run : outcome value * world) (stage : string)
  : option value :=
  match fst run with
  | Ok build_result => stage_result build_result stage
  | Raise _ => None
  end.

Definition stages : list string :=
  ["analysis"; "architecture"; "features"; "documents"; "validation"; "final"].

(** *** Notions for the further properties *)

(** A requirement or feature as the extractors keep it: stripped text. *)
Definition stripped (s : string) : Prop := strip s = s.

(** No line of the text, stripped and lower-cased, contains a keyword. *)
Definition no_keyword_line (keywords : list string) (content : string) : bool :=
  forallb (fun line => negb (any_in keywords (lower (strip line))))
          (split_lines content).

(** A feature as [_extract_feature_categories] keeps it. *)
Definition good_feature (f : string) : Prop :=
  f <> EmptyString /\ String.length f < 100 /\ stripped f.

(** The dictionary of categories: its three keys, and good features. *)
Definition good_categories (categories : list (string * list string)) : Prop :=
  Dict.keys categories = ["core"; "enhanced"; "optional"]
  /\ Forall (fun kv => Forall good_feature (snd kv)) categories.

(** [current_category] is [None] or one of the three keys. *)
Definition known_category (current : option string) : Prop :=
  match current with
  | None => True
  | Some cat => In cat ["core"; "enhanced"; "optional"]
  end.

(** The document types that [validate_document] knows. *)
Definition known_doc_type (doc_type : string) : bool :=
  Validator.is_in doc_type ["markdown"; "brd"; "srs"].

(** Is the file [path] valid, read in the state [w] and validated as the
    type that its name gives?  A file that cannot be read is not valid and
    scores 0. *)
Definition file_valid (E : env) (w : world) (path : string) : bool :=
  match read_text E w path with
  | Ok content =>
      Validator.valid
        (Validator.validate_document content (Validator.doc_type_of path))
  | Raise _ => false
  end.

Definition file_score (E : env) (w : world) (path : string) : Z :=
  match read_text E w path with
  | Ok content =>
      Validator.score
        (Validator.validate_document content (Validator.doc_type_of path))
  | Raise _ => 0%Z
  end.

(** The summary of the validation of a directory. *)
Definition validation_summary (v : value) : option (value * value * value * value) :=
  match Py.index v "overall_valid", Py.index v "summary" with
  | Ok overall, Ok summary =>
      match Py.index summary "total_files", Py.index summary "valid_files",
            Py.index summary "average_score" with
      | Ok total, Ok valid_files, Ok average =>
          Some (overall, total, valid_files, average)
      | _, _, _ => None
      end
  | _, _ => None
  end.

(** What [validate_project_output] reports when [os.path.exists] answers
    [found] and the markdown files of the walk are [md_files]: nothing
    valid for a missing directory; otherwise whether all the files are
    valid, how many there are, how many are valid, and the mean score. *)
Definition summary_of (E : env) (w : world) (found : bool)
           (md_files : list string) : value * value * value * value :=
  if found then
    (VBool (forallb (file_valid E w) md_files),
     VInt (Z.of_nat (List.length md_files)),
     VInt (Z.of_nat (List.length (filter (file_valid E w) md_files))),
     match md_files with
     | [] => VInt 0
     | _ => VRatio (fold_left Z.add (map (file_score E w) md_files) 0%Z)
                   (Z.of_nat (List.length md_files))
     end)
  else (VBool false, VInt 0, VInt 0, VInt 0).

(** The text of a mapping of sections: for each section its heading line
    and its body. *)
Definition serialize_sections (m : list (string * string)) : string :=
  join nl (map (fun kv => "# " ++ fst kv ++ nl ++ snd kv) m).

Definition no_newline (s : string) : bool :=
  all_chars (fun c => negb (Ascii.eqb c newline)) s.

(** A section as the extractor produces it: a non-empty stripped title on
    one line, and a stripped body without heading lines. *)
Definition section_entry (kv : string * string) : Prop :=
  fst kv <> EmptyString /\ stripped (fst kv) /\ no_newline (fst kv) = true
  /\ stripped (snd kv) /\ no_heading (snd kv) = true.

(** The lines of [serialize_sections m]. *)
Definition lines_of (m : list (string * string)) : list string :=
  flat_map (fun kv => ("# " ++ fst kv) :: split_lines (snd kv)) m.

(** The state of the section loop holds distinct non-empty stripped titles
    and stripped bodies. *)
Definition sections_ok (sections : list (string * string)) : Prop :=
  NoDup (Dict.keys sections)
  /\ Forall (fun kv => fst kv <> EmptyString /\ stripped (fst kv)
                       /\ stripped (snd kv)) sections.

(** An entry of the history of an iterative refinement for a round. *)
Definition round_entry (round : nat * string) (v : value) : Prop :=
  exists strategy improvements,
    v = VDict [("round", VInt (Z.of_nat (fst round)));
               ("feedback", VStr (snd round));
               ("strategy", strategy);
               ("improvements", improvements)].

(** The entry of a round whose refinement failed. *)
Definition failed_round (round : nat * string) : value :=
  VDict [("round", VInt (Z.of_nat (fst round)));
         ("feedback", VStr (snd round));
         ("strategy", VNone);
         ("improvements", VList [])].

(** The dictionary that [iterative_refinement] returns from its loop. *)
Definition iterative_result (E : env) (content final : value) (rounds : nat)
           (history : list value) (content_type : string) : value :=
  VDict [("original_content", content);
         ("final_refined_content", final);
         ("total_rounds", VInt (Z.of_nat rounds));
         ("refinement_history", VList history);
         ("metadata",
          VDict [("agent", VStr "Refiner"); ("version", VStr (version E));
                 ("content_type", VStr content_type);
                 ("iterative", VBool true)])].

(** The provider raises on every call. *)
Definition provider_down (E : env) : Prop :=
  forall k prompt system_prompt,
  exists e, complete E k prompt system_prompt = Raise e.

(** The two forms of the dictionary that [analyze_requirements] returns. *)
Definition analysis_shape (v : value) : Prop :=
  (exists e requirements,
      v = VDict [("error", VStr e);
                 ("raw_requirements", VStr requirements);
                 ("analysis_content", VStr "");
                 ("metadata",
                  VDict [("agent", VStr "Analyzer"); ("error", VBool true)])])
  \/ (exists requirements content version context sections,
         v = VDict [("raw_requirements", VStr requirements);
                    ("analysis_content", VStr content);
                    ("metadata",
                     VDict [("agent", VStr "Analyzer");
                            ("version", VStr version);
                            ("context", context)]);
                    ("sections", sections)]).

(** The two forms of the dictionary that [design_architecture] returns. *)
Definition architecture_shape (v : value) : Prop :=
  degraded_architecture v
  \/ (exists analysis content version based_on components stack,
         v = VDict [("base_analysis", analysis);
                    ("architecture_content", VStr content);
                    ("metadata",
                     VDict [("agent", VStr "Architect");
                            ("version", VStr version);
                            ("based_on", based_on)]);
                    ("components", Py.str_list components);
                    ("technology_stack", Py.list_dict stack)]).

(** The two forms of the dictionary that [generate_brd] and [generate_srs]
    return. *)
Definition document_shape (v : value) : Prop :=
  (exists e doc_type,
      v = VDict [("error", VStr e);
                 ("document_type", VStr doc_type);
                 ("content", VStr "");
                 ("metadata",
                  VDict [("agent", VStr "DocumentWriter");
                         ("error", VBool true)])])
  \/ (exists doc_type content version inputs sections key requirements,
         v = VDict [("document_type", VStr doc_type);
                    ("content", VStr content);
                    ("metadata",
                     VDict [("agent", VStr "DocumentWriter");
                            ("version", VStr version);
                            ("inputs", Py.str_list inputs);
                            ("document_version", VStr "1.0")]);
                    ("sections", sections);
                    (key, requirements)]).

(** What [_run_analysis] records when the context is [None]. *)
Definition analysis_without_context : value :=
  VDict [("status", VStr "failed");
         ("error", VStr "'NoneType' object has no attribute 'get'")].

(** [d["states"][k]] of a build result, when it is there. *)
Definition stage_record (build_result : value) (stage : string) : option value :=
  match Py.index build_result "states" with
  | Ok states =>
      match Py.index states stage with
      | Ok state => Some state
      | Raise _ => None
      end
  | Raise _ => None
  end.

(** An entry of the vector store as [add_document] writes it: whatever
    metadata the caller passed, its type is ["document"] and its length is
    the length of the text. *)
Definition indexed_document (entry : string * value) : Prop :=
  exists metadata,
    snd entry = VDict metadata
    /\ Dict.get "type" metadata = Some (VStr "document")
    /\ Dict.get "length" metadata
       = Some (VInt (Z.of_nat (String.length (fst entry)))).

(** From [w] to [w'] nothing was removed: the counters did not go back,
    every file is still there, and directories, vector store and history
    were only extended at their end. *)
Definition grows (w w' : world) : Prop :=
  llm_calls w <= llm_calls w'
  /\ clock w <= clock w'
  /\ (exists created, dirs w' = List.app (dirs w) created)
  /\ (forall path, In path (Dict.keys (files w)) -> In path (Dict.keys (files w')))
  /\ (exists documents,
         vector_store w' = List.app (vector_store w) documents
         /\ Forall indexed_document documents)
  /\ (exists entries, history w' = List.app (history w) entries).

(** A computation that only adds, whether it returns or raises. *)
Definition only_adds {A : Type} (m : M A) : Prop :=
  forall w, grows w (snd (m w)).

(** An entry of the timeline: the stripped text before and after the first
    colon of a line of the content that mentions a timeline keyword. *)
Definition timeline_entry (content : string) (kv : string * string) : Prop :=
  exists label description,
    In (label ++ ":" ++ description) (split_lines content)
    /\ any_in ["phase"; "sprint"; "week"; "month"; "quarter"]
              (lower (label ++ ":" ++ description)) = true
    /\ all_chars (fun c => negb (Ascii.eqb c ":")) label = true
    /\ fst kv = strip label /\ snd kv = strip description.

(** An environment in which no path can be written. *)
Definition read_only_env (provider : nat -> string -> string -> outcome string)
  : env :=
  {| cfg := sample_config;
     complete := provider;
     get_prompt := fun name _ => "Prompt: " ++ name;
     str_format := fun template _ => Ok template;
     fs_error := fun _ =>
       Some (Exception "PermissionError" "[Errno 13] Permission denied");
     vector_error := fun _ _ _ => None;
     os_path_exists := written_path_exists;
     os_walk := written_walk;
     read_text := written_text;
     md5 := fun text => text;
     now := fun ticks => Z.of_nat ticks;
     strftime := fun _ => "2025-01-01 00:00:00";
     repr := fun _ => "<object>";
     json_dumps := fun _ => "{}";
     str_upper := fun s => s |}.

(** The file of the detailed specification of a feature, and the entry
    that [generate_detailed_features] records for it. *)
Definition detail_path (output_dir feature : string) : string :=
  path_join (path_join output_dir "features")
            (FeaturePlanner.safe_name feature ++ ".md").

Definition detail_of (content file_path : string) : value :=
  VDict [("content", VStr content); ("file_path", VStr file_path)].

(** The entries of the mapping point to the file of their feature, and
    each of these files holds the content of an entry that points to it. *)
Definition details_on_disk (output_dir : string) (r : list (string * value))
           (w : world) : Prop :=
  forall f,
    In f (Dict.keys r) ->
    (exists content,
        Dict.get f r = Some (detail_of content (detail_path output_dir f)))
    /\ (exists content h,
           Dict.get (detail_path output_dir f) (files w) = Some content
           /\ detail_path output_dir h = detail_path output_dir f
           /\ Dict.get h r
              = Some (detail_of content (detail_path output_dir f))).

(** A text that passes the format and structure checks without a remark:
    it is not blank, has at least five lines, none longer than 200
    characters, and has headers whose levels never skip. *)
Definition clean_markdown (content : string) : Prop :=
  truthy (strip content) = true
  /\ 5 <= List.length (split_lines content)
  /\ Forall (fun line => String.length line <= 200) (split_lines content)
  /\ Validator.header_levels (split_lines content) <> []
  /\ Validator.level_skipped (Validator.header_levels (split_lines content))
     = false.

Definition category_keywords : list string :=
  ["core"; "must-have"; "essential"; "enhanced"; "should-have"; "important";
   "optional"; "nice-to-have"; "future"].

End Spec.
Import Spec.

(** ** Strings *)

Section StringFacts.

Lemma all_chars_map_str (p : ascii -> bool) (f : ascii -> ascii) (s : string) :
  (forall c, p (f c) = true) -> all_chars p (map_str f s) = true.
Proof.
  intros Hf. induction s as [|c s IH]; simpl; [reflexivity|].
  now rewrite Hf, IH.
Qed.

Lemma all_chars_drop_while (p q : ascii -> bool) (s : string) :
  all_chars p s = true -> all_chars p (drop_while q s) = true.
Proof.
  induction s as [|c s IH]; simpl; [reflexivity|].
  intros H. apply andb_true_iff in H as [Hc Hs].
  destruct (q c); [now apply IH|]. simpl. now rewrite Hc, Hs.
Qed.

Lemma all_chars_rev_str (p : ascii -> bool) (s acc : string) :
  all_chars p s = true -> all_chars p acc = true ->
  all_chars p (rev_str acc s) = true.
Proof.
  revert acc. induction s as [|c s IH]; simpl; intros acc Hs Hacc; [assumption|].
  apply andb_true_iff in Hs as [Hc Hs].
  apply IH; [assumption|]. simpl. now rewrite Hc, Hacc.
Qed.

Lemma all_chars_drop_while_end (p q : ascii -> bool) (s : string) :
  all_chars p s = true -> all_chars p (drop_while_end q s) = true.
Proof.
  intros H. unfold drop_while_end.
  apply all_chars_rev_str; [|reflexivity].
  apply all_chars_drop_while. now apply all_chars_rev_str.
Qed.

Lemma all_chars_take (p : ascii -> bool) (n : nat) (s : string) :
  all_chars p s = true -> all_chars p (take n s) = true.
Proof.
  revert s. induction n as [|n IH]; intros [|c s]; simpl; try reflexivity.
  intros H. apply andb_true_iff in H as [Hc Hs]. now rewrite Hc, IH.
Qed.

Lemma all_chars_weaken (p q : ascii -> bool) (s : string) :
  (forall c, p c = true -> q c = true) ->
  all_chars p s = true -> all_chars q s = true.
Proof.
  intros Hpq. induction s as [|c s IH]; simpl; [reflexivity|].
  intros H. apply andb_true_iff in H as [Hc Hs].
  now rewrite (Hpq _ Hc), IH.
Qed.

Lemma length_take (n : nat) (s : string) : String.length (take n s) <= n.
Proof.
  revert s. induction n as [|n IH]; intros [|c s]; simpl; try lia.
  specialize (IH s). lia.
Qed.

(** A string none of whose characters is [c] does not contain [c]. *)
Lemma contains_char_false (c : ascii) (s : string) :
  all_chars (fun d => negb (Ascii.eqb d c)) s = true ->
  contains (String c EmptyString) s = false.
Proof.
  induction s as [|d s IH]; simpl; [reflexivity|].
  intros H. apply andb_true_iff in H as [Hd Hs].
  rewrite (IH Hs), orb_false_r.
  destruct (Ascii.ascii_dec c d) as [->|Hne].
  - now rewrite Ascii.eqb_refl in Hd.
  - reflexivity.
Qed.

Lemma prefix_cons (a b : ascii) (s t : string) :
  prefix (String a s) (String b t)
  = if Ascii.ascii_dec a b then prefix s t else false.
Proof. reflexivity. Qed.

Lemma split_on_not_nil (sep : ascii) (s : string) : split_on sep s <> [].
Proof.
  induction s as [|c s IH]; simpl; [discriminate|].
  destruct (Ascii.eqb c sep); [discriminate|].
  destruct (split_on sep s); [contradiction|discriminate].
Qed.

(** Splitting a text at a separator splits the list of its pieces. *)
Lemma split_on_app (sep : ascii) (a b : string) :
  split_on sep (a ++ String sep b) = (split_on sep a ++ split_on sep b)%list.
Proof.
  induction a as [|c a IH]; simpl.
  - now rewrite Ascii.eqb_refl.
  - destruct (Ascii.eqb c sep); [now rewrite IH|].
    rewrite IH. destruct (split_on sep a) as [|h t] eqn:Ha.
    + now apply split_on_not_nil in Ha.
    + reflexivity.
Qed.

Lemma split_lines_app (a b : string) :
  split_lines (a ++ nl ++ b) = (split_lines a ++ split_lines b)%list.
Proof. apply split_on_app. Qed.

End StringFacts.

(** ** The validator *)

Section ValidatorFacts.
Import Validator.

Lemma errors_add_errors (msgs : list string) (r : validation_result) :
  errors (add_errors msgs r) = (errors r ++ msgs)%list.
Proof. reflexivity. Qed.

Lemma score_range (r : validation_result) :
  (0 <= _calculate_score r <= 100)%Z.
Proof. unfold _calculate_score. lia. Qed.

Lemma validate_document_score (content doc_type : string) :
  let r := validate_document content doc_type in
  score r = Z.max 0 (100 - 20 * Z.of_nat (List.length (errors r))
                     - 5 * Z.of_nat (List.length (warnings r)))%Z
  /\ valid r = (70 <=? score r)%Z.
Proof.
  unfold validate_document. cbv zeta. simpl score. simpl valid. simpl errors.
  simpl warnings. unfold _calculate_score. split; [|reflexivity].
  f_equal. lia.
Qed.

(** C5.  For a result with [e] errors and [w] warnings the score is
    [max(0, 100 - 20*e - 5*w)]; it lies in [0, 100]; injecting further
    errors or warnings never raises it; and the result that
    [validate_document] returns carries this score of its own errors and
    warnings, with [valid] set exactly when the score is at least 70
    ([valid] is the outcome of the test [70 <= score]). *)
Theorem score_formula_and_validity
        (r : validation_result) (more_errors more_warnings : list string)
        (content doc_type : string) :
  _calculate_score r
  = Z.max 0 (100 - 20 * Z.of_nat (List.length (errors r))
             - 5 * Z.of_nat (List.length (warnings r)))%Z
  /\ (0 <= _calculate_score r <= 100)%Z
  /\ (_calculate_score (add_warnings more_warnings (add_errors more_errors r))
      <= _calculate_score r)%Z
  /\ score (validate_document content doc_type)
     = Z.max 0 (100
                - 20 * Z.of_nat (List.length (errors (validate_document content doc_type)))
                - 5 * Z.of_nat (List.length (warnings (validate_document content doc_type))))%Z
  /\ valid (validate_document content doc_type)
     = (70 <=? score (validate_document content doc_type))%Z.
Proof.
  split; [unfold _calculate_score; f_equal; lia|].
  split; [apply score_range|].
  split.
  - unfold _calculate_score, add_warnings, add_errors.
    cbn [errors warnings]. rewrite !length_app. lia.
  - destruct (validate_document_score content doc_type) as [Hs Hv].
    split; [exact Hs|exact Hv].
Qed.

Lemma validate_document_brd_errors (content : string) :
  exists earlier,
    errors (validate_document content "brd")
    = (earlier ++ map missing_message (missing_sections brd_sections content))%list.
Proof.
  unfold validate_document.
  change (is_in "brd" ["markdown"; "brd"; "srs"]) with true.
  change (is_in "brd" ["brd"; "srs"]) with true.
  cbv beta iota zeta. cbn [errors].
  unfold _check_document_sections.
  change (required_sections "brd") with (Some brd_sections).
  cbv beta iota. unfold add_errors. cbn [errors].
  eexists. reflexivity.
Qed.




End ValidatorFacts.

(** ** Strategy selection *)

Section RefinerFacts.
Import Refiner.

(** C6, as the code has it.  The strategy is a function of the feedback text
    alone.  For feedback whose lower-cased form contains "unclear" it is
    [clarity_optimization], whatever completeness keywords occur as well,
    unless a keyword of the structure bucket (structure, organize, format,
    section) occurs too: that bucket is tested first and then wins. *)
Theorem unclear_selects_clarity_after_structure (feedback : string) :
  contains "unclear" (lower feedback) = true ->
  (forall other, other = feedback ->
                 _analyze_feedback other = _analyze_feedback feedback)
  /\ _analyze_feedback feedback
     = if any_in ["structure"; "organize"; "format"; "section"] (lower feedback)
       then "structure_improvement" else "clarity_optimization".
Proof.
  intros H. split; [now intros other ->|].
  unfold _analyze_feedback. cbv zeta.
  destruct (any_in ["structure"; "organize"; "format"; "section"] (lower feedback));
    [reflexivity|].
  unfold any_in at 1. cbn [existsb]. now rewrite H.
Qed.

Lemma unclear_selects_clarity_witness :
  _analyze_feedback "This is unclear and missing parts" = "clarity_optimization".
Proof.
  exact (proj2 (unclear_selects_clarity_after_structure
                  "This is unclear and missing parts" eq_refl)).
Defined.

(** C6 fails as stated: this feedback contains "unclear" and is given the
    structure strategy. *)
Lemma unclear_with_structure_keyword :
  contains "unclear" (lower "The structure is unclear") = true
  /\ _analyze_feedback "The structure is unclear" = "structure_improvement".
Proof. vm_compute. split; reflexivity. Qed.

End RefinerFacts.

(** ** Sanitized file names *)

Section SafeNameFacts.
Import FeaturePlanner.

Lemma map_str_map_str (f g : ascii -> ascii) (s : string) :
  map_str f (map_str g s) = map_str (fun c => f (g c)) s.
Proof. induction s as [|c s IH]; simpl; [reflexivity|now rewrite IH]. Qed.

Ltac each_char c :=
  destruct c as [b0 b1 b2 b3 b4 b5 b6 b7];
  destruct b0, b1, b2, b3, b4, b5, b6, b7.

Lemma safe_char_lower_char (c : ascii) :
  name_char (safe_char (lower_char c)) = true.
Proof. each_char c; vm_compute; reflexivity. Qed.

Lemma name_char_ascii (c : ascii) :
  name_char c = true -> ascii_name_char c = true.
Proof. each_char c; vm_compute; intros H; solve [reflexivity | discriminate H]. Qed.

Lemma name_char_not_slash (c : ascii) :
  name_char c = true -> negb (Ascii.eqb c "/") = true.
Proof. each_char c; vm_compute; intros H; solve [reflexivity | discriminate H]. Qed.

Lemma name_char_not_dot (c : ascii) :
  name_char c = true -> negb (Ascii.eqb c ".") = true.
Proof. each_char c; vm_compute; intros H; solve [reflexivity | discriminate H]. Qed.

Lemma all_chars_app (p : ascii -> bool) (a b : string) :
  all_chars p a = true -> all_chars p b = true -> all_chars p (a ++ b) = true.
Proof.
  induction a as [|c a IH]; simpl; [auto|].
  intros H Hb. apply andb_true_iff in H as [Hc Ha]. now rewrite Hc, IH.
Qed.

Lemma no_dot_no_parent_reference (s : string) :
  all_chars (fun d => negb (Ascii.eqb d ".")) s = true ->
  contains ".." (s ++ ".md") = false.
Proof.
  induction s as [|c s IH]; [reflexivity|].
  intros H. simpl in H. apply andb_true_iff in H as [Hc Hs].
  change (contains ".." (String c s ++ ".md"))
    with (prefix ".." (String c (s ++ ".md")) || contains ".." (s ++ ".md")).
  rewrite (IH Hs), orb_false_r, prefix_cons.
  destruct (Ascii.ascii_dec "." c) as [<-|]; [discriminate Hc|reflexivity].
Qed.

Lemma safe_name_chars (feature : string) :
  all_chars name_char (safe_name feature) = true.
Proof.
  unfold safe_name, strip_chars, lstrip_chars, lower.
  apply all_chars_take, all_chars_drop_while_end, all_chars_drop_while.
  rewrite map_str_map_str. apply all_chars_map_str, safe_char_lower_char.
Qed.

(** *** Features of any code points *)

Lemma of_string_latin1 (c : ascii) : Unicode.latin1 (N_of_ascii c) = true.
Proof. each_char c; reflexivity. Qed.

Lemma underscore_code (c : ascii) :
  (N_of_ascii c =? Unicode.underscore)%N = Ascii.eqb c "_".
Proof. each_char c; reflexivity. Qed.

Lemma of_string_all_latin1 (s : string) :
  forallb Unicode.latin1 (Unicode.of_string s) = true.
Proof.
  induction s as [|c s IH]; cbn [Unicode.of_string forallb]; [reflexivity|].
  now rewrite of_string_latin1, IH.
Qed.

Lemma lower_of_string (db : Unicode.database) (s : string) :
  Unicode.lower db (Unicode.of_string s) = Unicode.of_string (lower s).
Proof.
  unfold Unicode.lower, lower. rewrite of_string_all_latin1.
  induction s as [|c s IH]; cbn [Unicode.of_string map map_str];
    [reflexivity|].
  now rewrite IH, ascii_N_embedding.
Qed.

Lemma safe_char_of_ascii (db : Unicode.database) (c : ascii) :
  safe_char_unicode db (N_of_ascii c) = N_of_ascii (safe_char c).
Proof.
  unfold safe_char_unicode, safe_char, Unicode.isalnum.
  rewrite of_string_latin1, ascii_N_embedding, underscore_code.
  now destruct (isalnum c || Ascii.eqb c "_").
Qed.

Lemma map_of_string (db : Unicode.database) (s : string) :
  map (safe_char_unicode db) (Unicode.of_string s)
  = Unicode.of_string (map_str safe_char s).
Proof.
  induction s as [|c s IH]; cbn [Unicode.of_string map map_str];
    [reflexivity|].
  now rewrite IH, safe_char_of_ascii.
Qed.

Lemma drop_while_of_string (p : ascii -> bool) (q : N -> bool) (s : string) :
  (forall c, q (N_of_ascii c) = p c) ->
  Unicode.drop_while q (Unicode.of_string s)
  = Unicode.of_string (drop_while p s).
Proof.
  intros H. induction s as [|c s IH];
    cbn [Unicode.of_string Unicode.drop_while drop_while]; [reflexivity|].
  rewrite H. now destruct (p c).
Qed.

Lemma of_string_app (a b : string) :
  Unicode.of_string (a ++ b) = (Unicode.of_string a ++ Unicode.of_string b)%list.
Proof.
  induction a as [|c a IH]; cbn [append Unicode.of_string app];
    [reflexivity|now rewrite IH].
Qed.

Lemma rev_of_string (s acc : string) :
  Unicode.of_string (rev_str acc s)
  = (rev (Unicode.of_string s) ++ Unicode.of_string acc)%list.
Proof.
  revert acc. induction s as [|c s IH]; intros acc;
    cbn [rev_str Unicode.of_string rev]; [reflexivity|].
  rewrite IH, <- app_assoc. reflexivity.
Qed.

Lemma drop_while_end_of_string (p : ascii -> bool) (q : N -> bool) (s : string) :
  (forall c, q (N_of_ascii c) = p c) ->
  Unicode.drop_while_end q (Unicode.of_string s)
  = Unicode.of_string (drop_while_end p s).
Proof.
  intros H. unfold Unicode.drop_while_end, drop_while_end.
  rewrite (rev_of_string (drop_while p (rev_str EmptyString s)) EmptyString).
  cbn [Unicode.of_string]. rewrite app_nil_r.
  rewrite <- (drop_while_of_string p q _ H).
  rewrite (rev_of_string s EmptyString). cbn [Unicode.of_string].
  now rewrite app_nil_r.
Qed.

Lemma firstn_of_string (n : nat) (s : string) :
  firstn n (Unicode.of_string s) = Unicode.of_string (take n s).
Proof.
  revert s. induction n as [|n IH]; intros [|c s];
    cbn [firstn take Unicode.of_string]; try reflexivity.
  now rewrite IH.
Qed.

(** On strings of [PyStr] the two expressions agree. *)
Lemma safe_name_of_string (db : Unicode.database) (feature : string) :
  safe_name_unicode db (Unicode.of_string feature)
  = Unicode.of_string (safe_name feature).
Proof.
  assert (Hstrip : forall c,
             existsb (N.eqb (N_of_ascii c)) [Unicode.underscore]
             = mem_char c "_").
  { intros c. cbn [existsb mem_char]. now rewrite underscore_code. }
  unfold safe_name_unicode, safe_name, Unicode.strip_chars, strip_chars,
    lstrip_chars.
  rewrite lower_of_string, map_of_string.
  rewrite (drop_while_of_string (fun c => mem_char c "_") _ _ Hstrip).
  rewrite (drop_while_end_of_string (fun c => mem_char c "_") _ _ Hstrip).
  apply firstn_of_string.
Qed.

Lemma forall_drop_while (P : N -> Prop) (p : N -> bool) (s : list N) :
  Forall P s -> Forall P (Unicode.drop_while p s).
Proof.
  induction 1 as [|c s Hc Hs IH]; cbn [Unicode.drop_while]; [constructor|].
  destruct (p c); [exact IH|now constructor].
Qed.

Lemma forall_firstn (P : N -> Prop) (n : nat) (s : list N) :
  Forall P s -> Forall P (firstn n s).
Proof.
  intros H. revert n. induction H as [|c s Hc Hs IH]; intros [|n];
    cbn [firstn]; constructor; auto.
Qed.

Lemma safe_name_unicode_chars (db : Unicode.database) (feature : list N) :
  Forall (fun c => Unicode.isalnum db c = true \/ c = Unicode.underscore)
         (safe_name_unicode db feature).
Proof.
  unfold safe_name_unicode, Unicode.strip_chars, Unicode.drop_while_end.
  apply forall_firstn, Forall_rev, forall_drop_while, Forall_rev,
    forall_drop_while.
  apply Forall_forall. intros c Hc. apply in_map_iff in Hc as (x & <- & _).
  unfold safe_char_unicode.
  destruct (Unicode.isalnum db x) eqn:Hx; cbn [orb]; [now left|].
  destruct (N.eqb_spec x Unicode.underscore) as [->|_]; now right.
Qed.

Lemma not_in_name (db : Unicode.database) (feature : list N) (c : N) :
  Unicode.isalnum db c = false -> c <> Unicode.underscore ->
  existsb (N.eqb c) (safe_name_unicode db feature) = false.
Proof.
  intros Hc Hne. apply not_true_iff_false. intros H.
  apply existsb_exists in H as (x & Hx & Heq). apply N.eqb_eq in Heq. subst x.
  pose proof (safe_name_unicode_chars db feature) as Hall.
  rewrite Forall_forall in Hall. destruct (Hall c Hx); congruence.
Qed.

(** A character from 256 on that [str.isalnum] accepts and that [str.lower]
    leaves as it is, is kept as it is. *)
Lemma unmapped_character_is_kept (db : Unicode.database) (c : N) :
  Unicode.latin1 c = false ->
  Unicode.db_isalnum db c = true -> Unicode.db_lower db [c] = [c] ->
  safe_name_unicode db [c] = [c].
Proof.
  intros Hwide Halnum Hlower.
  unfold safe_name_unicode, Unicode.lower.
  cbn [forallb]. rewrite Hwide, Hlower. cbn [andb map].
  assert (Hsafe : safe_char_unicode db c = c).
  { unfold safe_char_unicode, Unicode.isalnum. now rewrite Hwide, Halnum. }
  assert (Hnot : existsb (N.eqb c) [Unicode.underscore] = false).
  { cbn [existsb]. destruct (N.eqb_spec c Unicode.underscore) as [->|_];
      [discriminate Hwide|reflexivity]. }
  rewrite Hsafe. unfold Unicode.strip_chars, Unicode.drop_while_end.
  cbn [Unicode.drop_while rev app]. rewrite Hnot.
  cbn [Unicode.drop_while rev app]. now rewrite Hnot.
Qed.

(** C7, as the code has it.  For a feature of characters below 256 the file
    name stem consists of characters that are alphanumeric and not upper
    case, or the underscore (for ASCII characters: [a-z], [0-9] and the
    underscore); it has at most 50 characters; the file name made from it
    contains neither a slash nor two consecutive dots; and
    "Real-Time Chat/Notifications!" is mapped to
    "real_time_chat_notifications".  For a feature of any code points,
    with any Unicode database, the stem consists of characters that
    [str.isalnum] accepts and of underscores, has at most 50 characters and
    contains neither a slash nor a dot; on the features of characters
    below 256 the two readings agree.  That the characters are not upper
    case is true of the first kind of feature only. *)
Theorem safe_name_is_safe (feature : string) (db : Unicode.database)
        (wide_feature : list N) :
  all_chars name_char (safe_name feature) = true
  /\ all_chars ascii_name_char (safe_name feature) = true
  /\ String.length (safe_name feature) <= 50
  /\ contains "/" (safe_name feature ++ ".md") = false
  /\ contains ".." (safe_name feature ++ ".md") = false
  /\ safe_name "Real-Time Chat/Notifications!" = "real_time_chat_notifications"
  /\ safe_name_unicode db (Unicode.of_string feature)
     = Unicode.of_string (safe_name feature)
  /\ Forall (fun c => Unicode.isalnum db c = true \/ c = Unicode.underscore)
            (safe_name_unicode db wide_feature)
  /\ List.length (safe_name_unicode db wide_feature) <= 50
  /\ existsb (N.eqb (N_of_ascii "/")) (safe_name_unicode db wide_feature) = false
  /\ existsb (N.eqb (N_of_ascii ".")) (safe_name_unicode db wide_feature) = false.
Proof.
  pose proof (safe_name_chars feature) as H.
  split; [exact H|].
  split; [exact (all_chars_weaken _ _ _ name_char_ascii H)|].
  split; [apply length_take|].
  split.
  { apply contains_char_false, all_chars_app; [|reflexivity].
    exact (all_chars_weaken _ _ _ name_char_not_slash H). }
  split.
  { apply no_dot_no_parent_reference.
    exact (all_chars_weaken _ _ _ name_char_not_dot H). }
  split; [reflexivity|].
  split; [apply safe_name_of_string|].
  split; [apply safe_name_unicode_chars|].
  split; [unfold safe_name_unicode; rewrite length_firstn; lia|].
  split; apply not_in_name; (reflexivity || discriminate).
Qed.

(** C7 fails as stated: a feature that begins with the bold capital A keeps
    it in the file name stem, and this character is upper case. *)
Lemma bold_capital_stays_upper_case :
  Unicode.latin1 bold_capital_a = false
  /\ safe_name_unicode bold_capital_database
       (bold_capital_a :: Unicode.of_string "nalytics Board")
     = bold_capital_a :: Unicode.of_string "nalytics_board"
  /\ Unicode.isalnum bold_capital_database bold_capital_a = true
  /\ Unicode.isupper bold_capital_database bold_capital_a = true.
Proof. vm_compute. repeat split; reflexivity. Qed.

(** Each character that is not alphanumeric becomes an underscore of its
    own: a run of them is not collapsed, and only the underscores at the two
    ends are stripped. *)
Example runs_are_not_collapsed :
  safe_name "Search & Filter (v2)" = "search___filter__v2".
Proof. reflexivity. Qed.

End SafeNameFacts.

(** ** Section extraction *)

Section SectionFacts.
Import Sections.

Lemma step_not_heading (line : string) :
  is_heading line = false -> step ([], None, []) line = ([], None, []).
Proof. unfold step. now intros ->. Qed.

Lemma fold_step_no_heading (lines : list string) :
  forallb (fun line => negb (is_heading line)) lines = true ->
  fold_left step lines ([], None, []) = ([], None, []).
Proof.
  induction lines as [|line lines IH]; cbn [fold_left forallb]; [reflexivity|].
  intros H. apply andb_true_iff in H as [Hl Hr].
  apply negb_true_iff in Hl. rewrite (step_not_heading _ Hl). now apply IH.
Qed.

Lemma extract_lines_preamble (preamble rest : list string) :
  forallb (fun line => negb (is_heading line)) preamble = true ->
  extract_lines (preamble ++ rest) = extract_lines rest.
Proof.
  intros H. unfold extract_lines.
  now rewrite fold_left_app, (fold_step_no_heading _ H).
Qed.

(** C8.  A text without a heading line has no sections; and put in front of
    any text, such a preamble changes nothing in the sections extracted:
    none of its lines reaches a section body.  Both extractors, the
    analyzer's and the document writer's, behave so. *)
Theorem preamble_is_discarded (preamble : string) :
  no_heading preamble = true ->
  Analyzer._extract_sections preamble = []
  /\ DocumentWriter._extract_document_sections preamble = []
  /\ (forall rest,
         Analyzer._extract_sections (preamble ++ nl ++ rest)
         = Analyzer._extract_sections rest
         /\ DocumentWriter._extract_document_sections (preamble ++ nl ++ rest)
            = DocumentWriter._extract_document_sections rest).
Proof.
  unfold no_heading, Analyzer._extract_sections,
    DocumentWriter._extract_document_sections. intros H.
  assert (Hempty : extract_lines (split_lines preamble) = []).
  { unfold extract_lines. now rewrite (fold_step_no_heading _ H). }
  repeat split; try exact Hempty;
    rewrite split_lines_app; now apply extract_lines_preamble.
Qed.

Lemma preamble_is_discarded_witness :
  Analyzer._extract_sections ("Dear reader," ++ nl ++ "- a note") = []
  /\ Analyzer._extract_sections
       (("Dear reader," ++ nl ++ "- a note") ++ nl ++ "# Goals" ++ nl ++ "Ship.")
     = [("Goals", "Ship.")].
Proof.
  destruct (preamble_is_discarded ("Dear reader," ++ nl ++ "- a note") eq_refl)
    as [Hempty [_ Hrest]].
  split; [exact Hempty|].
  exact (eq_trans (proj1 (Hrest ("# Goals" ++ nl ++ "Ship."))) eq_refl).
Defined.

End SectionFacts.

(** ** Requirement extraction *)

Section RequirementFacts.
Import DocumentWriter.

Lemma item_is_no_heading (line : string) :
  Items.is_item line = true -> startswith "#" line = false.
Proof.
  destruct line as [|c line]; [discriminate|].
  unfold Items.is_item, startswith, startswith_any. rewrite !prefix_cons.
  destruct (Ascii.ascii_dec "#" c) as [<-|]; [discriminate|reflexivity].
Qed.

Lemma long_is_truthy (s : string) :
  (10 <? String.length s)%nat = true -> truthy s = true.
Proof. destruct s; [discriminate|reflexivity]. Qed.

(** C9, as the code has it.  [_extract_requirements] returns what the loop
    has collected, and reading one more line changes the loop state so:
    - a line that contains requirement, functional or business rule (in any
      case) opens the in-requirements state and is itself never captured,
      bulleted or not, heading or not;
    - otherwise, while the state is active, a line that starts with a dash
      or a digit from 1 to 9 is captured when its text after stripping has
      more than 10 characters, and dropped when it has 10 or fewer;
    - otherwise a heading line closes the state;
    - any other line changes nothing. *)
Theorem requirement_line_rule (lines : list string) (raw content : string) :
  let st := requirements_loop requirement_keywords lines in
  let line := strip raw in
  requirements_loop requirement_keywords (lines ++ [raw])
  = (if any_in requirement_keywords (lower line) then (true, snd st)
     else if fst st && Items.is_item line then
       (true,
        if (10 <? String.length (Items.item_text line))%nat
        then (snd st ++ [Items.item_text line])%list else snd st)
     else if fst st && startswith "#" line then (false, snd st)
     else st)
  /\ _extract_requirements content
     = snd (requirements_loop requirement_keywords (split_lines content)).
Proof.
  cbv zeta. split; [|reflexivity].
  unfold requirements_loop. rewrite fold_left_app. cbn [fold_left].
  destruct (fold_left (requirement_step requirement_keywords) lines (false, []))
    as [in_section requirements].
  unfold requirement_step. cbn [fst snd].
  destruct (any_in requirement_keywords (lower (strip raw))); [reflexivity|].
  destruct in_section; cbn [andb].
  - destruct (Items.is_item (strip raw)) eqn:Hitem.
    + rewrite (item_is_no_heading _ Hitem). cbn [andb].
      destruct (10 <? String.length (Items.item_text (strip raw)))%nat eqn:Hlen.
      * now rewrite (long_is_truthy _ Hlen).
      * now rewrite andb_false_r.
    + rewrite andb_true_r. now destruct (startswith "#" (strip raw)).
  - now rewrite andb_false_r.
Qed.

(** C9 fails as stated: under a requirements heading, a bulleted line whose
    text has exactly 10 characters is dropped, a line numbered from 0 is not
    read as an item, and a bulleted line that mentions a keyword is
    skipped. *)
Lemma ten_characters_are_dropped :
  String.length (Items.item_text "- abcdefghij") = 10
  /\ _extract_requirements ("## Requirements" ++ nl ++ "- abcdefghij") = []
  /\ _extract_requirements
       ("## Requirements" ++ nl ++ "- abcdefghijk" ++ nl
        ++ "0. Users can sign in" ++ nl
        ++ "- Every functional area is covered")
     = ["abcdefghijk"].
Proof. vm_compute. repeat split; reflexivity. Qed.

End RequirementFacts.

(** ** The state and exception monad *)

Section RuntimeFacts.

Lemma bind_ok {A B : Type} (m : M A) (k : A -> M B) (w w' : world) (a : A) :
  m w = (Ok a, w') -> bind m k w = k a w'.
Proof. unfold bind. now intros ->. Qed.

Lemma bind_raise {A B : Type} (m : M A) (k : A -> M B) (w w' : world) (e : exn) :
  m w = (Raise e, w') -> bind m k w = (Raise e, w').
Proof. unfold bind. now intros ->. Qed.

(** A handler that returns makes the whole [try] statement return. *)
Lemma try_except_returns {A : Type} (body : M A) (handler : exn -> A) (w : world) :
  exists a w', try_except body (fun e => ret (handler e)) w = (Ok a, w').
Proof.
  unfold try_except, ret. destruct (body w) as [[a|e] w']; eauto.
Qed.

Lemma try_except_raise {A : Type} (body : M A) (handler : exn -> M A)
      (w w' : world) (e : exn) :
  body w = (Raise e, w') -> try_except body handler w = handler e w'.
Proof. unfold try_except. now intros ->. Qed.

Lemma try_except_ok {A : Type} (body : M A) (handler : exn -> M A)
      (w w' : world) (a : A) :
  body w = (Ok a, w') -> try_except body handler w = (Ok a, w').
Proof. unfold try_except. now intros ->. Qed.

End RuntimeFacts.

(** ** The refine operations *)

Section RefineFacts.
Variable E : env.

Ltac provider_raises H :=
  match goal with
  | |- context [complete E (llm_calls ?w) ?p ?s] =>
      let e := fresh "e" in
      let He := fresh "He" in
      destruct (H p s) as [e He]; rewrite He
  end.

Lemma refine_analysis_on_failure (d : list (string * value)) (feedback : string)
      (w : world) :
  next_call_raises E w ->
  fst (Analyzer.refine_analysis E (VDict d) feedback w) = Ok (VDict d, VDict d).
Proof.
  intros H. unfold Analyzer.refine_analysis, try_except, bind, lift, llm_complete, Py.get.
  provider_raises H. reflexivity.
Qed.

Lemma refine_architecture_on_failure (d : list (string * value))
      (feedback : string) (w : world) :
  next_call_raises E w ->
  fst (Architect.refine_architecture E (VDict d) feedback w)
  = Ok (VDict d, VDict d).
Proof.
  intros H.
  unfold Architect.refine_architecture, try_except, bind, lift, llm_complete, Py.get.
  provider_raises H. reflexivity.
Qed.

Lemma refine_features_on_failure (d : list (string * value)) (feedback : string)
      (w : world) :
  next_call_raises E w ->
  fst (FeaturePlanner.refine_features E (VDict d) feedback w)
  = Ok (VDict d, VDict d).
Proof.
  intros H.
  unfold FeaturePlanner.refine_features, try_except, bind, lift, llm_complete, Py.get.
  provider_raises H. reflexivity.
Qed.

Lemma refine_document_on_failure (d : list (string * value)) (feedback : string)
      (w : world) :
  next_call_raises E w ->
  fst (DocumentWriter.refine_document E (VDict d) feedback w)
  = Ok (VDict d, VDict d).
Proof.
  intros H.
  unfold DocumentWriter.refine_document, try_except, bind, lift, llm_complete,
    Py.get.
  destruct (Py.as_str "upper" (Dict.get_default "document_type" (VStr "document") d))
    as [doc_type|e]; [|reflexivity].
  provider_raises H. reflexivity.
Qed.

Lemma refine_document_returns (d : list (string * value)) (feedback : string)
      (w : world) :
  exists r w', DocumentWriter.refine_document E (VDict d) feedback w = (Ok r, w').
Proof.
  unfold DocumentWriter.refine_document.
  erewrite bind_ok by reflexivity. apply try_except_returns.
Qed.

(** C10.  Applied to a dictionary, each of the four refine operations
    returns and never raises; and when the completion call raises, what it
    returns is the dictionary it was given, which the call has left as it
    was. *)
Theorem refine_returns_input_on_failure
        (d : list (string * value)) (feedback : string) (w : world) :
  (exists r w', Analyzer.refine_analysis E (VDict d) feedback w = (Ok r, w'))
  /\ (exists r w',
         Architect.refine_architecture E (VDict d) feedback w = (Ok r, w'))
  /\ (exists r w',
         DocumentWriter.refine_document E (VDict d) feedback w = (Ok r, w'))
  /\ (exists r w',
         FeaturePlanner.refine_features E (VDict d) feedback w = (Ok r, w'))
  /\ (next_call_raises E w ->
      fst (Analyzer.refine_analysis E (VDict d) feedback w)
      = Ok (VDict d, VDict d)
      /\ fst (Architect.refine_architecture E (VDict d) feedback w)
         = Ok (VDict d, VDict d)
      /\ fst (DocumentWriter.refine_document E (VDict d) feedback w)
         = Ok (VDict d, VDict d)
      /\ fst (FeaturePlanner.refine_features E (VDict d) feedback w)
         = Ok (VDict d, VDict d)).
Proof.
  split; [apply try_except_returns|].
  split; [apply try_except_returns|].
  split; [apply refine_document_returns|].
  split; [apply try_except_returns|].
  intros H. repeat split.
  - now apply refine_analysis_on_failure.
  - now apply refine_architecture_on_failure.
  - now apply refine_document_on_failure.
  - now apply refine_features_on_failure.
Qed.

End RefineFacts.

Lemma refine_returns_input_witness :
  fst (Analyzer.refine_analysis (stub_env never_answers) (VDict sample_analysis)
                                "Add the missing risks" empty_world)
  = Ok (VDict sample_analysis, VDict sample_analysis).
Proof.
  refine (proj1 (proj2 (proj2 (proj2 (proj2
            (refine_returns_input_on_failure
               (stub_env never_answers) sample_analysis
               "Add the missing risks" empty_world)))) _)).
  intros prompt system_prompt. exists provider_error. reflexivity.
Defined.

(** When the provider answers, the copy is shallow: the returned dictionary
    carries the new content, and the argument keeps its content but has
    received the two metadata entries. *)
Example refine_analysis_shares_metadata :
  fst (Analyzer.refine_analysis (stub_env always_answers) (VDict sample_analysis)
                                "Add the missing risks" empty_world)
  = Ok (VDict [("raw_requirements", VStr "Build a blog");
               ("analysis_content", VStr stub_markdown);
               ("metadata",
                VDict [("agent", VStr "Analyzer"); ("refined", VBool true);
                       ("feedback", VStr "Add the missing risks")]);
               ("sections",
                VDict [("Overview",
                        VStr ("Core features" ++ nl ++ "- Posts" ++ nl
                              ++ "- Comments"))])],
        VDict [("raw_requirements", VStr "Build a blog");
               ("analysis_content", VStr "A blog.");
               ("metadata",
                VDict [("agent", VStr "Analyzer"); ("refined", VBool true);
                       ("feedback", VStr "Add the missing risks")])]).
Proof. vm_compute. reflexivity. Qed.

(** ** The fan-out of detailed feature specifications *)

Section FanOutFacts.
Import FeaturePlanner.
Variable E : env.

Lemma fold_m_app {A S : Type} (l1 l2 : list A) (body : S -> A -> M S) (s : S)
      (w : world) :
  fold_m (l1 ++ l2) body s w = bind (fold_m l1 body s) (fold_m l2 body) w.
Proof.
  revert s w. induction l1 as [|x l1 IH]; intros s w; cbn [fold_m app].
  - reflexivity.
  - unfold bind in *. destruct (body s x w) as [[s'|e] w']; [apply IH|reflexivity].
Qed.

Lemma get_default_list_dict (cat : string) (categories : list (string * list string)) :
  Dict.get_default cat (VList [])
    (map (fun kv => (fst kv, Py.str_list (snd kv))) categories)
  = Py.str_list (Dict.get_default cat [] categories).
Proof.
  unfold Dict.get_default.
  induction categories as [|[k l] categories IH]; cbn [map Dict.get fst snd];
    [reflexivity|].
  destruct (String.eqb cat k); [reflexivity|exact IH].
Qed.

Lemma all_features_list_dict (categories : list (string * list string)) :
  all_features (Py.list_dict categories)
  = Ok (map VStr (all_features_of categories)).
Proof.
  unfold all_features, all_features_of, Py.list_dict, Py.get.
  cbn [fold_left flat_map]. rewrite !get_default_list_dict.
  unfold Py.str_list, Py.iter. cbn [app].
  now rewrite app_nil_r, !map_app, app_assoc.
Qed.

Lemma keys_set_new {V : Type} (k : string) (v : V) (d : list (string * V)) :
  ~ In k (Dict.keys d) -> Dict.keys (Dict.set k v d) = (Dict.keys d ++ [k])%list.
Proof.
  unfold Dict.keys. induction d as [|[k' v'] d IH]; cbn [Dict.set map fst app];
    [reflexivity|].
  intros H. destruct (String.eqb_spec k k') as [->|Hne].
  - exfalso. apply H. now left.
  - cbn [map fst]. f_equal. apply IH. intros Hin. apply H. now right.
Qed.

Lemma keys_set_old {V : Type} (k : string) (v : V) (d : list (string * V)) :
  In k (Dict.keys d) -> Dict.keys (Dict.set k v d) = Dict.keys d.
Proof.
  unfold Dict.keys. induction d as [|[k' v'] d IH]; cbn [Dict.set map fst];
    [contradiction|].
  intros H. destruct (String.eqb_spec k k') as [->|Hne]; [reflexivity|].
  cbn [map fst]. f_equal. apply IH. destruct H as [H|H]; [congruence|exact H].
Qed.

Lemma in_keys_set {V : Type} (k : string) (v : V) (d : list (string * V))
      (f : string) :
  In f (Dict.keys (Dict.set k v d)) <-> In f (Dict.keys d) \/ f = k.
Proof.
  destruct (in_dec string_dec k (Dict.keys d)) as [Hin|Hnot].
  - rewrite (keys_set_old _ _ _ Hin). split; [auto|]. now intros [H| ->].
  - rewrite (keys_set_new _ _ _ Hnot), in_app_iff. cbn [In]. intuition congruence.
Qed.

Lemma nodup_keys_set {V : Type} (k : string) (v : V) (d : list (string * V)) :
  NoDup (Dict.keys d) -> NoDup (Dict.keys (Dict.set k v d)).
Proof.
  intros H. destruct (in_dec string_dec k (Dict.keys d)) as [Hin|Hnot].
  - now rewrite (keys_set_old _ _ _ Hin).
  - rewrite (keys_set_new _ _ _ Hnot). apply NoDup_app; [exact H|repeat constructor; auto|].
    intros x Hx [<-|[]]. contradiction.
Qed.

Lemma get_set {V : Type} (k : string) (v : V) (d : list (string * V)) (f : string) :
  Dict.get f (Dict.set k v d) = if String.eqb f k then Some v else Dict.get f d.
Proof.
  induction d as [|[k' v'] d IH]; cbn [Dict.set Dict.get].
  - reflexivity.
  - destruct (String.eqb_spec k k') as [->|Hne]; cbn [Dict.get].
    + now destruct (String.eqb f k').
    + rewrite IH. destruct (String.eqb_spec f k') as [->|]; [|reflexivity].
      destruct (String.eqb_spec k' k); [congruence|reflexivity].
Qed.

Lemma all_detailed_set (k : string) (v : value) (d : list (string * value)) :
  detail_entry v -> all_detailed d -> all_detailed (Dict.set k v d).
Proof.
  intros Hv Hd f Hf. rewrite get_set. destruct (String.eqb_spec f k) as [->|Hne].
  - now exists v.
  - apply Hd. apply in_keys_set in Hf as [Hf|Hf]; [exact Hf|contradiction].
Qed.

(** One iteration whose completion call is answered. *)
Lemma detail_step_ok (template dir : string) (acc : list (string * value))
      (f : string) (w : world) :
  writes_succeed E -> format_succeeds E -> answers E (llm_calls w) 1 ->
  exists v w',
    detail_step E template dir acc (VStr f) w = (Ok (Dict.set f v acc), w')
    /\ detail_entry v /\ llm_calls w' = S (llm_calls w).
Proof.
  intros Hfs Hfmt Hok. unfold detail_step, bind, lift, llm_complete.
  destruct (Hfmt template f) as [prompt ->].
  match goal with
  | |- context [complete E (llm_calls w) ?p ?s] =>
      destruct (Hok (llm_calls w) p s ltac:(lia)) as [content ->]
  end.
  cbn [Py.as_str]. unfold write_file. rewrite Hfs. unfold ret.
  eexists _, _. split; [reflexivity|]. split; [|reflexivity].
  eexists _, _. reflexivity.
Qed.

(** One iteration whose completion call raises. *)
Lemma detail_step_raises (template dir : string) (acc : list (string * value))
      (f : string) (w : world) (e : exn) :
  format_succeeds E -> raises_at E (llm_calls w) e ->
  exists w',
    detail_step E template dir acc (VStr f) w = (Raise e, w')
    /\ llm_calls w' = S (llm_calls w) /\ files w' = files w.
Proof.
  intros Hfmt Hraise. unfold detail_step, bind, lift, llm_complete.
  destruct (Hfmt template f) as [prompt ->]. rewrite Hraise.
  eexists. repeat split; reflexivity.
Qed.

Lemma answers_split (from count : nat) :
  answers E from (S count) -> answers E from 1 /\ answers E (S from) count.
Proof.
  intros H. split; intros k p s Hk; apply H; lia.
Qed.

(** The loop over features whose calls are all answered. *)
Lemma detail_loop_ok (template dir : string) (l : list string) :
  writes_succeed E -> format_succeeds E ->
  forall (acc : list (string * value)) (w : world),
    answers E (llm_calls w) (List.length l) ->
    exists acc' w',
      fold_m (map VStr l) (detail_step E template dir) acc w = (Ok acc', w')
      /\ llm_calls w' = llm_calls w + List.length l
      /\ (forall f, In f (Dict.keys acc') <-> In f (Dict.keys acc) \/ In f l)
      /\ (NoDup (Dict.keys acc) -> NoDup (Dict.keys acc'))
      /\ (NoDup (Dict.keys acc ++ l) -> Dict.keys acc' = (Dict.keys acc ++ l)%list)
      /\ (all_detailed acc -> all_detailed acc').
Proof.
  intros Hfs Hfmt. induction l as [|f l IH]; intros acc w Hok.
  - exists acc, w. cbn [map fold_m List.length]. unfold ret.
    split; [reflexivity|]. split; [lia|]. split; [cbn [In]; tauto|].
    split; [auto|]. split; [now rewrite app_nil_r|auto].
  - cbn [List.length] in Hok. apply answers_split in Hok as [Hfirst Hrest].
    destruct (detail_step_ok template dir acc f w Hfs Hfmt Hfirst)
      as (v & w1 & Hstep & Hv & Hcalls).
    rewrite <- Hcalls in Hrest.
    destruct (IH (Dict.set f v acc) w1 Hrest)
      as (acc' & w' & Hfold & Hcalls' & Hkeys & Hnodup & Hexact & Hshape).
    exists acc', w'. cbn [map fold_m]. rewrite (bind_ok _ _ _ _ _ Hstep).
    split; [exact Hfold|]. split; [cbn [List.length]; lia|].
    split; [|split; [|split]].
    + intros g. rewrite Hkeys, in_keys_set. cbn [In]. intuition congruence.
    + intros H. apply Hnodup. now apply nodup_keys_set.
    + intros H. assert (Hnew : ~ In f (Dict.keys acc)).
      { intros Hin. apply NoDup_remove_2 in H. apply H, in_or_app. now left. }
      rewrite Hexact; rewrite (keys_set_new _ _ _ Hnew), <- app_assoc; [reflexivity|].
      cbn [app]. exact H.
    + intros H. apply Hshape. now apply all_detailed_set.
Qed.

(** Up to the loop: the features are read and the directory is made. *)
Lemma generate_detailed_features_loop
      (fd : list (string * value)) (categories : list (string * list string))
      (dir : string) (w : world) :
  Dict.get "feature_categories" fd = Some (Py.list_dict categories) ->
  writes_succeed E ->
  generate_detailed_features E (VDict fd) dir w
  = try_except
      (bind (fold_m (map VStr (all_features_of categories))
                    (detail_step E (get_prompt E "feature_detail" []) dir) [])
            (fun detailed_features => ret (VDict detailed_features)))
      (fun e => ret (VDict [("error", VStr (str_of_exn e))]))
      (with_dirs (dirs w ++ [path_join dir "features"]) w).
Proof.
  intros Hget Hfs.
  unfold generate_detailed_features, try_except, bind at 1 2 3, lift, Py.get,
    Dict.get_default.
  rewrite Hget, all_features_list_dict. unfold makedirs. now rewrite Hfs.
Qed.

(** C1, as the code has it.  [generate_detailed_features] never raises.
    When every write succeeds and the template can be formatted:
    - if the provider answers one call per feature, the calls are issued in
      the order of the features, one for each of the [N] features, and the
      mapping returned has one entry with content for every distinct
      feature string ([N] entries, in the order of the features, when these
      are pairwise distinct);
    - if the provider answers the calls for the first [k] features and
      raises on the next one, no further call is issued and the mapping
      returned is the single entry ["error"] with the message of the
      exception: the content generated for the first [k] features is not
      returned. *)
Theorem detailed_features_batch
        (fd : list (string * value)) (categories : list (string * list string))
        (dir : string) (w : world) :
  Dict.get "feature_categories" fd = Some (Py.list_dict categories) ->
  writes_succeed E -> format_succeeds E ->
  (exists r w', generate_detailed_features E (VDict fd) dir w = (Ok r, w'))
  /\ (answers E (llm_calls w) (List.length (all_features_of categories)) ->
      exists r w',
        generate_detailed_features E (VDict fd) dir w = (Ok (VDict r), w')
        /\ llm_calls w' = llm_calls w + List.length (all_features_of categories)
        /\ (forall f, In f (Dict.keys r) <-> In f (all_features_of categories))
        /\ NoDup (Dict.keys r)
        /\ (NoDup (all_features_of categories) ->
            Dict.keys r = all_features_of categories)
        /\ all_detailed r)
  /\ (forall done f rest e,
         all_features_of categories = (done ++ f :: rest)%list ->
         answers E (llm_calls w) (List.length done) ->
         raises_at E (llm_calls w + List.length done) e ->
         exists w',
           generate_detailed_features E (VDict fd) dir w
           = (Ok (VDict [("error", VStr (str_of_exn e))]), w')
           /\ llm_calls w' = llm_calls w + List.length done + 1).
Proof.
  intros Hget Hfs Hfmt. split; [apply try_except_returns|].
  rewrite (generate_detailed_features_loop fd categories dir w Hget Hfs).
  set (w0 := with_dirs (dirs w ++ [path_join dir "features"]) w).
  assert (Hcalls0 : llm_calls w0 = llm_calls w) by reflexivity.
  split.
  - intros Hok. rewrite <- Hcalls0 in Hok.
    destruct (detail_loop_ok (get_prompt E "feature_detail" []) dir (all_features_of categories)
                             Hfs Hfmt [] w0 Hok)
      as (r & w' & Hfold & Hcalls & Hkeys & Hnodup & Hexact & Hshape).
    exists r, w'. erewrite try_except_ok
      by (erewrite bind_ok by exact Hfold; reflexivity).
    split; [reflexivity|]. split; [now rewrite Hcalls, Hcalls0|].
    split; [intros g; rewrite Hkeys; cbn [Dict.keys map In]; tauto|].
    split; [apply Hnodup; constructor|].
    split; [exact Hexact|].
    apply Hshape. intros g [].
  - intros done f rest e Hall Hok Hraise. rewrite Hall, map_app.
    rewrite <- Hcalls0 in Hok.
    destruct (detail_loop_ok (get_prompt E "feature_detail" []) dir done Hfs Hfmt [] w0 Hok)
      as (acc & w1 & Hfold & Hcalls & _).
    assert (Hraise1 : raises_at E (llm_calls w1) e)
      by now rewrite Hcalls, Hcalls0.
    destruct (detail_step_raises (get_prompt E "feature_detail" []) dir acc f w1 e Hfmt Hraise1)
      as (w' & Hstep & Hcalls' & _).
    exists w'. erewrite try_except_raise.
    + split; [reflexivity|]. rewrite Hcalls', Hcalls, Hcalls0. lia.
    + apply bind_raise. rewrite fold_m_app. rewrite (bind_ok _ _ _ _ _ Hfold).
      cbn [map fold_m]. now apply bind_raise.
Qed.

End FanOutFacts.

Lemma detailed_features_batch_witness :
  exists w',
    FeaturePlanner.generate_detailed_features
      (stub_env fails_on_second_call) three_features "out" empty_world
    = (Ok (VDict [("error", VStr "provider unavailable")]), w')
    /\ llm_calls w' = 2.
Proof.
  refine (proj2 (proj2 (detailed_features_batch
                          (stub_env fails_on_second_call) three_features_dict
                          three_categories "out" empty_world
                          eq_refl _ _))
                ["Login"] "Posts" ["Comments"] provider_error eq_refl _ _).
  - intros path. reflexivity.
  - intros template feature. exists template. reflexivity.
  - intros k prompt system_prompt Hk. exists "A specification.".
    assert (k = 0) as -> by (cbn in Hk; lia). reflexivity.
  - intros prompt system_prompt. reflexivity.
Defined.

(** C1 fails as stated: with three features and a provider that fails on
    the second call only, the mapping returned has the single entry
    ["error"]; the third call is never issued, and the specification written
    for the first feature is not among the results. *)
Lemma one_failure_loses_the_batch :
  FeaturePlanner.all_features_of three_categories
  = ["Login"; "Posts"; "Comments"]
  /\ fst (FeaturePlanner.generate_detailed_features
            (stub_env fails_on_second_call) three_features "out" empty_world)
     = Ok (VDict [("error", VStr "provider unavailable")])
  /\ llm_calls (snd (FeaturePlanner.generate_detailed_features
                       (stub_env fails_on_second_call) three_features "out"
                       empty_world)) = 2
  /\ files (snd (FeaturePlanner.generate_detailed_features
                   (stub_env fails_on_second_call) three_features "out"
                   empty_world))
     = [("out/features/login.md", "A specification.")].
Proof. vm_compute. repeat split; reflexivity. Qed.

(** ** What the pipeline does to [build_state] *)

Section BuildStateFacts.
Variable E : env.

Lemma keeps_ret {A : Type} (a : A) : keeps_build_state (ret a).
Proof. now intros w. Qed.

Lemma keeps_raise {A : Type} (e : exn) : keeps_build_state (@raise A e).
Proof. now intros w. Qed.

Lemma keeps_lift {A : Type} (o : outcome A) : keeps_build_state (lift o).
Proof. now intros w. Qed.

Lemma keeps_read {A : Type} (f : world -> A) :
  keeps_build_state (fun w => (Ok (f w), w)).
Proof. now intros w. Qed.

Lemma keeps_bind {A B : Type} (m : M A) (k : A -> M B) :
  keeps_build_state m -> (forall a, keeps_build_state (k a)) ->
  keeps_build_state (bind m k).
Proof.
  intros Hm Hk w. unfold bind. specialize (Hm w).
  destruct (m w) as [[a|e] w']; cbn [snd] in *; [|exact Hm].
  now rewrite (Hk a w').
Qed.

Lemma keeps_try {A : Type} (body : M A) (handler : exn -> M A) :
  keeps_build_state body -> (forall e, keeps_build_state (handler e)) ->
  keeps_build_state (try_except body handler).
Proof.
  intros Hm Hk w. unfold try_except. specialize (Hm w).
  destruct (body w) as [[a|e] w']; cbn [snd] in *; [exact Hm|].
  now rewrite (Hk e w').
Qed.

Lemma keeps_for_each {A : Type} (l : list A) (body : A -> M unit) :
  (forall x, keeps_build_state (body x)) -> keeps_build_state (for_each l body).
Proof.
  intros H. induction l as [|x l IH]; cbn [for_each];
    [apply keeps_ret|apply keeps_bind; auto].
Qed.

Lemma keeps_fold_m {A S : Type} (l : list A) (body : S -> A -> M S) (s : S) :
  (forall s x, keeps_build_state (body s x)) -> keeps_build_state (fold_m l body s).
Proof.
  intros H. revert s. induction l as [|x l IH]; intros s; cbn [fold_m];
    [apply keeps_ret|apply keeps_bind; auto].
Qed.

Lemma keeps_llm_complete (prompt system_prompt : string) :
  keeps_build_state (llm_complete E prompt system_prompt).
Proof. now intros w. Qed.

Lemma keeps_makedirs (path : string) : keeps_build_state (makedirs E path).
Proof. intros w. unfold makedirs. now destruct (fs_error E path). Qed.

Lemma keeps_write_file (path content : string) :
  keeps_build_state (write_file E path content).
Proof. intros w. unfold write_file. now destruct (fs_error E path). Qed.

Lemma keeps_datetime_now : keeps_build_state (datetime_now E).
Proof. now intros w. Qed.

Lemma keeps_add_document (content : value) (metadata : list (string * value)) :
  keeps_build_state (add_document E content metadata).
Proof.
  intros w. unfold add_document. destruct content; try reflexivity.
  now destruct (vector_error E _ _ _).
Qed.

Lemma keeps_get_collection_stats : keeps_build_state (get_collection_stats E).
Proof. now intros w. Qed.

Lemma keeps_log_history (state : string) (files : value) (version : string)
      (metadata : value) :
  keeps_build_state (log_history E state files version metadata).
Proof.
  unfold log_history. apply keeps_bind; [apply keeps_datetime_now|].
  intros timestamp w. now destruct (fs_error E (history_file E)).
Qed.

Lemma keeps_path_exists (path : string) : keeps_build_state (path_exists E path).
Proof. now intros w. Qed.

Lemma keeps_validate_file (file_path doc_type : string) :
  keeps_build_state (Validator.validate_file E file_path doc_type).
Proof.
  intros w. unfold Validator.validate_file. now destruct (read_text E w file_path).
Qed.

Create HintDb frame.

Hint Resolve keeps_ret keeps_raise keeps_lift keeps_llm_complete keeps_makedirs
     keeps_write_file keeps_datetime_now keeps_add_document
     keeps_get_collection_stats keeps_log_history keeps_path_exists
     keeps_validate_file : frame.

(** Walks through a computation built from the operations above. *)
Ltac frame :=
  repeat first
    [ progress auto with frame
    | apply keeps_bind; [|intros]
    | apply keeps_try; [|intros]
    | apply keeps_for_each; intros
    | apply keeps_fold_m; intros
    | apply keeps_read
    | match goal with
      | |- keeps_build_state (match ?x with _ => _ end) => destruct x
      | |- keeps_build_state (let '(_, _) := ?x in _) => destruct x
      end ].

Lemma keeps_analyze_requirements (requirements : string) (context : value) :
  keeps_build_state (Analyzer.analyze_requirements E requirements context).
Proof. unfold Analyzer.analyze_requirements. frame. Qed.

Lemma keeps_analyze_bnmp (bnm context : value) :
  keeps_build_state (Analyzer.analyze_bnmp E bnm context).
Proof. unfold Analyzer.analyze_bnmp. frame. Qed.

Lemma keeps_save_analysis (analysis : value) (output_dir : string) :
  keeps_build_state (Analyzer.save_analysis E analysis output_dir).
Proof. unfold Analyzer.save_analysis. frame. Qed.

Lemma keeps_design_architecture (analysis : value) (requirements : string) :
  keeps_build_state (Architect.design_architecture E analysis requirements).
Proof. unfold Architect.design_architecture. frame. Qed.

Lemma keeps_save_architecture (architecture : value) (output_dir : string) :
  keeps_build_state (Architect.save_architecture E architecture output_dir).
Proof. unfold Architect.save_architecture, Architect.stack_bullets. frame. Qed.

Lemma keeps_generate_detailed_features (features : value) (output_dir : string) :
  keeps_build_state
    (FeaturePlanner.generate_detailed_features E features output_dir).
Proof.
  unfold FeaturePlanner.generate_detailed_features, FeaturePlanner.detail_step.
  frame.
Qed.

Lemma keeps_plan_features (analysis architecture : value) (detailed : bool)
      (output_dir : option string) :
  keeps_build_state
    (FeaturePlanner.plan_features E analysis architecture detailed output_dir).
Proof.
  pose proof keeps_generate_detailed_features.
  unfold FeaturePlanner.plan_features. frame.
Qed.

Lemma keeps_save_feature_plan (features : value) (output_dir : string) :
  keeps_build_state (FeaturePlanner.save_feature_plan E features output_dir).
Proof.
  unfold FeaturePlanner.save_feature_plan, FeaturePlanner.category_bullets. frame.
Qed.

Lemma keeps_generate_brd (analysis features : value) :
  keeps_build_state (DocumentWriter.generate_brd E analysis features).
Proof. unfold DocumentWriter.generate_brd. frame. Qed.

Lemma keeps_generate_srs (analysis architecture features : value) :
  keeps_build_state (DocumentWriter.generate_srs E analysis architecture features).
Proof. unfold DocumentWriter.generate_srs. frame. Qed.

Lemma keeps_save_document (document : value) (output_dir : string) :
  keeps_build_state (DocumentWriter.save_document E document output_dir).
Proof. unfold DocumentWriter.save_document. frame. Qed.

Lemma keeps_validate_project_output (output_dir : string) :
  keeps_build_state (Validator.validate_project_output E output_dir).
Proof.
  unfold Validator.validate_project_output, Validator.validate_step. frame.
Qed.

Hint Resolve keeps_analyze_requirements keeps_analyze_bnmp keeps_save_analysis
     keeps_design_architecture keeps_save_architecture keeps_plan_features
     keeps_save_feature_plan keeps_generate_brd keeps_generate_srs
     keeps_save_document keeps_validate_project_output : frame.

Lemma keeps_run_analysis (requirements : string) (context : value) :
  keeps_build_state (Orchestrator._run_analysis E requirements context).
Proof. unfold Orchestrator._run_analysis, Orchestrator.failed. frame. Qed.

Lemma keeps_run_architecture (analysis_state : value) :
  keeps_build_state (Orchestrator._run_architecture E analysis_state).
Proof. unfold Orchestrator._run_architecture, Orchestrator.failed. frame. Qed.

Lemma keeps_run_feature_planning (analysis_state architecture_state : value)
      (detailed : bool) :
  keeps_build_state
    (Orchestrator._run_feature_planning E analysis_state architecture_state
                                        detailed).
Proof.
  unfold Orchestrator._run_feature_planning, Orchestrator.store_detail,
    Orchestrator.failed.
  frame.
Qed.

Lemma keeps_run_document_generation
      (analysis_state architecture_state features_state : value) :
  keeps_build_state
    (Orchestrator._run_document_generation E analysis_state architecture_state
                                           features_state).
Proof.
  unfold Orchestrator._run_document_generation, Orchestrator.failed. frame.
Qed.

Lemma keeps_run_validation : keeps_build_state (Orchestrator._run_validation E).
Proof. unfold Orchestrator._run_validation, Orchestrator.failed. frame. Qed.

Lemma keeps_generate_final_report (build_result : value) :
  keeps_build_state (Orchestrator._generate_final_report E build_result).
Proof. unfold Orchestrator._generate_final_report, Orchestrator.failed. frame. Qed.

Hint Resolve keeps_run_analysis keeps_run_architecture
     keeps_run_feature_planning keeps_run_document_generation
     keeps_run_validation keeps_generate_final_report : frame.

(** No stage and no agent writes [self.build_state]: a build leaves it as
    the constructor has set it. *)
Lemma build_project_keeps_build_state
      (requirements : string) (context : value) (detailed : bool) :
  keeps_build_state (Orchestrator.build_project E requirements context detailed).
Proof. unfold Orchestrator.build_project. frame. Qed.

(** With an empty [build_state] the refinement of the documents finds
    nothing to refine. *)
Lemma refine_with_empty_build_state (feedback : string) (w : world) :
  build_state w = VDict [] ->
  Orchestrator.refine_with_feedback E feedback "documents" w
  = (Ok (VDict [("status", VStr "completed");
                ("refined_state", VStr "documents")]), w).
Proof.
  intros H. unfold Orchestrator.refine_with_feedback, try_except, bind.
  cbn [String.eqb Ascii.eqb Bool.eqb]. now rewrite H.
Qed.

(** C3: what the code does instead.  [build_project] never stores its
    result in [build_state], which the constructor has set to the empty
    dictionary.  So after any build, with any provider and any feedback,
    [refine_with_feedback(feedback, "documents")] reports "completed" and
    leaves the state exactly as it found it: no completion call is issued
    and no file is written under [refined/]. *)
Theorem refine_after_build_refines_nothing
        (requirements : string) (context : value) (detailed : bool)
        (feedback : string) (w : world) :
  build_state
    (snd (Orchestrator.build_project E requirements context detailed
            (Orchestrator.with_build_state (VDict []) w)))
  = VDict []
  /\ Orchestrator.refine_with_feedback E feedback "documents"
       (snd (Orchestrator.build_project E requirements context detailed
               (Orchestrator.with_build_state (VDict []) w)))
     = (Ok (VDict [("status", VStr "completed");
                   ("refined_state", VStr "documents")]),
        snd (Orchestrator.build_project E requirements context detailed
               (Orchestrator.with_build_state (VDict []) w))).
Proof.
  assert (H : build_state
                (snd (Orchestrator.build_project E requirements context detailed
                        (Orchestrator.with_build_state (VDict []) w)))
              = VDict [])
    by now rewrite build_project_keeps_build_state.
  split; [exact H|]. now apply refine_with_empty_build_state.
Qed.

End BuildStateFacts.

(** C3 on the example: a blog is built with a provider that always answers,
    the documents stage is completed and has recorded the BRD and the SRS;
    the refinement that follows reports "completed", issues no completion
    call and writes no file. *)
Lemma refinement_after_blog_build :
  status_after blog_build "documents" = Some (VStr "completed")
  /\ Dict.keys (files (snd blog_build))
     = ["./output/v1/state_1_analysis/analysis_overview.md";
        "./output/v1/state_2_architecture/system_architecture.md";
        "./output/v1/state_3_features/features/posts.md";
        "./output/v1/state_3_features/features/comments.md";
        "./output/v1/state_3_features/feature_list.md";
        "./output/v1/state_4_documents/brd.md";
        "./output/v1/state_4_documents/srs.md";
        "./output/v1/state_5_validation/validation_report.json";
        "./output/v1/state_6_final/final_report.md"]
  /\ build_state (snd blog_build) = VDict []
  /\ Orchestrator.refine_with_feedback (stub_env always_answers)
       "Add more detail on security" "documents" (snd blog_build)
     = (Ok (VDict [("status", VStr "completed");
                   ("refined_state", VStr "documents")]),
        snd blog_build).
Proof.
  vm_compute. repeat split; reflexivity.
Qed.

(** ** A build only adds *)

Section OnlyAdds.
Variable E : env.

Ltac none_added := exists []; now rewrite app_nil_r.

Ltac grow :=
  unfold grows;
  cbn [snd llm_calls clock dirs files vector_store history with_llm_calls
       with_clock with_dirs with_files with_vector_store with_history];
  split; [|split; [|split; [|split; [|split]]]];
  [ lia | lia | try none_added | try (intros ? ?; assumption)
  | try (exists []; split; [now rewrite app_nil_r|constructor])
  | try none_added ].

Lemma grows_refl (w : world) : grows w w.
Proof. grow. Qed.

Lemma grows_trans (w1 w2 w3 : world) : grows w1 w2 -> grows w2 w3 -> grows w1 w3.
Proof.
  intros (Hl & Hc & (d & Hd) & Hf & (s & Hs & Hall) & (h & Hh))
         (Hl' & Hc' & (d' & Hd') & Hf' & (s' & Hs' & Hall') & (h' & Hh')).
  unfold grows. split; [|split; [|split; [|split; [|split]]]].
  - lia.
  - lia.
  - exists (d ++ d')%list. now rewrite Hd', Hd, app_assoc.
  - auto.
  - exists (s ++ s')%list. split; [now rewrite Hs', Hs, app_assoc|].
    apply Forall_app. now split.
  - exists (h ++ h')%list. now rewrite Hh', Hh, app_assoc.
Qed.

Lemma adds_ret {A : Type} (a : A) : only_adds (ret a).
Proof. intros w. apply grows_refl. Qed.

Lemma adds_raise {A : Type} (e : exn) : only_adds (@raise A e).
Proof. intros w. apply grows_refl. Qed.

Lemma adds_lift {A : Type} (o : outcome A) : only_adds (lift o).
Proof. intros w. apply grows_refl. Qed.

Lemma adds_read {A : Type} (f : world -> A) : only_adds (fun w => (Ok (f w), w)).
Proof. intros w. apply grows_refl. Qed.

Lemma adds_bind {A B : Type} (m : M A) (k : A -> M B) :
  only_adds m -> (forall a, only_adds (k a)) -> only_adds (bind m k).
Proof.
  intros Hm Hk w. unfold bind. specialize (Hm w).
  destruct (m w) as [[a|e] w']; cbn [snd] in *; [|exact Hm].
  exact (grows_trans _ _ _ Hm (Hk a w')).
Qed.

Lemma adds_try {A : Type} (body : M A) (handler : exn -> M A) :
  only_adds body -> (forall e, only_adds (handler e)) ->
  only_adds (try_except body handler).
Proof.
  intros Hm Hk w. unfold try_except. specialize (Hm w).
  destruct (body w) as [[a|e] w']; cbn [snd] in *; [exact Hm|].
  exact (grows_trans _ _ _ Hm (Hk e w')).
Qed.

Lemma adds_for_each {A : Type} (l : list A) (body : A -> M unit) :
  (forall x, only_adds (body x)) -> only_adds (for_each l body).
Proof.
  intros H. induction l as [|x l IH]; cbn [for_each];
    [apply adds_ret|apply adds_bind; auto].
Qed.

Lemma adds_fold_m {A S : Type} (l : list A) (body : S -> A -> M S) (s : S) :
  (forall s x, only_adds (body s x)) -> only_adds (fold_m l body s).
Proof.
  intros H. revert s. induction l as [|x l IH]; intros s; cbn [fold_m];
    [apply adds_ret|apply adds_bind; auto].
Qed.

Lemma adds_llm_complete (prompt system_prompt : string) :
  only_adds (llm_complete E prompt system_prompt).
Proof.
  intros w. unfold llm_complete. grow.
Qed.

Lemma adds_makedirs (path : string) : only_adds (makedirs E path).
Proof.
  intros w. unfold makedirs. destruct (fs_error E path); [apply grows_refl|].
  grow. now exists [path].
Qed.

Lemma adds_write_file (path content : string) :
  only_adds (write_file E path content).
Proof.
  intros w. unfold write_file. destruct (fs_error E path); [apply grows_refl|].
  grow. intros p Hp. apply in_keys_set. now left.
Qed.

Lemma adds_datetime_now : only_adds (datetime_now E).
Proof.
  intros w. unfold datetime_now. grow.
Qed.

Lemma adds_add_document (content : value) (metadata : list (string * value)) :
  only_adds (add_document E content metadata).
Proof.
  intros w. unfold add_document. destruct content; try apply grows_refl.
  destruct (vector_error E _ _ _); [apply grows_refl|]. grow.
  eexists. split; [reflexivity|]. constructor; [|constructor].
  eexists. cbn [fst snd]. split; [reflexivity|].
  rewrite !get_set. split; reflexivity.
Qed.

Lemma adds_get_collection_stats : only_adds (get_collection_stats E).
Proof. intros w. apply grows_refl. Qed.

Lemma adds_log_history (state : string) (files : value) (version : string)
      (metadata : value) :
  only_adds (log_history E state files version metadata).
Proof.
  unfold log_history. apply adds_bind; [apply adds_datetime_now|].
  intros timestamp w. destruct (fs_error E (history_file E)); [apply grows_refl|].
  grow. now eexists.
Qed.

Lemma adds_path_exists (path : string) : only_adds (path_exists E path).
Proof. intros w. apply grows_refl. Qed.

Lemma adds_validate_file (file_path doc_type : string) :
  only_adds (Validator.validate_file E file_path doc_type).
Proof.
  intros w. unfold Validator.validate_file.
  destruct (read_text E w file_path); apply grows_refl.
Qed.

Create HintDb adds.

#[local] Hint Resolve adds_ret adds_raise adds_lift adds_llm_complete
  adds_makedirs adds_write_file adds_datetime_now adds_add_document
  adds_get_collection_stats adds_log_history adds_path_exists
  adds_validate_file : adds.

(** Walks through a computation built from the operations above. *)
Ltac adds :=
  repeat first
    [ progress auto with adds
    | apply adds_bind; [|intros]
    | apply adds_try; [|intros]
    | apply adds_for_each; intros
    | apply adds_fold_m; intros
    | apply adds_read
    | match goal with
      | |- only_adds (match ?x with _ => _ end) => destruct x
      | |- only_adds (let '(_, _) := ?x in _) => destruct x
      end ].

Lemma adds_analyze_requirements (requirements : string) (context : value) :
  only_adds (Analyzer.analyze_requirements E requirements context).
Proof. unfold Analyzer.analyze_requirements. adds. Qed.

Lemma adds_analyze_bnmp (bnm context : value) :
  only_adds (Analyzer.analyze_bnmp E bnm context).
Proof. unfold Analyzer.analyze_bnmp. adds. Qed.

Lemma adds_save_analysis (analysis : value) (output_dir : string) :
  only_adds (Analyzer.save_analysis E analysis output_dir).
Proof. unfold Analyzer.save_analysis. adds. Qed.

Lemma adds_design_architecture (analysis : value) (requirements : string) :
  only_adds (Architect.design_architecture E analysis requirements).
Proof. unfold Architect.design_architecture. adds. Qed.

Lemma adds_save_architecture (architecture : value) (output_dir : string) :
  only_adds (Architect.save_architecture E architecture output_dir).
Proof. unfold Architect.save_architecture, Architect.stack_bullets. adds. Qed.

Lemma adds_generate_detailed_features (features : value) (output_dir : string) :
  only_adds (FeaturePlanner.generate_detailed_features E features output_dir).
Proof.
  unfold FeaturePlanner.generate_detailed_features, FeaturePlanner.detail_step.
  adds.
Qed.

Lemma adds_plan_features (analysis architecture : value) (detailed : bool)
      (output_dir : option string) :
  only_adds
    (FeaturePlanner.plan_features E analysis architecture detailed output_dir).
Proof.
  pose proof adds_generate_detailed_features.
  unfold FeaturePlanner.plan_features. adds.
Qed.

Lemma adds_save_feature_plan (features : value) (output_dir : string) :
  only_adds (FeaturePlanner.save_feature_plan E features output_dir).
Proof.
  unfold FeaturePlanner.save_feature_plan, FeaturePlanner.category_bullets. adds.
Qed.

Lemma adds_generate_brd (analysis features : value) :
  only_adds (DocumentWriter.generate_brd E analysis features).
Proof. unfold DocumentWriter.generate_brd. adds. Qed.

Lemma adds_generate_srs (analysis architecture features : value) :
  only_adds (DocumentWriter.generate_srs E analysis architecture features).
Proof. unfold DocumentWriter.generate_srs. adds. Qed.

Lemma adds_save_document (document : value) (output_dir : string) :
  only_adds (DocumentWriter.save_document E document output_dir).
Proof. unfold DocumentWriter.save_document. adds. Qed.

Lemma adds_validate_project_output (output_dir : string) :
  only_adds (Validator.validate_project_output E output_dir).
Proof.
  unfold Validator.validate_project_output, Validator.validate_step. adds.
Qed.

#[local] Hint Resolve adds_analyze_requirements adds_analyze_bnmp
  adds_save_analysis adds_design_architecture adds_save_architecture
  adds_plan_features adds_save_feature_plan adds_generate_brd adds_generate_srs
  adds_save_document adds_validate_project_output : adds.

Lemma adds_run_analysis (requirements : string) (context : value) :
  only_adds (Orchestrator._run_analysis E requirements context).
Proof. unfold Orchestrator._run_analysis, Orchestrator.failed. adds. Qed.

Lemma adds_run_architecture (analysis_state : value) :
  only_adds (Orchestrator._run_architecture E analysis_state).
Proof. unfold Orchestrator._run_architecture, Orchestrator.failed. adds. Qed.

Lemma adds_run_feature_planning (analysis_state architecture_state : value)
      (detailed : bool) :
  only_adds
    (Orchestrator._run_feature_planning E analysis_state architecture_state
                                        detailed).
Proof.
  unfold Orchestrator._run_feature_planning, Orchestrator.store_detail,
    Orchestrator.failed.
  adds.
Qed.

Lemma adds_run_document_generation
      (analysis_state architecture_state features_state : value) :
  only_adds
    (Orchestrator._run_document_generation E analysis_state architecture_state
                                           features_state).
Proof.
  unfold Orchestrator._run_document_generation, Orchestrator.failed. adds.
Qed.

Lemma adds_run_validation : only_adds (Orchestrator._run_validation E).
Proof. unfold Orchestrator._run_validation, Orchestrator.failed. adds. Qed.

Lemma adds_generate_final_report (build_result : value) :
  only_adds (Orchestrator._generate_final_report E build_result).
Proof. unfold Orchestrator._generate_final_report, Orchestrator.failed. adds. Qed.

#[local] Hint Resolve adds_run_analysis adds_run_architecture
  adds_run_feature_planning adds_run_document_generation
  adds_run_validation adds_generate_final_report : adds.

Lemma adds_refine_content (content : value) (feedback content_type : string) :
  only_adds (Refiner.refine_content E content feedback content_type).
Proof. unfold Refiner.refine_content. adds. Qed.

Lemma adds_save_refinement (refinement : value) (output_dir : string)
      (filename : option string) :
  only_adds (Refiner.save_refinement E refinement output_dir filename).
Proof. unfold Refiner.save_refinement. adds. Qed.

(** X16.  A build and a refinement only add, with any provider, file system
    and vector store, and whether stages fail or not: no file that existed
    is removed, the directories, the vector store and the history are
    extended at their end, and no counter goes back.  Every entry that is
    added to the vector store carries the type ["document"], not the type
    that the orchestrator passed for it, and the length of its text. *)
Theorem build_and_refinement_only_add
        (requirements : string) (context : value) (detailed : bool)
        (feedback target_state : string) :
  only_adds (Orchestrator.build_project E requirements context detailed)
  /\ only_adds (Orchestrator.refine_with_feedback E feedback target_state).
Proof.
  pose proof adds_refine_content. pose proof adds_save_refinement. split.
  - unfold Orchestrator.build_project. adds.
  - unfold Orchestrator.refine_with_feedback,
      Orchestrator.refine_document_of_state, Orchestrator.failed.
    adds.
Qed.

End OnlyAdds.

(** ** The stages of the pipeline *)

Section PipelineFacts.
Variable E : env.

(** *** What a computation returns, if it returns *)

Lemma returns_ret {A : Type} (a : A) (P : A -> Prop) :
  P a -> returns_with (ret a) P.
Proof. intros H w b w' Heq. now inversion Heq; subst. Qed.

Lemma returns_bind_with {A B : Type} (m : M A) (k : A -> M B)
      (Q : A -> Prop) (P : B -> Prop) :
  returns_with m Q -> (forall a, Q a -> returns_with (k a) P) ->
  returns_with (bind m k) P.
Proof.
  intros Hm Hk w b w' Heq. unfold bind in Heq.
  destruct (m w) as [[a|e] w1] eqn:Hmw; [|discriminate].
  exact (Hk a (Hm _ _ _ Hmw) _ _ _ Heq).
Qed.

Lemma returns_bind {A B : Type} (m : M A) (k : A -> M B) (P : B -> Prop) :
  (forall a, returns_with (k a) P) -> returns_with (bind m k) P.
Proof.
  intros Hk. apply returns_bind_with with (Q := fun _ => True); [easy|auto].
Qed.

Lemma returns_try {A : Type} (body : M A) (handler : exn -> M A) (P : A -> Prop) :
  returns_with body P -> (forall e, returns_with (handler e) P) ->
  returns_with (try_except body handler) P.
Proof.
  intros Hb Hh w a w' Heq. unfold try_except in Heq.
  destruct (body w) as [[b|e] w1] eqn:Hbw.
  - inversion Heq; subst. exact (Hb _ _ _ Hbw).
  - exact (Hh e _ _ _ Heq).
Qed.

Lemma returns_fold_m {A S : Type} (l : list A) (body : S -> A -> M S) (s : S)
      (P : S -> Prop) :
  P s -> (forall s x, P s -> returns_with (body s x) P) ->
  returns_with (fold_m l body s) P.
Proof.
  intros Hs Hbody. revert s Hs. induction l as [|x l IH]; intros s Hs;
    cbn [fold_m].
  - now apply returns_ret.
  - apply returns_bind_with with (Q := P); [now apply Hbody|exact IH].
Qed.

(** A [try] statement whose handler returns always returns. *)
Lemma try_succeeds {A : Type} (body : M A) (handler : exn -> A) (P : A -> Prop)
      (w : world) :
  returns_with body P -> (forall e, P (handler e)) ->
  succeeds (try_except body (fun e => ret (handler e))) w (fun a _ => P a).
Proof.
  intros Hb Hh. unfold succeeds, try_except, ret.
  destruct (body w) as [[a|e] w'] eqn:Hbw; eauto.
Qed.

(** *** Computations that return *)

Lemma succeeds_weaken {A : Type} (m : M A) (w : world)
      (P Q : A -> world -> Prop) :
  succeeds m w P -> (forall a w', P a w' -> Q a w') -> succeeds m w Q.
Proof. intros (a & w' & Hm & HP) H. exists a, w'. auto. Qed.

Lemma succeeds_ret {A : Type} (a : A) (w : world) (P : A -> world -> Prop) :
  P a w -> succeeds (ret a) w P.
Proof. intros H. now exists a, w. Qed.

Lemma succeeds_lift {A : Type} (a : A) (w : world) (P : A -> world -> Prop) :
  P a w -> succeeds (lift (Ok a)) w P.
Proof. intros H. now exists a, w. Qed.

Lemma succeeds_bind {A B : Type} (m : M A) (k : A -> M B) (w : world)
      (P : B -> world -> Prop) :
  succeeds m w (fun a w1 => succeeds (k a) w1 P) -> succeeds (bind m k) w P.
Proof.
  intros (a & w1 & Hm & b & w' & Hk & HP). exists b, w'.
  split; [|exact HP]. now rewrite (bind_ok _ _ _ _ _ Hm).
Qed.

Lemma succeeds_try {A : Type} (body : M A) (handler : exn -> M A) (w : world)
      (P : A -> world -> Prop) :
  succeeds body w P -> succeeds (try_except body handler) w P.
Proof.
  intros (a & w' & Hb & HP). exists a, w'.
  split; [|exact HP]. now apply try_except_ok.
Qed.

Lemma succeeds_for_each {A : Type} (l : list A) (body : A -> M unit) (w : world) :
  (forall x w1, In x l -> succeeds (body x) w1 (fun _ _ => True)) ->
  succeeds (for_each l body) w (fun _ _ => True).
Proof.
  revert w. induction l as [|x l IH]; intros w H; cbn [for_each].
  - now apply succeeds_ret.
  - apply succeeds_bind.
    apply (succeeds_weaken _ _ _ _ (H x w (or_introl eq_refl))).
    intros _ w1 _. apply IH. intros y w2 Hy. apply H. now right.
Qed.

Lemma succeeds_makedirs (path : string) (w : world) (P : unit -> world -> Prop) :
  writes_succeed E ->
  (forall w', P tt w') -> succeeds (makedirs E path) w P.
Proof.
  intros Hfs H. unfold succeeds, makedirs. rewrite Hfs. eauto.
Qed.

Lemma succeeds_write_file (path content : string) (w : world)
      (P : unit -> world -> Prop) :
  writes_succeed E ->
  (forall w', P tt w') -> succeeds (write_file E path content) w P.
Proof.
  intros Hfs H. unfold succeeds, write_file. rewrite Hfs. eauto.
Qed.

Lemma succeeds_add_document (text : string) (metadata : list (string * value))
      (w : world) (P : string -> world -> Prop) :
  store_accepts E ->
  (forall a w', P a w') -> succeeds (add_document E (VStr text) metadata) w P.
Proof.
  intros Hstore H. unfold succeeds, add_document. rewrite Hstore. eauto.
Qed.

Lemma succeeds_log_history (state : string) (files : value) (version : string)
      (metadata : value) (w : world) (P : unit -> world -> Prop) :
  (forall w', P tt w') -> succeeds (log_history E state files version metadata) w P.
Proof.
  intros H. unfold succeeds, log_history, bind, datetime_now.
  destruct (fs_error E (history_file E)); eauto.
Qed.

Lemma succeeds_get_collection_stats (w : world) (P : value -> world -> Prop) :
  (forall a w', P a w') -> succeeds (get_collection_stats E) w P.
Proof. intros H. unfold succeeds, get_collection_stats. eauto. Qed.

(** Evaluates the dictionary operations on a dictionary whose keys are
    known. *)
Ltac reduce :=
  cbn [Py.get Py.index Py.iter Py.len Py.items Py.values Py.join
       Py.strings_from Py.as_str Py.is_dict_with Py.truthy Py.has_key
       Py.str_list Py.or_empty_dict PyStr.truthy
       Dict.get_default Dict.get Dict.keys Dict.values
       String.eqb Ascii.eqb Bool.eqb map fst snd andb orb negb app].

(** Runs a computation forward as long as its next step is known to
    return. *)
Ltac forward Hfs Hstore :=
  repeat first
    [ progress cbv beta
    | match goal with
      | |- succeeds (bind _ _) _ _ => apply succeeds_bind
      | |- succeeds (ret _) _ _ => apply succeeds_ret
      | |- succeeds (lift (Ok _)) _ _ => apply succeeds_lift
      | |- succeeds (try_except _ _) _ _ => apply succeeds_try
      | |- succeeds (makedirs _ _) _ _ =>
          apply succeeds_makedirs; [exact Hfs|intros]
      | |- succeeds (write_file _ _ _) _ _ =>
          apply succeeds_write_file; [exact Hfs|intros]
      | |- succeeds (add_document _ (VStr _) _) _ _ =>
          apply succeeds_add_document; [exact Hstore|intros]
      | |- succeeds (log_history _ _ _ _ _) _ _ =>
          apply succeeds_log_history; intros
      | |- succeeds (get_collection_stats _) _ _ =>
          apply succeeds_get_collection_stats; intros
      end
    | progress reduce ].

(** *** The architecture stage when the provider fails for the architect *)

(** What the stage leaves behind when the provider fails for the architect:
    the file of the degraded artifact, and one entry in the vector store
    that indexes its empty content. *)
Lemma design_architecture_degrades_at (analysis : value) (w : world) :
  architect_calls_raise E ->
  exists e w0,
    Architect.design_architecture E analysis "" w
    = (Ok (VDict [("error", VStr e);
                  ("base_analysis", analysis);
                  ("architecture_content", VStr "");
                  ("metadata",
                   VDict [("agent", VStr "Architect"); ("error", VBool true)])]),
       w0)
    /\ files w0 = files w /\ dirs w0 = dirs w
    /\ vector_store w0 = vector_store w.
Proof.
  intros Harch.
  unfold Architect.design_architecture, try_except, bind, lift, ret, llm_complete.
  destruct (Py.get analysis "analysis_content" (VStr "")) as [content|e].
  - match goal with
    | |- context [complete E (llm_calls w) ?p _] =>
        destruct (Harch (llm_calls w) p) as [e He]
    end.
    unfold architect_system_prompt in He. rewrite He. eexists _, _.
    split; [reflexivity|]. repeat split.
  - eexists _, _. split; [reflexivity|]. repeat split.
Qed.

Lemma save_architecture_degraded_at (e : string) (analysis : value)
      (dir : string) (w : world) :
  writes_succeed E ->
  Architect.save_architecture E
    (VDict [("error", VStr e);
            ("base_analysis", analysis);
            ("architecture_content", VStr "");
            ("metadata",
             VDict [("agent", VStr "Architect"); ("error", VBool true)])])
    dir w
  = (Ok (path_join dir "system_architecture.md"),
     with_files (Dict.set (path_join dir "system_architecture.md")
                          degraded_architecture_text (files w))
                (with_dirs (dirs w ++ [dir]) w)).
Proof.
  intros Hfs.
  unfold Architect.save_architecture, Architect.stack_bullets, bind, lift, ret,
    makedirs, write_file.
  rewrite !Hfs. reflexivity.
Qed.

Lemma run_architecture_degraded_stored (analysis_state : value) (w : world) :
  writes_succeed E -> store_accepts E -> architect_calls_raise E ->
  is_dict analysis_state ->
  exists result w',
    Orchestrator._run_architecture E analysis_state w
    = (Ok (VDict [("result", result);
                  ("files", VList [VStr (architecture_file E)]);
                  ("status", VStr "completed")]), w')
    /\ degraded_architecture result
    /\ Dict.get (architecture_file E) (files w') = Some degraded_architecture_text
    /\ vector_store w' = List.app (vector_store w) [degraded_architecture_entry E].
Proof.
  intros Hfs Hstore Harch [d ->].
  destruct (design_architecture_degrades_at
              (Dict.get_default "result" (VDict []) d) w Harch)
    as (e & w0 & Hdesign & Hfiles & _ & Hvs).
  unfold Orchestrator._run_architecture, try_except. unfold bind at 1.
  cbn [Py.get lift]. unfold bind at 1. rewrite Hdesign.
  unfold bind at 1. rewrite (save_architecture_degraded_at _ _ _ _ Hfs).
  unfold bind, lift, ret, add_document, log_history, datetime_now.
  cbn [Py.get Dict.get_default Dict.get String.eqb Ascii.eqb Bool.eqb].
  rewrite Hstore.
  destruct (fs_error E (history_file E)); eexists _, _;
    (split; [reflexivity|]);
    (split; [eexists _, _; reflexivity|]);
    cbn [files vector_store with_files with_dirs with_vector_store with_clock
         with_history];
    (split; [rewrite get_set; fold (architecture_file E);
             now rewrite String.eqb_refl
            |now rewrite Hvs]).
Qed.

(** *** The shape of what agents and stages return *)

Lemma returns_raise {A : Type} (e : exn) (P : A -> Prop) :
  returns_with (@raise A e) P.
Proof. intros w a w' Heq. discriminate Heq. Qed.

(** Walks to the places where a computation returns. *)
Ltac returns_walk :=
  repeat match goal with
         | |- returns_with (bind _ _) _ => apply returns_bind; intros
         | |- returns_with (try_except _ _) _ => apply returns_try; [|intros]
         | |- returns_with (ret _) _ => apply returns_ret
         | |- returns_with (raise _) _ => apply returns_raise
         | |- returns_with (match ?x with _ => _ end) _ => destruct x
         end.

Ltac shape :=
  unfold stage_shape, is_dict; eexists; split; [reflexivity|]; reduce;
  repeat split; eauto.

Lemma analyze_requirements_dict (requirements : string) (context : value) :
  returns_with (Analyzer.analyze_requirements E requirements context) is_dict.
Proof.
  unfold Analyzer.analyze_requirements. returns_walk; unfold is_dict; eauto.
Qed.

Lemma design_architecture_dict (analysis : value) (requirements : string) :
  returns_with (Architect.design_architecture E analysis requirements) is_dict.
Proof.
  unfold Architect.design_architecture. returns_walk; unfold is_dict; eauto.
Qed.

Lemma forall_set {V : Type} (P : string * V -> Prop) (k : string) (v : V)
      (d : list (string * V)) :
  Forall P d -> P (k, v) -> Forall P (Dict.set k v d).
Proof.
  intros Hd Hv. induction Hd as [|[k' v'] d Hx Hd IH]; cbn [Dict.set].
  - now constructor.
  - destruct (String.eqb k k'); constructor; auto.
Qed.

Lemma generate_detailed_features_shape (features : value) (dir : string) :
  returns_with (FeaturePlanner.generate_detailed_features E features dir)
               details_shape.
Proof.
  unfold FeaturePlanner.generate_detailed_features. apply returns_try.
  - do 3 (apply returns_bind; intros).
    apply returns_bind_with
      with (Q := Forall (fun kv : string * value =>
                           detail_entry (snd kv) \/ exists msg, snd kv = VStr msg)).
    + apply returns_fold_m; [constructor|]. intros acc x Hacc.
      unfold FeaturePlanner.detail_step. returns_walk.
      apply forall_set; [exact Hacc|]. left. cbn [snd]. unfold detail_entry. eauto.
    + intros r Hr. apply returns_ret. now exists r.
  - intros e. apply returns_ret. eexists. split; [reflexivity|].
    constructor; [right; cbn [snd]; eauto|constructor].
Qed.

Lemma plan_features_shape (analysis architecture : value) (detailed : bool)
      (output_dir : option string) :
  returns_with
    (FeaturePlanner.plan_features E analysis architecture detailed output_dir)
    features_shape.
Proof.
  unfold FeaturePlanner.plan_features. apply returns_try.
  - do 3 (apply returns_bind; intros).
    destruct output_dir as [dir|].
    + destruct (detailed && PyStr.truthy dir).
      * apply returns_bind_with with (Q := details_shape);
          [apply generate_detailed_features_shape|].
        intros details Hdetails. apply returns_ret. right.
        exists analysis, architecture. eexists _, _, _, _, _.
        split; [cbn [Dict.set String.eqb Ascii.eqb Bool.eqb app]; reflexivity|].
        right. eauto.
      * apply returns_ret. right. exists analysis, architecture.
        eexists _, _, _, _, []. split; [reflexivity|now left].
    + apply returns_ret. right. exists analysis, architecture.
      eexists _, _, _, _, []. split; [reflexivity|now left].
  - intros e. apply returns_ret. left. eauto.
Qed.

Lemma plan_features_succeeds (analysis architecture : value) (detailed : bool)
      (output_dir : option string) (w : world) :
  succeeds
    (FeaturePlanner.plan_features E analysis architecture detailed output_dir)
    w (fun v _ => features_shape v).
Proof.
  pose proof (plan_features_shape analysis architecture detailed output_dir) as H.
  unfold FeaturePlanner.plan_features in *. apply try_succeeds.
  - intros w0 a w' Hbody. apply (H w0 a w').
    now rewrite (try_except_ok _ _ _ _ _ Hbody).
  - intros e. left. eauto.
Qed.

Lemma validate_project_output_dict (dir : string) :
  returns_with (Validator.validate_project_output E dir) is_dict.
Proof.
  unfold Validator.validate_project_output, Validator.project_result.
  returns_walk; unfold is_dict; eauto.
Qed.

Lemma run_analysis_shape (requirements : string) (context : value) (w : world) :
  succeeds (Orchestrator._run_analysis E requirements context) w
           (fun v _ => stage_shape v).
Proof.
  unfold Orchestrator._run_analysis, Orchestrator.failed. apply try_succeeds.
  - apply returns_bind_with with (Q := is_dict);
      [apply analyze_requirements_dict|].
    intros result Hresult. returns_walk. shape.
  - intros e. shape.
Qed.

Lemma run_architecture_shape (analysis_state : value) (w : world) :
  succeeds (Orchestrator._run_architecture E analysis_state) w
           (fun v _ => stage_shape v).
Proof.
  unfold Orchestrator._run_architecture, Orchestrator.failed. apply try_succeeds.
  - apply returns_bind; intros.
    apply returns_bind_with with (Q := is_dict);
      [apply design_architecture_dict|].
    intros result Hresult. returns_walk. shape.
  - intros e. shape.
Qed.

Lemma features_shape_dict (v : value) : features_shape v -> is_dict v.
Proof.
  intros [(e & a & r & ->)|(a & r & c & ver & cats & tl & extra & -> & _)];
    unfold is_dict; eauto.
Qed.

Lemma run_feature_planning_shape (analysis_state architecture_state : value)
      (detailed : bool) (w : world) :
  succeeds
    (Orchestrator._run_feature_planning E analysis_state architecture_state
                                        detailed)
    w (fun v _ => stage_shape v).
Proof.
  unfold Orchestrator._run_feature_planning, Orchestrator.failed.
  apply try_succeeds.
  - do 2 (apply returns_bind; intros).
    apply returns_bind_with with (Q := features_shape);
      [apply plan_features_shape|].
    intros result Hresult. apply features_shape_dict in Hresult.
    returns_walk. shape.
  - intros e. shape.
Qed.

Lemma run_document_generation_shape
      (analysis_state architecture_state features_state : value) (w : world) :
  succeeds
    (Orchestrator._run_document_generation E analysis_state architecture_state
                                           features_state)
    w (fun v _ => stage_shape v).
Proof.
  unfold Orchestrator._run_document_generation, Orchestrator.failed.
  apply try_succeeds.
  - returns_walk. shape.
  - intros e. shape.
Qed.

Lemma run_validation_shape (w : world) :
  succeeds (Orchestrator._run_validation E) w (fun v _ => stage_shape v).
Proof.
  unfold Orchestrator._run_validation, Orchestrator.failed. apply try_succeeds.
  - apply returns_bind_with with (Q := is_dict);
      [apply validate_project_output_dict|].
    intros result Hresult. returns_walk. shape.
  - intros e. shape.
Qed.

Lemma generate_final_report_shape (build_result : value) (w : world) :
  succeeds (Orchestrator._generate_final_report E build_result) w
           (fun v _ => stage_shape v).
Proof.
  unfold Orchestrator._generate_final_report, Orchestrator.failed.
  apply try_succeeds.
  - returns_walk. shape.
  - intros e. shape.
Qed.

(** *** The features stage, whatever the provider does *)

Lemma category_bullets_ok (features : value) (category : string) (w : world)
      (P : string -> world -> Prop) :
  features_shape features -> (forall s w', P s w') ->
  succeeds (FeaturePlanner.category_bullets E features category) w P.
Proof.
  intros [(e & a & r & ->)|(a & r & c & ver & cats & tl & extra & -> & _)] HP;
    unfold FeaturePlanner.category_bullets.
  - forward HP HP. apply HP.
  - apply succeeds_bind. reduce. apply succeeds_lift. cbv beta.
    apply succeeds_bind. unfold Py.list_dict, Py.get.
    rewrite get_default_list_dict. apply succeeds_lift. cbv beta.
    apply succeeds_bind. unfold Py.str_list, Py.iter. apply succeeds_lift.
    cbv beta. apply succeeds_ret. apply HP.
Qed.

Lemma save_feature_plan_ok (features : value) (dir : string) (w : world) :
  writes_succeed E -> features_shape features ->
  succeeds (FeaturePlanner.save_feature_plan E features dir) w (fun _ _ => True).
Proof.
  intros Hfs Hshape. unfold FeaturePlanner.save_feature_plan.
  apply succeeds_bind, succeeds_makedirs; [exact Hfs|intros w1]. cbv beta.
  assert (Hcontent :
            exists c, Py.get features "features_content" (VStr "N/A") = Ok c).
  { destruct Hshape as [(e & a & r & ->)|(a & r & c & ver & cats & tl & extra & -> & _)];
      reduce; eauto. }
  destruct Hcontent as [c ->]. apply succeeds_bind, succeeds_lift. cbv beta.
  do 3 (apply succeeds_bind, category_bullets_ok; [exact Hshape|intros; cbv beta]).
  destruct Hshape as [(e & a & r & ->)|(a & r & cc & ver & cats & tl & extra & -> & _)].
  - forward Hfs Hfs. exact I.
  - apply succeeds_bind. reduce. apply succeeds_lift. cbv beta.
    apply succeeds_bind. unfold Py.str_dict, Py.items. apply succeeds_lift.
    forward Hfs Hfs. exact I.
Qed.

Lemma detailed_files_of_ok (details : list value) :
  exists files, Orchestrator.detailed_files_of details = Ok files.
Proof.
  unfold Orchestrator.detailed_files_of.
  induction details as [|v details [files IH]]; cbn [fold_right]; [eauto|].
  rewrite IH. destruct v; cbn [Py.is_dict_with]; eauto.
  cbn [Py.index]. destruct (Dict.get "file_path" d); eauto.
Qed.

Lemma store_detail_ok (feature : string) (detail : value) (w : world) :
  store_accepts E ->
  detail_entry detail \/ (exists msg, detail = VStr msg) ->
  succeeds (Orchestrator.store_detail E (feature, detail)) w (fun _ _ => True).
Proof.
  intros Hstore [(c & p & ->)|(msg & ->)]; unfold Orchestrator.store_detail.
  - forward Hstore Hstore. exact I.
  - forward Hstore Hstore. exact I.
Qed.

(** What the stage reads back from the feature plan. *)
Lemma features_shape_details (features : value) :
  features_shape features ->
  exists r,
    Py.get features "detailed_features" (VDict []) = Ok (VDict r)
    /\ Forall (fun kv => detail_entry (snd kv) \/ exists msg, snd kv = VStr msg) r.
Proof.
  intros [(e & a & r & ->)
         |(a & r & c & ver & cats & tl & extra & -> & [->|(details & -> & r' & -> & Hr')])];
    reduce; eauto.
Qed.

Lemma features_shape_content (features : value) :
  features_shape features ->
  exists c, Py.get features "features_content" (VStr "") = Ok (VStr c).
Proof.
  intros [(e & a & r & ->)|(a & r & c & ver & cats & tl & extra & -> & _)];
    reduce; eauto.
Qed.

Lemma run_feature_planning_completed
      (analysis_state architecture_state : value) (detailed : bool) (w : world) :
  writes_succeed E -> store_accepts E ->
  is_dict analysis_state -> is_dict architecture_state ->
  succeeds
    (Orchestrator._run_feature_planning E analysis_state architecture_state
                                        detailed)
    w (fun v _ => completed_stage v /\ stage_shape v).
Proof.
  intros Hfs Hstore [d1 ->] [d2 ->]. unfold Orchestrator._run_feature_planning.
  forward Hfs Hstore.
  apply (succeeds_weaken _ _ _ _ (plan_features_succeeds _ _ _ _ _)).
  intros features w1 Hshape. cbv beta.
  apply succeeds_bind.
  apply (succeeds_weaken _ _ _ _ (save_feature_plan_ok _ _ _ Hfs Hshape)).
  intros file w2 _. cbv beta.
  destruct (features_shape_details _ Hshape) as (r & -> & Hr).
  destruct (features_shape_content _ Hshape) as (c & Hc).
  apply succeeds_bind, succeeds_lift. cbv beta.
  apply succeeds_bind. cbn [Py.values]. apply succeeds_lift. cbv beta.
  destruct (detailed_files_of_ok (Dict.values r)) as [files ->].
  apply succeeds_bind, succeeds_lift. cbv beta.
  apply succeeds_bind. cbn [Py.items]. apply succeeds_lift. cbv beta.
  apply succeeds_bind.
  assert (Hloop : succeeds (for_each r (Orchestrator.store_detail E)) w2
                           (fun _ _ => True)).
  { apply succeeds_for_each. intros [f v] w3 Hin. apply store_detail_ok; [exact Hstore|].
    rewrite Forall_forall in Hr. exact (Hr _ Hin). }
  apply (succeeds_weaken _ _ _ _ Hloop). intros _ w3 _. cbv beta.
  rewrite Hc. apply succeeds_bind, succeeds_lift. cbv beta.
  apply succeeds_bind, succeeds_add_document; [exact Hstore|intros]. cbv beta.
  apply succeeds_bind, succeeds_log_history; intros. cbv beta.
  apply succeeds_ret. split.
  - eexists. split; reflexivity.
  - apply features_shape_dict in Hshape. shape.
Qed.

(** *** The final report *)

Lemma stage_shape_status (v : value) :
  stage_shape v -> exists s, Py.index v "status" = Ok (VStr s).
Proof.
  intros (d & -> & (s & Hs & _) & _). exists s. cbn [Py.index]. now rewrite Hs.
Qed.

Lemma stage_shape_files (v : value) :
  stage_shape v -> exists files, Py.get v "files" (VList []) = Ok (VList files).
Proof.
  intros (d & -> & _ & (files & Hf) & _). exists files. cbn [Py.get]. now rewrite Hf.
Qed.

Lemma stage_shape_result (v : value) :
  stage_shape v -> exists rd, Py.get v "result" (VDict []) = Ok (VDict rd).
Proof.
  intros (d & -> & _ & _ & (rd & Hr)). exists rd. cbn [Py.get]. now rewrite Hr.
Qed.

Lemma phase_lines_ok (states : list (string * value)) (stage : string) (v : value) :
  Dict.get stage states = Some v -> stage_shape v ->
  exists lines, Orchestrator.phase_lines E (VDict states) stage = Ok lines.
Proof.
  intros Hget Hshape. unfold Orchestrator.phase_lines. cbn [Py.index].
  rewrite Hget.
  destruct (stage_shape_status _ Hshape) as [s ->].
  destruct (stage_shape_files _ Hshape) as [files ->].
  cbn [Py.len]. eauto.
Qed.

Lemma generated_files_ok (states : list value) :
  Forall stage_shape states ->
  exists lines, Orchestrator.generated_files E states = Ok lines.
Proof.
  induction 1 as [|v states Hv _ [lines IH]]; cbn [Orchestrator.generated_files];
    [eauto|].
  destruct (stage_shape_files _ Hv) as [files ->]. cbn [Py.iter].
  rewrite IH. eauto.
Qed.

Lemma generate_final_report_completed
      (t : Z) (requirements version : string) (context : value)
      (analysis architecture features documents validation : value) (w : world) :
  writes_succeed E ->
  stage_shape analysis -> stage_shape architecture -> stage_shape features ->
  stage_shape documents -> stage_shape validation ->
  succeeds
    (Orchestrator._generate_final_report E
       (VDict [("start_time", VTime t);
               ("requirements", VStr requirements);
               ("context", context);
               ("states",
                VDict [("analysis", analysis); ("architecture", architecture);
                       ("features", features); ("documents", documents);
                       ("validation", validation)]);
               ("files", VList []);
               ("version", VStr version)]))
    w (fun v _ => completed_stage v /\ stage_shape v).
Proof.
  intros Hfs H1 H2 H3 H4 H5. unfold Orchestrator._generate_final_report.
  apply succeeds_try.
  destruct (stage_shape_status _ H5) as [s5 Hs5].
  destruct (stage_shape_result _ H5) as [r5 Hr5].
  destruct (generated_files_ok [analysis; architecture; features; documents; validation])
    as [files Hfiles]; [repeat constructor; assumption|].
  unfold Orchestrator.format_2f.
  forward Hfs Hfs.
  do 4 (match goal with
        | |- context [Orchestrator.phase_lines E (VDict ?st) ?k] =>
            let H := fresh "Hlines" in
            destruct (phase_lines_ok st k _ eq_refl ltac:(assumption)) as [? H];
            rewrite H
        end; forward Hfs Hfs).
  rewrite Hs5. forward Hfs Hfs.
  rewrite Hr5. forward Hfs Hfs.
  rewrite Hfiles. forward Hfs Hfs.
  split; [eexists; split; reflexivity|shape].
Qed.

(** *** The whole build *)

Lemma succeeds_both {A : Type} (m : M A) (w : world) (P Q : A -> world -> Prop) :
  succeeds m w P -> succeeds m w Q -> succeeds m w (fun a w' => P a w' /\ Q a w').
Proof.
  intros (a & w1 & Hm & HP) (b & w2 & Hm' & HQ). rewrite Hm in Hm'.
  inversion Hm'; subst. exists b, w2. auto.
Qed.

Lemma succeeds_datetime_now (w : world) (P : value -> world -> Prop) :
  (forall t w', P (VTime t) w') -> succeeds (datetime_now E) w P.
Proof. intros H. unfold succeeds, datetime_now. eauto. Qed.

Lemma stage_shape_dict (v : value) : stage_shape v -> is_dict v.
Proof. intros (d & -> & _). now exists d. Qed.

(** Every build returns, with six stages recorded. *)
Lemma build_project_shape (requirements : string) (context : value)
      (detailed : bool) (w : world) :
  succeeds (Orchestrator.build_project E requirements context detailed) w
           (fun build_result _ =>
              exists t t' a1 a2 a3 a4 a5 a6,
                build_result = built E requirements context t t' a1 a2 a3 a4 a5 a6
                /\ Forall stage_shape [a1; a2; a3; a4; a5; a6]).
Proof.
  unfold Orchestrator.build_project.
  apply succeeds_bind, succeeds_datetime_now. intros t w0. cbv beta.
  apply succeeds_bind.
  apply (succeeds_weaken _ _ _ _ (run_analysis_shape _ _ _)). intros a1 w1 H1.
  apply succeeds_bind.
  apply (succeeds_weaken _ _ _ _ (run_architecture_shape _ _)). intros a2 w2 H2.
  apply succeeds_bind.
  apply (succeeds_weaken _ _ _ _ (run_feature_planning_shape _ _ _ _)).
  intros a3 w3 H3. apply succeeds_bind.
  apply (succeeds_weaken _ _ _ _ (run_document_generation_shape _ _ _ _)).
  intros a4 w4 H4. apply succeeds_bind.
  apply (succeeds_weaken _ _ _ _ (run_validation_shape _)). intros a5 w5 H5.
  apply succeeds_bind.
  apply (succeeds_weaken _ _ _ _ (generate_final_report_shape _ _)).
  intros a6 w6 H6.
  apply succeeds_bind, succeeds_datetime_now. intros t' w7. cbv beta.
  apply succeeds_bind, succeeds_log_history. intros w8. apply succeeds_ret.
  exists t, t', a1, a2, a3, a4, a5, a6. split; [reflexivity|].
  repeat constructor; assumption.
Qed.

Lemma succeeds_grows {A : Type} (m : M A) (w : world) (P : A -> world -> Prop) :
  only_adds m -> succeeds m w P ->
  succeeds m w (fun a w' => P a w' /\ grows w w').
Proof.
  intros Hadds (a & w' & Hm & HP). exists a, w'. split; [exact Hm|].
  split; [exact HP|]. specialize (Hadds w). now rewrite Hm in Hadds.
Qed.

Lemma get_in_keys {V : Type} (k : string) (v : V) (d : list (string * V)) :
  Dict.get k d = Some v -> In k (Dict.keys d).
Proof.
  unfold Dict.keys. induction d as [|[k' v'] d IH]; cbn [Dict.get map fst In];
    [discriminate|].
  destruct (String.eqb_spec k k') as [->|_]; [now left|]. intros H. right. auto.
Qed.

(** What was saved and indexed stays so while the state grows. *)
Lemma stored_grows (file : string) (entry : string * value) (w w' : world) :
  grows w w' ->
  In file (Dict.keys (files w)) /\ In entry (vector_store w) ->
  In file (Dict.keys (files w')) /\ In entry (vector_store w').
Proof.
  intros (_ & _ & _ & Hfiles & (documents & Hvs & _) & _) [Hf He].
  split; [now apply Hfiles|]. rewrite Hvs. apply in_or_app. now left.
Qed.

(** A build in which the provider fails for the architect while writes
    and the vector store work, with what it leaves on disk and in the
    vector store. *)
Lemma build_project_without_architect_stored
      (requirements : string) (context : value) (detailed : bool) (w : world) :
  writes_succeed E -> store_accepts E -> architect_calls_raise E ->
  succeeds (Orchestrator.build_project E requirements context detailed) w
           (fun build_result w' =>
              exists t t' a1 a3 a4 a5 a6 result,
                build_result
                = built E requirements context t t' a1
                        (VDict [("result", result);
                                ("files", VList [VStr (architecture_file E)]);
                                ("status", VStr "completed")])
                        a3 a4 a5 a6
                /\ degraded_architecture result
                /\ completed_stage a3 /\ completed_stage a6
                /\ In (architecture_file E) (Dict.keys (files w'))
                /\ In (degraded_architecture_entry E) (vector_store w')).
Proof.
  intros Hfs Hstore Harch. unfold Orchestrator.build_project.
  apply succeeds_bind, succeeds_datetime_now. intros t w0. cbv beta.
  apply succeeds_bind.
  apply (succeeds_weaken _ _ _ _ (run_analysis_shape _ _ _)). intros a1 w1 H1.
  pose proof (stage_shape_dict _ H1) as Hd1.
  apply succeeds_bind.
  destruct (run_architecture_degraded_stored a1 w1 Hfs Hstore Harch Hd1)
    as (result & w2 & Hrun2 & Hdegraded & Hfile & Hvs).
  exists (VDict [("result", result);
                 ("files", VList [VStr (architecture_file E)]);
                 ("status", VStr "completed")]), w2.
  split; [exact Hrun2|].
  assert (H2 : stage_shape
                 (VDict [("result", result);
                         ("files", VList [VStr (architecture_file E)]);
                         ("status", VStr "completed")])).
  { destruct Hdegraded as (e & analysis & ->). shape. }
  pose proof (stage_shape_dict _ H2) as Hd2.
  assert (Hstored2 : In (architecture_file E) (Dict.keys (files w2))
                     /\ In (degraded_architecture_entry E) (vector_store w2)).
  { split; [exact (get_in_keys _ _ _ Hfile)|].
    rewrite Hvs. apply in_or_app. right. now left. }
  apply succeeds_bind.
  apply (succeeds_weaken _ _ _ _
           (succeeds_grows _ _ _
              (adds_run_feature_planning E a1 _ detailed)
              (run_feature_planning_completed a1 _ detailed w2 Hfs Hstore Hd1 Hd2))).
  intros a3 w3 [[Hc3 H3] Hg3].
  pose proof (stored_grows _ _ _ _ Hg3 Hstored2) as Hstored3.
  apply succeeds_bind.
  apply (succeeds_weaken _ _ _ _
           (succeeds_grows _ _ _
              (adds_run_document_generation E a1 _ a3)
              (run_document_generation_shape a1 _ a3 w3))).
  intros a4 w4 [H4 Hg4].
  pose proof (stored_grows _ _ _ _ Hg4 Hstored3) as Hstored4.
  apply succeeds_bind.
  apply (succeeds_weaken _ _ _ _
           (succeeds_grows _ _ _ (adds_run_validation E)
                           (run_validation_shape w4))).
  intros a5 w5 [H5 Hg5].
  pose proof (stored_grows _ _ _ _ Hg5 Hstored4) as Hstored5.
  apply succeeds_bind.
  apply (succeeds_weaken _ _ _ _
           (succeeds_grows _ _ _
              (adds_generate_final_report E _)
              (generate_final_report_completed t requirements (version E)
                 (Py.or_empty_dict context) a1 _ a3 a4 a5 w5 Hfs H1 H2 H3 H4 H5))).
  intros a6 w6 [[Hc6 H6] Hg6].
  pose proof (stored_grows _ _ _ _ Hg6 Hstored5) as Hstored6.
  apply succeeds_bind.
  apply (succeeds_weaken _ _ _ _
           (succeeds_grows _ _ _ (adds_datetime_now E)
              (succeeds_datetime_now w6 (fun v _ => exists t', v = VTime t')
                 (fun t' _ => ex_intro _ t' eq_refl)))).
  intros end_time w7 [[t' ->] Hg7].
  pose proof (stored_grows _ _ _ _ Hg7 Hstored6) as Hstored7.
  cbv beta. apply succeeds_bind.
  apply (succeeds_weaken _ _ _ _
           (succeeds_grows _ _ _ (adds_log_history E _ _ _ _)
              (succeeds_log_history _ _ _ _ w7 (fun _ _ => True) (fun _ => I)))).
  intros _ w8 [_ Hg8].
  destruct (stored_grows _ _ _ _ Hg8 Hstored7) as [Hfile8 Hentry8].
  apply succeeds_ret.
  exists t, t', a1, a3, a4, a5, a6, result. auto 8.
Qed.

Lemma stage_status_built (requirements : string) (context : value) (t t' : Z)
      (a1 a2 a3 a4 a5 a6 : value) (stage : string) (v s : value) :
  Dict.get stage
           [("analysis", a1); ("architecture", a2); ("features", a3);
            ("documents", a4); ("validation", a5); ("final", a6)] = Some v ->
  Py.index v "status" = Ok s ->
  stage_status (built E requirements context t t' a1 a2 a3 a4 a5 a6) stage = Some s.
Proof.
  intros Hget Hs. unfold stage_status, built.
  cbn [Py.index Dict.get String.eqb Ascii.eqb Bool.eqb] in *.
  now rewrite Hget, Hs.
Qed.

Lemma completed_stage_status (v : value) :
  completed_stage v -> Py.index v "status" = Ok (VStr "completed").
Proof. intros (d & -> & Hs). cbn [Py.index]. now rewrite Hs. Qed.

Lemma stage_recorded_built (requirements : string) (context : value) (t t' : Z)
      (a1 a2 a3 a4 a5 a6 : value) (stage : string) (v : value) :
  Dict.get stage
           [("analysis", a1); ("architecture", a2); ("features", a3);
            ("documents", a4); ("validation", a5); ("final", a6)] = Some v ->
  stage_shape v ->
  stage_recorded (built E requirements context t t' a1 a2 a3 a4 a5 a6) stage.
Proof.
  intros Hget (d & -> & (s & Hs & Hcases) & _). exists s. split; [|exact Hcases].
  apply stage_status_built with (v := VDict d); [exact Hget|].
  cbn [Py.index]. now rewrite Hs.
Qed.


End PipelineFacts.



(** In that build the file of the degraded artifact is on disk at the end,
    with the rendering of the empty architecture, and the vector store
    holds the entry that indexes it. *)
Example degraded_architecture_is_stored :
  Dict.get "./output/v1/state_2_architecture/system_architecture.md"
           (files (snd blog_build_without_architect))
  = Some degraded_architecture_text
  /\ existsb (fun entry => String.eqb (fst entry) EmptyString)
             (vector_store (snd blog_build_without_architect)) = true.
Proof. vm_compute. split; reflexivity. Qed.

(** ** More on strings: reversal, stripping, splitting and joining *)

Section StripFacts.

Lemma append_nil_r (s : string) : s ++ EmptyString = s.
Proof. induction s as [|c s IH]; simpl; [reflexivity|now rewrite IH]. Qed.

Lemma append_assoc (a b c : string) : (a ++ b) ++ c = a ++ (b ++ c).
Proof. induction a as [|x a IH]; simpl; [reflexivity|now rewrite IH]. Qed.

Lemma rev_str_app (acc s : string) :
  rev_str acc s = rev_str EmptyString s ++ acc.
Proof.
  revert acc. induction s as [|c s IH]; intros acc; cbn [rev_str]; [reflexivity|].
  rewrite (IH (String c acc)), (IH (String c EmptyString)), append_assoc.
  reflexivity.
Qed.

Lemma rev_str_snoc (s : string) (c : ascii) :
  rev_str EmptyString (s ++ String c EmptyString)
  = String c (rev_str EmptyString s).
Proof.
  generalize EmptyString at 1 3 as acc.
  induction s as [|d s IH]; intros acc; cbn [rev_str append]; [reflexivity|].
  apply IH.
Qed.

Lemma drop_while_snoc (p : ascii -> bool) (s : string) (c : ascii) :
  drop_while p (s ++ String c EmptyString)
  = match drop_while p s with
    | EmptyString => if p c then EmptyString else String c EmptyString
    | r => r ++ String c EmptyString
    end.
Proof.
  induction s as [|d s IH]; cbn [append drop_while]; [reflexivity|].
  destruct (p d); [exact IH|reflexivity].
Qed.

(** Stripping at the end, read from the front of the string. *)
Lemma drop_while_end_cons (p : ascii -> bool) (c : ascii) (s : string) :
  drop_while_end p (String c s)
  = match drop_while_end p s with
    | EmptyString => if p c then EmptyString else String c EmptyString
    | r => String c r
    end.
Proof.
  unfold drop_while_end. cbn [rev_str].
  rewrite (rev_str_app (String c EmptyString) s), drop_while_snoc.
  destruct (drop_while p (rev_str EmptyString s)) as [|d r].
  - cbn [rev_str]. now destruct (p c).
  - rewrite rev_str_snoc.
    destruct (rev_str EmptyString (String d r)) eqn:Hrev; [|reflexivity].
    cbn [rev_str] in Hrev. rewrite (rev_str_app (String d EmptyString) r) in Hrev.
    destruct (rev_str EmptyString r); discriminate Hrev.
Qed.

Lemma drop_while_end_nil (p : ascii -> bool) :
  drop_while_end p EmptyString = EmptyString.
Proof. reflexivity. Qed.

Lemma drop_while_all (p : ascii -> bool) (s : string) :
  all_chars p s = true -> drop_while p s = EmptyString.
Proof.
  induction s as [|c s IH]; cbn [all_chars drop_while]; [reflexivity|].
  intros H. apply andb_true_iff in H as [-> Hs]. now apply IH.
Qed.

Lemma drop_while_end_all (p : ascii -> bool) (s : string) :
  all_chars p s = true -> drop_while_end p s = EmptyString.
Proof.
  induction s as [|c s IH]; [reflexivity|]. cbn [all_chars]. intros H.
  apply andb_true_iff in H as [Hc Hs].
  now rewrite drop_while_end_cons, (IH Hs), Hc.
Qed.

Lemma drop_while_empty_all (p : ascii -> bool) (s : string) :
  drop_while p s = EmptyString -> all_chars p s = true.
Proof.
  induction s as [|c s IH]; cbn [all_chars drop_while]; [reflexivity|].
  destruct (p c); [exact IH|discriminate].
Qed.

Lemma drop_while_end_empty_all (p : ascii -> bool) (s : string) :
  drop_while_end p s = EmptyString -> all_chars p s = true.
Proof.
  induction s as [|c s IH]; [reflexivity|]. rewrite drop_while_end_cons.
  cbn [all_chars]. destruct (drop_while_end p s); [|discriminate].
  destruct (p c); [intros _; now apply IH|discriminate].
Qed.

Lemma drop_while_idempotent (p : ascii -> bool) (s : string) :
  drop_while p (drop_while p s) = drop_while p s.
Proof.
  induction s as [|c s IH]; cbn [drop_while]; [reflexivity|].
  destruct (p c) eqn:Hc; [exact IH|]. cbn [drop_while]. now rewrite Hc.
Qed.

(** A text is blank exactly when all its characters are white space. *)
Lemma strip_empty_iff (s : string) :
  strip s = EmptyString <-> all_chars isspace s = true.
Proof.
  unfold strip. split.
  - intros H. apply drop_while_end_empty_all, drop_while_all in H.
    rewrite drop_while_idempotent in H. now apply drop_while_empty_all.
  - intros H. now rewrite (drop_while_all _ _ H).
Qed.

Lemma drop_while_end_idempotent (p : ascii -> bool) (s : string) :
  drop_while_end p (drop_while_end p s) = drop_while_end p s.
Proof.
  induction s as [|c s IH]; [reflexivity|]. rewrite drop_while_end_cons.
  destruct (drop_while_end p s) as [|d r] eqn:Hr.
  - destruct (p c) eqn:Hc; [reflexivity|].
    now rewrite drop_while_end_cons, drop_while_end_nil, Hc.
  - now rewrite drop_while_end_cons, IH.
Qed.

(** Stripping at the end does not touch a first character that stays. *)
Lemma drop_while_drop_while_end (p : ascii -> bool) (s : string) :
  drop_while p (drop_while_end p (drop_while p s))
  = drop_while_end p (drop_while p s).
Proof.
  destruct (drop_while p s) as [|c t] eqn:Hs; [reflexivity|].
  assert (Hc : p c = false).
  { clear - Hs. induction s as [|d s IH]; cbn [drop_while] in Hs; [discriminate|].
    destruct (p d) eqn:Hd; [now apply IH|]. now inversion Hs; subst. }
  rewrite drop_while_end_cons.
  destruct (drop_while_end p t); rewrite ?Hc; cbn [drop_while]; now rewrite Hc.
Qed.

Lemma strip_idempotent (s : string) : strip (strip s) = strip s.
Proof.
  unfold strip.
  now rewrite drop_while_drop_while_end, drop_while_end_idempotent.
Qed.

Lemma strip_chars_idempotent (chars s : string) :
  strip_chars chars (strip_chars chars s) = strip_chars chars s.
Proof.
  unfold strip_chars, lstrip_chars.
  now rewrite drop_while_drop_while_end, drop_while_end_idempotent.
Qed.

End StripFacts.

(** ** What the extractors keep *)

Section ExtractorInvariants.

Lemma item_text_stripped (line : string) : stripped (Items.item_text line).
Proof. unfold stripped, Items.item_text. apply strip_idempotent. Qed.

(** *** Requirements *)

Lemma requirement_step_keeps (keywords : list string) (st : bool * list string)
      (raw : string) :
  Forall (fun r => 10 < String.length r /\ stripped r) (snd st) ->
  Forall (fun r => 10 < String.length r /\ stripped r)
         (snd (DocumentWriter.requirement_step keywords st raw)).
Proof.
  destruct st as [in_section requirements]. cbn [snd]. intros H.
  unfold DocumentWriter.requirement_step.
  destruct (any_in keywords (lower (strip raw))); [exact H|]. cbn [snd].
  destruct (in_section && Items.is_item (strip raw)); [|exact H].
  destruct (truthy (Items.item_text (strip raw))
            && (10 <? String.length (Items.item_text (strip raw)))%nat) eqn:Hlong;
    [|exact H].
  apply andb_true_iff in Hlong as [_ Hlong]. apply Nat.ltb_lt in Hlong.
  apply Forall_app. split; [exact H|]. constructor; [|constructor].
  split; [exact Hlong|apply item_text_stripped].
Qed.

Lemma requirements_loop_keeps (keywords : list string) (lines : list string)
      (st : bool * list string) :
  Forall (fun r => 10 < String.length r /\ stripped r) (snd st) ->
  Forall (fun r => 10 < String.length r /\ stripped r)
         (snd (fold_left (DocumentWriter.requirement_step keywords) lines st)).
Proof.
  revert st. induction lines as [|raw lines IH]; intros st H; cbn [fold_left];
    [exact H|].
  apply IH. now apply requirement_step_keeps.
Qed.

Lemma requirements_loop_closed (keywords : list string) (lines : list string) :
  forallb (fun line => negb (any_in keywords (lower (strip line)))) lines = true ->
  fold_left (DocumentWriter.requirement_step keywords) lines (false, [])
  = (false, []).
Proof.
  induction lines as [|raw lines IH]; cbn [fold_left forallb]; [reflexivity|].
  intros H. apply andb_true_iff in H as [Hraw Hrest].
  apply negb_true_iff in Hraw.
  unfold DocumentWriter.requirement_step at 2. rewrite Hraw. cbn [andb].
  rewrite andb_false_r. now apply IH.
Qed.

(** X1.  Every requirement that [_extract_requirements] or
    [_extract_technical_requirements] returns is stripped text of more than
    10 characters; and a text none of whose lines mentions a keyword of the
    extractor yields no requirement at all, however many bulleted lines it
    has: the in-section state is never opened. *)
Theorem extracted_requirements_are_long (content : string) :
  Forall (fun r => 10 < String.length r /\ stripped r)
         (DocumentWriter._extract_requirements content)
  /\ Forall (fun r => 10 < String.length r /\ stripped r)
            (DocumentWriter._extract_technical_requirements content)
  /\ (no_keyword_line DocumentWriter.requirement_keywords content = true ->
      DocumentWriter._extract_requirements content = [])
  /\ (no_keyword_line DocumentWriter.technical_keywords content = true ->
      DocumentWriter._extract_technical_requirements content = []).
Proof.
  unfold DocumentWriter._extract_requirements,
    DocumentWriter._extract_technical_requirements,
    DocumentWriter.requirements_loop, no_keyword_line.
  repeat split.
  - apply requirements_loop_keeps. constructor.
  - apply requirements_loop_keeps. constructor.
  - intros H. now rewrite (requirements_loop_closed _ _ H).
  - intros H. now rewrite (requirements_loop_closed _ _ H).
Qed.

Lemma extracted_requirements_witness :
  DocumentWriter._extract_requirements
    ("# Goals" ++ nl ++ "- Readers can comment on every post")
  = [].
Proof.
  exact (proj1 (proj2 (proj2 (extracted_requirements_are_long
                                ("# Goals" ++ nl
                                 ++ "- Readers can comment on every post"))))
               eq_refl).
Defined.

(** *** Feature categories *)

Lemma get_default_forall {V : Type} (Q : V -> Prop) (k : string) (default : V)
      (d : list (string * V)) :
  Forall (fun kv => Q (snd kv)) d -> Q default -> Q (Dict.get_default k default d).
Proof.
  intros Hd Hdef. unfold Dict.get_default.
  induction Hd as [|[k' v] d Hv Hd IH]; cbn [Dict.get]; [exact Hdef|].
  destruct (String.eqb k k'); [exact Hv|exact IH].
Qed.

Lemma category_of_known (line_lower : string) (current : option string) :
  known_category current ->
  known_category (FeaturePlanner.category_of line_lower current).
Proof.
  intros H. unfold FeaturePlanner.category_of.
  repeat match goal with
         | |- context [if ?b then _ else _] => destruct b
         end; cbn; auto.
Qed.

Lemma category_step_keeps (st : list (string * list string) * option string)
      (raw : string) :
  good_categories (fst st) /\ known_category (snd st) ->
  good_categories (fst (FeaturePlanner.category_step st raw))
  /\ known_category (snd (FeaturePlanner.category_step st raw)).
Proof.
  destruct st as [categories current]. cbn [fst snd]. intros [[Hkeys Hgood] Hcur].
  unfold FeaturePlanner.category_step.
  pose proof (category_of_known (lower (strip raw)) current Hcur) as Hknown.
  destruct (FeaturePlanner.category_of (lower (strip raw)) current) as [cat|];
    [|now repeat split].
  destruct (Items.is_item (strip raw)); [|now repeat split].
  destruct (truthy (Items.item_text (strip raw))
            && (String.length (Items.item_text (strip raw)) <? 100)%nat)
    eqn:Hfeature; [|now repeat split].
  apply andb_true_iff in Hfeature as [Htruthy Hshort].
  apply Nat.ltb_lt in Hshort. cbn [fst snd]. split; [|exact Hknown].
  split.
  - rewrite keys_set_old; [exact Hkeys|]. rewrite Hkeys. exact Hknown.
  - apply forall_set; [exact Hgood|]. cbn [snd]. apply Forall_app. split.
    + apply (get_default_forall (Forall good_feature)); [exact Hgood|constructor].
    + constructor; [|constructor]. repeat split.
      * intros Hempty. now rewrite Hempty in Htruthy.
      * exact Hshort.
      * apply item_text_stripped.
Qed.

Lemma category_loop_keeps (lines : list string)
      (st : list (string * list string) * option string) :
  good_categories (fst st) /\ known_category (snd st) ->
  good_categories (fst (fold_left FeaturePlanner.category_step lines st)).
Proof.
  revert st. induction lines as [|raw lines IH]; intros st H; cbn [fold_left];
    [exact (proj1 H)|].
  apply IH. now apply category_step_keeps.
Qed.

Lemma category_loop_closed (lines : list string)
      (categories : list (string * list string)) :
  forallb (fun line => negb (any_in category_keywords (lower (strip line)))) lines
  = true ->
  fold_left FeaturePlanner.category_step lines (categories, None)
  = (categories, None).
Proof.
  induction lines as [|raw lines IH]; cbn [fold_left forallb]; [reflexivity|].
  intros H. apply andb_true_iff in H as [Hraw Hrest].
  apply negb_true_iff in Hraw.
  unfold any_in, category_keywords in Hraw. cbn [existsb] in Hraw.
  repeat (apply orb_false_elim in Hraw; destruct Hraw as [? Hraw]).
  unfold FeaturePlanner.category_step at 2, FeaturePlanner.category_of, any_in.
  cbn [existsb].
  repeat match goal with
         | H : contains _ _ = false |- _ => rewrite H; clear H
         end.
  cbn [orb]. now apply IH.
Qed.

(** X2.  [_extract_feature_categories] always returns the three keys core,
    enhanced and optional, in this order, and every feature it lists is
    non-empty stripped text of fewer than 100 characters; a text none of
    whose lines mentions a category keyword yields three empty lists,
    whatever bulleted lines it has. *)
Theorem feature_categories_are_well_formed (content : string) :
  good_categories (FeaturePlanner._extract_feature_categories content)
  /\ (no_keyword_line category_keywords content = true ->
      FeaturePlanner._extract_feature_categories content
      = [("core", []); ("enhanced", []); ("optional", [])]).
Proof.
  unfold FeaturePlanner._extract_feature_categories, no_keyword_line. split.
  - apply category_loop_keeps. cbn [fst snd]. split; [|exact I].
    split; [reflexivity|]. repeat constructor.
  - intros H. now rewrite (category_loop_closed _ _ H).
Qed.

Lemma feature_categories_witness :
  FeaturePlanner._extract_feature_categories
    ("# Plan" ++ nl ++ "- Login" ++ nl ++ "- Posts")
  = [("core", []); ("enhanced", []); ("optional", [])].
Proof.
  exact (proj2 (feature_categories_are_well_formed
                  ("# Plan" ++ nl ++ "- Login" ++ nl ++ "- Posts")) eq_refl).
Defined.

(** *** Components and technology stack *)

Lemma dedup_spec (l seen : list string) :
  NoDup (Architect.dedup seen l)
  /\ (forall x, In x (Architect.dedup seen l) <-> In x l /\ ~ In x seen).
Proof.
  revert seen. induction l as [|y l IH]; intros seen; cbn [Architect.dedup].
  - split; [constructor|]. cbn. tauto.
  - destruct (existsb (String.eqb y) seen) eqn:Hseen.
    + destruct (IH seen) as [Hnd Hin]. split; [exact Hnd|].
      intros x. rewrite Hin. cbn [In]. split; [tauto|].
      intros [[<-|Hx] Hnot]; [|tauto]. exfalso. apply Hnot.
      apply existsb_exists in Hseen as (z & Hz & Heq).
      apply String.eqb_eq in Heq. now subst.
    + destruct (IH (y :: seen)) as [Hnd Hin]. split.
      * constructor; [|exact Hnd]. rewrite Hin. cbn [In]. tauto.
      * intros x. cbn [In]. rewrite Hin. cbn [In].
        assert (Hy : ~ In y seen).
        { intros Hy. apply not_true_iff_false in Hseen. apply Hseen.
          apply existsb_exists. exists y. split; [exact Hy|apply String.eqb_refl]. }
        destruct (string_dec y x) as [->|Hne]; [tauto|]. tauto.
Qed.

Lemma component_of_good (raw component : string) :
  In component (Architect.component_of raw) ->
  component <> EmptyString /\ String.length component < 50 /\ stripped component
  /\ startswith "#" (strip raw) = false
  /\ any_in ["component"; "service"; "module"; "layer"] (lower (strip raw)) = true
  /\ component = strip (hd EmptyString (split_on ":" (strip raw))).
Proof.
  unfold Architect.component_of.
  destruct (any_in ["component"; "service"; "module"; "layer"] (lower (strip raw))
            && truthy (strip raw) && negb (startswith "#" (strip raw))) eqn:Hline;
    [|contradiction].
  apply andb_true_iff in Hline as [Hkeyword Hheading].
  apply andb_true_iff in Hkeyword as [Hkeyword _].
  apply negb_true_iff in Hheading.
  destruct (truthy (strip (hd EmptyString (split_on ":" (strip raw))))
            && (String.length (strip (hd EmptyString (split_on ":" (strip raw))))
                <? 50)%nat) eqn:Hgood; [|contradiction].
  intros [<-|[]]. apply andb_true_iff in Hgood as [Htruthy Hshort].
  apply Nat.ltb_lt in Hshort. repeat split; try assumption.
  - intros Hempty. now rewrite Hempty in Htruthy.
  - apply strip_idempotent.
Qed.

(** X3.  [_extract_components] lists no component twice, and each component
    is non-empty stripped text of fewer than 50 characters: the stripped
    text before the first colon of a line that is not a heading and that
    mentions component, service, module or layer. *)
Theorem components_are_distinct_and_short (content : string) :
  NoDup (Architect._extract_components content)
  /\ Forall (fun component =>
               component <> EmptyString /\ String.length component < 50
               /\ stripped component
               /\ exists line,
                   In line (split_lines content)
                   /\ Sections.is_heading line = false
                   /\ any_in ["component"; "service"; "module"; "layer"]
                             (lower (strip line)) = true
                   /\ component
                      = strip (hd EmptyString (split_on ":" (strip line))))
            (Architect._extract_components content).
Proof.
  unfold Architect._extract_components.
  destruct (dedup_spec (flat_map Architect.component_of (split_lines content)) [])
    as [Hnd Hin].
  split; [exact Hnd|]. apply Forall_forall. intros component Hc.
  apply Hin in Hc as [Hc _]. apply in_flat_map in Hc as (line & Hline & Hc).
  destruct (component_of_good _ _ Hc) as (H1 & H2 & H3 & H4 & H5 & H6).
  repeat split; try assumption. now exists line.
Qed.

End ExtractorInvariants.

(** ** Substrings *)

Section SubstringFacts.

Lemma prefix_append (a t : string) : prefix a (a ++ t) = true.
Proof.
  induction a as [|c a IH]; [now destruct t|].
  cbn [append]. rewrite prefix_cons.
  destruct (Ascii.ascii_dec c c); [exact IH|contradiction].
Qed.

Lemma prefix_inv (a s : string) :
  prefix a s = true -> exists t, s = a ++ t.
Proof.
  revert s. induction a as [|c a IH]; intros s H; [now exists s|].
  destruct s as [|d s]; [discriminate H|]. rewrite prefix_cons in H.
  destruct (Ascii.ascii_dec c d) as [->|]; [|discriminate H].
  destruct (IH _ H) as [t ->]. now exists t.
Qed.

Lemma contains_cons (a : string) (c : ascii) (s : string) :
  contains a (String c s) = prefix a (String c s) || contains a s.
Proof. reflexivity. Qed.

Lemma contains_inv (a s : string) :
  contains a s = true -> exists before after, s = before ++ a ++ after.
Proof.
  induction s as [|c s IH]; intros H.
  - change (contains a EmptyString) with (prefix a EmptyString || false) in H.
    rewrite orb_false_r in H. destruct (prefix_inv _ _ H) as [t Ht].
    now exists EmptyString, t.
  - rewrite contains_cons in H. apply orb_true_iff in H as [H|H].
    + destruct (prefix_inv _ _ H) as [t Ht]. now exists EmptyString, t.
    + destruct (IH H) as (before & after & ->).
      now exists (String c before), after.
Qed.

Lemma contains_intro (before a after : string) :
  contains a (before ++ a ++ after) = true.
Proof.
  induction before as [|c before IH]; cbn [append].
  - destruct (a ++ after) eqn:Heq.
    + destruct a; [reflexivity|discriminate Heq].
    + rewrite contains_cons, <- Heq, prefix_append. reflexivity.
  - rewrite contains_cons, IH. apply orb_true_r.
Qed.

(** A substring of a substring is a substring. *)
Lemma contains_trans (a b s : string) :
  contains a b = true -> contains b s = true -> contains a s = true.
Proof.
  intros Hab Hbs. destruct (contains_inv _ _ Hab) as (p1 & q1 & ->).
  destruct (contains_inv _ _ Hbs) as (p2 & q2 & ->).
  replace (p2 ++ (p1 ++ a ++ q1) ++ q2) with ((p2 ++ p1) ++ a ++ (q1 ++ q2))
    by now rewrite !append_assoc.
  apply contains_intro.
Qed.

End SubstringFacts.

(** ** Technology stack, improvements and file names *)

Section MorePureFacts.

(** X4.  [_extract_technology_stack] returns its five categories in a fixed
    order; a technology is listed only if its name occurs in the lower-cased
    text and is listed once; and names are searched as substrings, so a text
    that mentions javascript is also given java as a backend technology,
    and one that mentions react native is also given react as a frontend
    technology. *)
Theorem technology_stack_is_substring_search (content : string) :
  Dict.keys (Architect._extract_technology_stack content)
  = ["backend"; "frontend"; "mobile"; "database"; "infrastructure"]
  /\ Forall (fun kv =>
               NoDup (snd kv)
               /\ Forall (fun tech => contains tech (lower content) = true)
                         (snd kv))
            (Architect._extract_technology_stack content)
  /\ (contains "javascript" (lower content) = true ->
      In "java" (Dict.get_default "backend" []
                   (Architect._extract_technology_stack content))
      /\ In "javascript" (Dict.get_default "frontend" []
                            (Architect._extract_technology_stack content)))
  /\ (contains "react native" (lower content) = true ->
      In "react" (Dict.get_default "frontend" []
                    (Architect._extract_technology_stack content))
      /\ In "react native" (Dict.get_default "mobile" []
                              (Architect._extract_technology_stack content))).
Proof.
  split; [reflexivity|]. split.
  - unfold Architect._extract_technology_stack, Architect.techs_in.
    repeat constructor; cbn [snd];
      try (apply NoDup_filter; repeat constructor; cbn [In];
           intuition discriminate);
      apply Forall_forall; intros tech Hin; now apply filter_In in Hin.
  - unfold Architect._extract_technology_stack, Architect.techs_in.
    cbn [Dict.get_default Dict.get String.eqb Ascii.eqb Bool.eqb].
    split; intros H; split; apply filter_In; split; cbn [In]; auto 10;
      (eapply contains_trans; [|exact H]); reflexivity.
Qed.

Lemma technology_stack_witness :
  In "java" (Dict.get_default "backend" []
               (Architect._extract_technology_stack
                  "The frontend is written in JavaScript."))
  /\ In "javascript" (Dict.get_default "frontend" []
                        (Architect._extract_technology_stack
                           "The frontend is written in JavaScript.")).
Proof.
  exact (proj1 (proj2 (proj2 (technology_stack_is_substring_search
                                "The frontend is written in JavaScript.")))
               eq_refl).
Defined.

(** X5.  [_identify_improvements] reports at most four improvements, and
    none when the refined text equals the original: a refinement that
    changes nothing, as the one recorded after a provider failure, lists no
    improvement. *)
Theorem unchanged_text_has_no_improvements (original refined : string) :
  List.length (Refiner._identify_improvements original refined) <= 4
  /\ Refiner._identify_improvements original original = [].
Proof.
  unfold Refiner._identify_improvements. cbv zeta. split.
  - repeat match goal with
           | |- context [if ?b then _ else _] => destruct b
           end; cbn [List.length app]; lia.
  - rewrite !Nat.ltb_irrefl, andb_negb_r. reflexivity.
Qed.

Lemma all_chars_map_str_if (p q : ascii -> bool) (f : ascii -> ascii) (s : string) :
  (forall c, q c = true -> p (f c) = true) ->
  all_chars q s = true -> all_chars p (map_str f s) = true.
Proof.
  intros Hf. induction s as [|c s IH]; cbn [all_chars map_str]; [reflexivity|].
  intros H. apply andb_true_iff in H as [Hc Hs]. now rewrite (Hf c Hc), IH.
Qed.

Lemma not_alnum_becomes_underscore (c : ascii) :
  negb (isalnum c) = true ->
  mem_char (FeaturePlanner.safe_char (lower_char c)) "_" = true.
Proof.
  destruct c as [b0 b1 b2 b3 b4 b5 b6 b7];
    destruct b0, b1, b2, b3, b4, b5, b6, b7; vm_compute; intros H;
    solve [reflexivity | discriminate H].
Qed.

(** X6.  A feature without any alphanumeric character has the empty file
    name stem: every character becomes an underscore and all of them are
    stripped, so its specification is written to the file [.md]. *)
Theorem punctuation_feature_has_empty_name (feature : string) :
  all_chars (fun c => negb (isalnum c)) feature = true ->
  FeaturePlanner.safe_name feature = EmptyString.
Proof.
  intros H. unfold FeaturePlanner.safe_name, strip_chars, lstrip_chars, lower.
  rewrite map_str_map_str. rewrite drop_while_all; [reflexivity|].
  exact (all_chars_map_str_if _ _ _ _ not_alnum_becomes_underscore H).
Qed.

Lemma punctuation_feature_witness :
  FeaturePlanner.safe_name "?!... (--)" = EmptyString.
Proof. exact (punctuation_feature_has_empty_name "?!... (--)" eq_refl). Defined.

End MorePureFacts.

(** ** More on the validator *)

Section MoreValidatorFacts.
Import Validator.
Variable E : env.

Lemma split_on_all_chars (p : ascii -> bool) (sep : ascii) (s : string) :
  all_chars p s = true ->
  Forall (fun line => all_chars p line = true) (split_on sep s).
Proof.
  induction s as [|c s IH]; cbn [all_chars split_on]; [repeat constructor|].
  intros H. apply andb_true_iff in H as [Hc Hs]. specialize (IH Hs).
  destruct (Ascii.eqb c sep); [constructor; [reflexivity|exact IH]|].
  destruct (split_on sep s) as [|h t]; [repeat constructor; cbn; now rewrite Hc|].
  inversion IH; subst. constructor; [cbn [all_chars]; now rewrite Hc|assumption].
Qed.

Lemma blank_has_no_header (content : string) :
  all_chars isspace content = true ->
  header_levels (split_lines content) = [].
Proof.
  intros H. unfold header_levels, split_lines.
  pose proof (split_on_all_chars isspace newline content H) as Hlines.
  induction Hlines as [|line lines Hline _ IH]; [reflexivity|].
  cbn [filter]. apply strip_empty_iff in Hline. rewrite Hline. exact IH.
Qed.

Lemma is_in_brd_srs_known (doc_type : string) :
  is_in doc_type ["brd"; "srs"] = true ->
  is_in doc_type ["markdown"; "brd"; "srs"] = true
  /\ exists required, required_sections doc_type = Some required.
Proof.
  unfold is_in, required_sections. cbn [existsb].
  destruct (String.eqb doc_type "markdown"); [eauto|].
  destruct (String.eqb doc_type "brd"); [eauto|].
  destruct (String.eqb doc_type "srs"); [eauto|discriminate].
Qed.

(** X7.  A blank document (empty, or white space only) gets the error
    "Document is empty" first and no warning.  As markdown, BRD or SRS it
    also lacks a header and is never valid; validated as any other document
    type it keeps that single error, scores 80 and is reported valid. *)
Theorem blank_document_validity (content doc_type : string) :
  strip content = EmptyString ->
  hd_error (errors (validate_document content doc_type))
  = Some "Document is empty"
  /\ warnings (validate_document content doc_type) = []
  /\ valid (validate_document content doc_type) = negb (known_doc_type doc_type)
  /\ (known_doc_type doc_type = false ->
      score (validate_document content doc_type) = 80%Z).
Proof.
  intros Hblank. pose proof (proj1 (strip_empty_iff content) Hblank) as Hall.
  unfold validate_document, known_doc_type, _check_basic_format,
    _check_markdown_structure. cbv zeta.
  rewrite Hblank, (blank_has_no_header _ Hall). cbn [truthy negb level_skipped].
  destruct (is_in doc_type ["brd"; "srs"]) eqn:Hdoc.
  - destruct (is_in_brd_srs_known _ Hdoc) as [-> [required Hreq]].
    unfold _check_document_sections. rewrite Hreq.
    unfold _calculate_score, add_errors, add_error. cbn [errors warnings valid score].
    repeat split; try discriminate.
    cbn [List.length app negb]. apply Z.leb_gt. lia.
  - destruct (is_in doc_type ["markdown"; "brd"; "srs"]); repeat split;
      try discriminate.
Qed.

Lemma blank_document_witness :
  valid (validate_document ("  " ++ nl ++ " ") "notes") = true
  /\ score (validate_document ("  " ++ nl ++ " ") "notes") = 80%Z.
Proof.
  destruct (blank_document_validity ("  " ++ nl ++ " ") "notes" eq_refl)
    as (_ & _ & Hvalid & Hscore).
  split; [exact Hvalid|exact (Hscore eq_refl)].
Defined.

Lemma validate_file_spec (path : string) (w : world) :
  exists result,
    validate_file E path (doc_type_of path) w = (Ok result, w)
    /\ valid_of result = file_valid E w path
    /\ score_of result = file_score E w path.
Proof.
  unfold validate_file, file_valid, file_score.
  destruct (read_text E w path) as [content|e]; eexists;
    (split; [reflexivity|]); split; reflexivity.
Qed.

Lemma validate_loop_spec (l : list string) (w : world) :
  forall (results : list (string * value)) (total : Z) (count : nat),
  exists results',
    fold_m l (validate_step E) (results, total, count) w
    = (Ok (results',
           fold_left Z.add (map (file_score E w) l) total,
           count + List.length (filter (file_valid E w) l)), w).
Proof.
  induction l as [|path l IH]; intros results total count; cbn [fold_m].
  - exists results. unfold ret. cbn [map fold_left filter List.length].
    now rewrite Nat.add_0_r.
  - destruct (validate_file_spec path w) as (result & Hfile & Hvalid & Hscore).
    unfold validate_step at 1. unfold bind at 1. unfold bind at 1.
    rewrite Hfile. unfold ret at 1. rewrite Hvalid, Hscore.
    cbn [map fold_left filter].
    destruct (file_valid E w path);
      [destruct (IH (Dict.set path result results)
                    (total + file_score E w path)%Z (S count)) as [results' ->]
      |destruct (IH (Dict.set path result results)
                    (total + file_score E w path)%Z count) as [results' ->]];
      exists results'; cbn [List.length]; rewrite ?Nat.add_succ_r; reflexivity.
Qed.

Lemma count_all (f : string -> bool) (l : list string) :
  (List.length (filter f l) =? List.length l)%nat = forallb f l.
Proof.
  assert (Hle : forall l, List.length (filter f l) <= List.length l).
  { intros l0. induction l0 as [|x l0 IH]; cbn [filter List.length]; [lia|].
    destruct (f x); cbn [List.length]; lia. }
  induction l as [|x l IH]; cbn [filter forallb List.length]; [reflexivity|].
  destruct (f x); cbn [List.length andb].
  - exact IH.
  - apply Nat.eqb_neq. specialize (Hle l). lia.
Qed.

Lemma validate_project_output_spec (output_dir : string) (w : world) :
  exists v,
    validate_project_output E output_dir w = (Ok v, w)
    /\ validation_summary v
       = Some (summary_of E w (os_path_exists E w output_dir)
                          (md_files_under E output_dir w)).
Proof.
  unfold validate_project_output, summary_of, path_exists. unfold bind at 1.
  destruct (os_path_exists E w output_dir); cbn [negb].
  - unfold bind at 1. unfold bind at 1.
    destruct (validate_loop_spec (md_files_under E output_dir w) w [] 0%Z 0)
      as [results ->].
    unfold ret. eexists. split; [reflexivity|].
    unfold validation_summary, project_result.
    cbn [Py.index Dict.get String.eqb Ascii.eqb Bool.eqb].
    rewrite !Nat.add_0_l, count_all. reflexivity.
  - unfold ret. eexists. split; reflexivity.
Qed.


End MoreValidatorFacts.

(** ** Sections: invariants and round trip *)

Section SectionRoundTrip.
Import Sections.

Lemma stripped_drop_while (t : string) :
  stripped t -> drop_while isspace t = t /\ drop_while_end isspace t = t.
Proof.
  unfold stripped, strip. intros H. split.
  - rewrite <- H at 1. rewrite drop_while_drop_while_end. exact H.
  - rewrite <- H at 1. rewrite drop_while_end_idempotent. exact H.
Qed.

Lemma strip_heading_line (t : string) :
  t <> EmptyString -> stripped t -> strip ("# " ++ t) = "# " ++ t.
Proof.
  intros Hne Ht. destruct (stripped_drop_while t Ht) as [_ Hend].
  unfold strip. cbn [append drop_while]. change (isspace "#") with false. cbv iota.
  rewrite !drop_while_end_cons, Hend. destruct t; [contradiction|reflexivity].
Qed.

Lemma title_of_heading_line (t : string) :
  t <> EmptyString -> stripped t ->
  strip (lstrip_chars "#" (strip ("# " ++ t))) = t.
Proof.
  intros Hne Ht. rewrite (strip_heading_line t Hne Ht).
  destruct (stripped_drop_while t Ht) as [Hstart Hend].
  unfold lstrip_chars, strip. cbn [append drop_while mem_char].
  change (Ascii.eqb "#" "#") with true. change (Ascii.eqb " " "#") with false.
  cbn [orb]. cbv iota. cbn [drop_while]. change (isspace " ") with true. cbv iota.
  now rewrite Hstart, Hend.
Qed.

Lemma heading_line_is_heading (t : string) :
  t <> EmptyString -> stripped t -> is_heading ("# " ++ t) = true.
Proof.
  intros Hne Ht. unfold is_heading. now rewrite (strip_heading_line t Hne Ht).
Qed.

Lemma join_cons (x y : string) (l : list string) :
  join nl (x :: y :: l) = x ++ nl ++ join nl (y :: l).
Proof. reflexivity. Qed.

Lemma join_shift (c : ascii) (h : string) (t : list string) :
  join nl (String c h :: t) = String c (join nl (h :: t)).
Proof. destruct t; reflexivity. Qed.

(** Joining the lines of a text gives the text back. *)
Lemma join_split_lines (s : string) : join nl (split_lines s) = s.
Proof.
  unfold split_lines. induction s as [|c s IH]; [reflexivity|].
  cbn [split_on]. destruct (Ascii.eqb_spec c newline) as [->|Hne].
  - destruct (split_on newline s) as [|h t] eqn:Hs;
      [now apply split_on_not_nil in Hs|].
    rewrite join_cons, IH. reflexivity.
  - destruct (split_on newline s) as [|h t] eqn:Hs;
      [now apply split_on_not_nil in Hs|].
    now rewrite join_shift, IH.
Qed.

Lemma split_lines_one_line (s : string) :
  no_newline s = true -> split_lines s = [s].
Proof.
  unfold no_newline, split_lines.
  induction s as [|c s IH]; cbn [all_chars split_on]; [reflexivity|].
  intros H. apply andb_true_iff in H as [Hc Hs]. apply negb_true_iff in Hc.
  now rewrite Hc, (IH Hs).
Qed.

Lemma no_newline_append (a b : string) :
  no_newline a = true -> no_newline b = true -> no_newline (a ++ b) = true.
Proof. apply all_chars_app. Qed.

Lemma split_lines_serialize (kv : string * string) (m : list (string * string)) :
  Forall section_entry (kv :: m) ->
  split_lines (serialize_sections (kv :: m)) = lines_of (kv :: m).
Proof.
  revert kv. induction m as [|kv' m IH]; intros [t b] H;
    inversion H as [|? ? (_ & _ & Hline & _) Hrest]; subst; cbn [fst snd] in *.
  - unfold serialize_sections, lines_of. cbn [map flat_map fst snd join].
    change (join nl ["# " ++ t ++ nl ++ b]) with (("# " ++ t) ++ nl ++ b).
    rewrite split_lines_app, split_lines_one_line, app_nil_r;
      [reflexivity|now apply no_newline_append].
  - unfold serialize_sections. cbn [map]. rewrite join_cons.
    change (map (fun kv0 => "# " ++ fst kv0 ++ nl ++ snd kv0) m)
      with (map (fun kv0 : string * string => "# " ++ fst kv0 ++ nl ++ snd kv0) m).
    cbn [fst snd].
    replace (("# " ++ t ++ nl ++ b) ++ nl
             ++ join nl
                  (("# " ++ fst kv' ++ nl ++ snd kv')
                   :: map (fun kv0 : string * string =>
                             "# " ++ fst kv0 ++ nl ++ snd kv0) m))
      with (("# " ++ t) ++ nl
            ++ (b ++ nl ++ serialize_sections (kv' :: m))).
    + rewrite !split_lines_app, split_lines_one_line, (IH kv' Hrest);
        [reflexivity|now apply no_newline_append].
    + unfold serialize_sections. cbn [map append]. now rewrite !append_assoc.
Qed.

Lemma fold_step_body (lines : list string) (sections : list (string * string))
      (t : string) (body : list string) :
  truthy t = true ->
  forallb (fun line => negb (is_heading line)) lines = true ->
  fold_left step lines (sections, Some t, body)
  = (sections, Some t, (body ++ lines)%list).
Proof.
  intros Ht. revert body.
  induction lines as [|line lines IH]; intros body H; cbn [fold_left forallb] in *.
  - now rewrite app_nil_r.
  - apply andb_true_iff in H as [Hline Hrest]. apply negb_true_iff in Hline.
    unfold step at 2. rewrite Hline. cbn [open_section]. rewrite Ht.
    rewrite (IH _ Hrest), <- app_assoc. reflexivity.
Qed.

Lemma step_heading (st : state) (t : string) :
  t <> EmptyString -> stripped t ->
  step st ("# " ++ t) = (flush st, Some t, []).
Proof.
  intros Hne Ht. destruct st as [[sections current] body]. unfold step.
  now rewrite (heading_line_is_heading t Hne Ht), (title_of_heading_line t Hne Ht).
Qed.

Lemma truthy_nonempty (t : string) : t <> EmptyString -> truthy t = true.
Proof. destruct t; [contradiction|reflexivity]. Qed.

Lemma flush_fold_lines_of (m : list (string * string)) :
  Forall section_entry m ->
  forall st,
    flush (fold_left step (lines_of m) st)
    = fold_left (fun acc kv => Dict.set (fst kv) (snd kv) acc) m (flush st).
Proof.
  induction 1 as [|[t b] m (Hne & Ht & _ & Hb & Hbody) _ IH]; intros st;
    [reflexivity|].
  cbn [fst snd] in *. unfold lines_of. cbn [flat_map fst snd].
  rewrite fold_left_app. cbn [fold_left].
  rewrite (step_heading st t Hne Ht).
  rewrite (fold_step_body _ _ _ _ (truthy_nonempty t Hne) Hbody).
  fold (lines_of m). rewrite IH. cbn [app].
  unfold flush at 1. cbn [open_section]. rewrite (truthy_nonempty t Hne).
  now rewrite join_split_lines, Hb.
Qed.

Lemma set_new {V : Type} (k : string) (v : V) (d : list (string * V)) :
  ~ In k (Dict.keys d) -> Dict.set k v d = (d ++ [(k, v)])%list.
Proof.
  unfold Dict.keys. induction d as [|[k' v'] d IH]; cbn [Dict.set map fst app];
    [reflexivity|].
  intros H. destruct (String.eqb_spec k k') as [->|Hne].
  - exfalso. apply H. now left.
  - f_equal. apply IH. intros Hin. apply H. now right.
Qed.

Lemma fold_set_distinct {V : Type} (m acc : list (string * V)) :
  NoDup (Dict.keys acc ++ Dict.keys m) ->
  fold_left (fun acc kv => Dict.set (fst kv) (snd kv) acc) m acc
  = (acc ++ m)%list.
Proof.
  revert acc. induction m as [|[k v] m IH]; intros acc H; cbn [fold_left fst snd].
  - now rewrite app_nil_r.
  - unfold Dict.keys in H. cbn [map fst] in H.
    assert (Hnew : ~ In k (Dict.keys acc)).
    { apply NoDup_remove_2 in H. intros Hin. apply H, in_or_app. now left. }
    rewrite (set_new _ _ _ Hnew), IH, <- app_assoc; [reflexivity|].
    unfold Dict.keys. rewrite map_app, <- app_assoc. exact H.
Qed.

(** X9.  Round trip.  Take distinct non-empty stripped titles, each on one
    line, with stripped bodies that contain no heading line, and write each
    section as its heading line [# title] followed by its body.  Both
    extractors read exactly this mapping back from the text, in the same
    order. *)
Theorem sections_round_trip (m : list (string * string)) :
  NoDup (Dict.keys m) -> Forall section_entry m ->
  Analyzer._extract_sections (serialize_sections m) = m
  /\ DocumentWriter._extract_document_sections (serialize_sections m) = m.
Proof.
  intros Hkeys Hm.
  assert (H : extract_lines (split_lines (serialize_sections m)) = m).
  { destruct m as [|kv m]; [reflexivity|].
    rewrite (split_lines_serialize kv m Hm). unfold extract_lines.
    rewrite (flush_fold_lines_of _ Hm). cbn [flush open_section].
    now rewrite fold_set_distinct. }
  split; exact H.
Qed.

Lemma sections_round_trip_witness :
  Analyzer._extract_sections
    ("# Goals" ++ nl ++ "Ship the blog." ++ nl ++ "# Risks" ++ nl ++ "- Spam")
  = [("Goals", "Ship the blog."); ("Risks", "- Spam")].
Proof.
  refine (proj1 (sections_round_trip
                   [("Goals", "Ship the blog."); ("Risks", "- Spam")] _ _)).
  - repeat constructor; cbn [In]; intuition discriminate.
  - repeat constructor; cbn [fst snd]; discriminate.
Defined.

(** *** What the extractors return for any text *)

Lemma flush_ok (st : state) :
  sections_ok (fst (fst st)) ->
  (forall t, snd (fst st) = Some t -> stripped t) ->
  sections_ok (flush st).
Proof.
  destruct st as [[sections current] body]. cbn [fst snd]. intros [Hnd Hall] Hcur.
  unfold flush, open_section. destruct current as [t|]; [|now split].
  destruct (truthy t) eqn:Ht; [|now split]. split.
  - now apply nodup_keys_set.
  - apply forall_set; [exact Hall|]. cbn [fst snd]. repeat split.
    + intros Hempty. now rewrite Hempty in Ht.
    + now apply Hcur.
    + apply strip_idempotent.
Qed.

Lemma step_ok (st : state) (line : string) :
  sections_ok (fst (fst st)) ->
  (forall t, snd (fst st) = Some t -> stripped t) ->
  sections_ok (fst (fst (step st line)))
  /\ (forall t, snd (fst (step st line)) = Some t -> stripped t).
Proof.
  intros Hs Hcur. pose proof (flush_ok st Hs Hcur) as Hflush.
  destruct st as [[sections current] body]. unfold step.
  destruct (is_heading line); cbn [fst snd] in *.
  - split; [exact Hflush|]. intros t Ht. inversion Ht; subst.
    apply strip_idempotent.
  - destruct (open_section current); cbn [fst snd]; now split.
Qed.

Lemma extract_lines_ok (lines : list string) : sections_ok (extract_lines lines).
Proof.
  unfold extract_lines.
  assert (H : forall st,
             sections_ok (fst (fst st)) ->
             (forall t, snd (fst st) = Some t -> stripped t) ->
             sections_ok (flush (fold_left step lines st))).
  { induction lines as [|line lines IH]; intros st Hs Hcur; cbn [fold_left].
    - now apply flush_ok.
    - destruct (step_ok st line Hs Hcur) as [Hs' Hcur']. now apply IH. }
  apply H; cbn [fst snd]; [|discriminate]. split; constructor.
Qed.

(** X10.  Whatever the text, both extractors return sections with distinct
    titles, and every title is non-empty stripped text and every body is
    stripped: a heading without a title opens no section, and a title that
    occurs twice keeps one entry. *)
Theorem extracted_sections_are_well_formed (content : string) :
  sections_ok (Analyzer._extract_sections content)
  /\ sections_ok (DocumentWriter._extract_document_sections content).
Proof. split; apply extract_lines_ok. Qed.

End SectionRoundTrip.

(** ** Iterative refinement *)

Section IterativeRefinement.
Variable E : env.
Import Refiner.

Lemma with_llm_calls_twice (a b : nat) (w : world) :
  with_llm_calls a (with_llm_calls b w) = with_llm_calls a w.
Proof. reflexivity. Qed.

Lemma with_llm_calls_same (w : world) : with_llm_calls (llm_calls w) w = w.
Proof. now destruct w. Qed.

(** One round: it returns, one call is issued, and the content moves on
    only when the provider answered for a text. *)
Lemma refinement_round_run (content_type : string) (current : value)
      (history : list value) (i : nat) (feedback : string) (w : world) :
  exists next strategy improvements,
    refinement_round E content_type (current, history) (i, feedback) w
    = (Ok (next,
           List.app history
             [VDict [("round", VInt (Z.of_nat i)); ("feedback", VStr feedback);
                     ("strategy", strategy); ("improvements", improvements)]]),
       with_llm_calls (S (llm_calls w)) w)
    /\ ((forall prompt system_prompt,
            exists e, complete E (llm_calls w) prompt system_prompt = Raise e) ->
        next = current /\ strategy = VNone /\ improvements = VList [])
    /\ (forall text,
           (forall prompt system_prompt,
               complete E (llm_calls w) prompt system_prompt = Ok text) ->
           (exists c, current = VStr c) -> next = VStr text)
    /\ ((exists c, current = VStr c) -> exists c, next = VStr c).
Proof.
  unfold refinement_round, refine_content, try_except, bind, llm_complete,
    lift, ret.
  set (prompt := _create_refinement_prompt _ _ _ _).
  set (system_prompt := ("You are an expert editor refining " ++ _)%string).
  destruct (complete E (llm_calls w) prompt system_prompt) as [text|e] eqn:Hcall.
  - destruct current as [| | | | |c| |];
      try (eexists _, _, _; split; [reflexivity|];
           split; [intros H; destruct (H prompt system_prompt); congruence|];
           split; [now intros ? _ [? ?]|now intros [? ?]]).
    eexists _, _, _. split; [reflexivity|].
    split; [intros H; destruct (H prompt system_prompt); congruence|].
    split; [|now eexists]. intros text' H _.
    specialize (H prompt system_prompt). cbn. congruence.
  - eexists _, _, _. split; [reflexivity|]. cbn.
    split; [easy|]. split; [|easy].
    intros text H _. specialize (H prompt system_prompt). congruence.
Qed.

Lemma enumerate_app {A : Type} (l1 l2 : list A) (start : nat) :
  enumerate start (l1 ++ l2)
  = (enumerate start l1 ++ enumerate (start + List.length l1) l2)%list.
Proof.
  revert start. induction l1 as [|x l1 IH]; intros start; cbn [enumerate app List.length].
  - now rewrite Nat.add_0_r.
  - now rewrite IH, Nat.add_succ_r.
Qed.

Lemma rounds_run (content_type : string) (feedback_list : list string) :
  forall (start : nat) (current : value) (history : list value) (w : world),
  exists final entries,
    fold_m (enumerate start feedback_list) (refinement_round E content_type)
           (current, history) w
    = (Ok (final, List.app history entries),
       with_llm_calls (llm_calls w + List.length feedback_list) w)
    /\ Forall2 round_entry (enumerate start feedback_list) entries
    /\ (provider_down E ->
        final = current
        /\ entries = map failed_round (enumerate start feedback_list))
    /\ ((exists c, current = VStr c) -> exists c, final = VStr c).
Proof.
  induction feedback_list as [|feedback l IH]; intros start current history w;
    cbn [enumerate fold_m List.length map].
  - exists current, []. rewrite app_nil_r, Nat.add_0_r, with_llm_calls_same.
    repeat split; auto.
  - destruct (refinement_round_run content_type current history start feedback w)
      as (next & strategy & improvements & Hrun & Hdown & _ & Hstr).
    unfold bind at 1. rewrite Hrun.
    match goal with
    | |- context [fold_m _ _ (next, ?h) ?w1] =>
        destruct (IH (S start) next h w1) as (final & entries & Hrest & Hall & Hdown' & Hstr')
    end.
    eexists final, (_ :: entries). rewrite Hrest, <- app_assoc. cbn [app].
    split; [|split; [|split]].
    + f_equal. cbn [llm_calls with_llm_calls].
      rewrite with_llm_calls_twice. f_equal. lia.
    + constructor; [now eexists _, _|exact Hall].
    + intros Hd. destruct (Hdown' Hd) as [-> ->].
      destruct (Hdown (Hd (llm_calls w))) as (-> & -> & ->). now split.
    + intros Hc. now apply Hstr', Hstr.
Qed.

Lemma iterative_refinement_rounds
      (content : value) (feedback_list : list string) (content_type : string)
      (w : world) :
  exists final history,
    iterative_refinement E content feedback_list content_type w
    = (Ok (iterative_result E content final (List.length feedback_list)
                            history content_type),
       with_llm_calls (llm_calls w + List.length feedback_list) w)
    /\ Forall2 round_entry (enumerate 1 feedback_list) history.
Proof.
  destruct (rounds_run content_type feedback_list 1 content [] w)
    as (final & entries & Hrun & Hall & _).
  exists final, entries. split; [|exact Hall].
  unfold iterative_refinement, try_except, bind. now rewrite Hrun.
Qed.

(** X11.  [iterative_refinement] never raises and never takes its error
    branch: whatever the provider does, it returns the dictionary of its
    loop, with one history entry per feedback, numbered from 1 in the order
    of the list, and it has issued exactly one completion call per feedback
    and changed nothing else. *)
Theorem iterative_refinement_runs_every_round
        (content : value) (feedback_list : list string) (content_type : string)
        (w : world) :
  exists final history,
    iterative_refinement E content feedback_list content_type w
    = (Ok (iterative_result E content final (List.length feedback_list)
                            history content_type),
       with_llm_calls (llm_calls w + List.length feedback_list) w)
    /\ Forall2 round_entry (enumerate 1 feedback_list) history.
Proof.
  destruct (rounds_run content_type feedback_list 1 content [] w)
    as (final & entries & Hrun & Hall & _).
  exists final, entries. split; [|exact Hall].
  unfold iterative_refinement, try_except, bind. now rewrite Hrun.
Qed.

(** X12.  With a provider that raises on every call the result is still
    the dictionary of a finished refinement, without an ["error"] key: the
    final content is the content that was passed, and every round is
    recorded with strategy [None] and no improvements. *)
Theorem iterative_refinement_without_provider
        (content : value) (feedback_list : list string) (content_type : string)
        (w : world) :
  provider_down E ->
  iterative_refinement E content feedback_list content_type w
  = (Ok (iterative_result E content content (List.length feedback_list)
           (map failed_round (enumerate 1 feedback_list)) content_type),
     with_llm_calls (llm_calls w + List.length feedback_list) w).
Proof.
  intros Hdown.
  destruct (rounds_run content_type feedback_list 1 content [] w)
    as (final & entries & Hrun & _ & Hfail & _).
  destruct (Hfail Hdown) as [-> ->].
  unfold iterative_refinement, try_except, bind. now rewrite Hrun.
Qed.

(** X13.  The final content of an iterative refinement of a text is the
    answer to the call of its last round, when the provider answers that
    call, whether the rounds before it failed or not. *)
Theorem last_answer_is_final_content
        (c : string) (feedback_list : list string) (feedback : string)
        (content_type text : string) (w : world) :
  (forall prompt system_prompt,
      complete E (llm_calls w + List.length feedback_list) prompt system_prompt
      = Ok text) ->
  exists history w',
    iterative_refinement E (VStr c) (feedback_list ++ [feedback]) content_type w
    = (Ok (iterative_result E (VStr c) (VStr text)
             (List.length (feedback_list ++ [feedback])) history content_type),
       w').
Proof.
  intros Hlast.
  destruct (rounds_run content_type feedback_list 1 (VStr c) [] w)
    as (current & entries & Hrun & _ & _ & Hstr).
  destruct (refinement_round_run content_type current (List.app [] entries)
              (1 + List.length feedback_list) feedback
              (with_llm_calls (llm_calls w + List.length feedback_list) w))
    as (next & strategy & improvements & Hround & _ & Hanswer & _).
  rewrite (Hanswer text) in Hround; [|exact Hlast|apply Hstr; now eexists].
  eexists _, _.
  unfold iterative_refinement, try_except. unfold bind at 1.
  rewrite enumerate_app, fold_m_app. unfold bind at 1. rewrite Hrun.
  cbn [enumerate fold_m]. unfold bind at 1. rewrite Hround. reflexivity.
Qed.

End IterativeRefinement.

Lemma iterative_refinement_without_provider_witness :
  fst (Refiner.iterative_refinement (stub_env never_answers) (VStr "Draft")
         ["Add a summary"; "Clarify the scope"] "document" empty_world)
  = Ok (iterative_result (stub_env never_answers) (VStr "Draft") (VStr "Draft") 2
          [failed_round (1, "Add a summary");
           failed_round (2, "Clarify the scope")] "document").
Proof.
  rewrite (iterative_refinement_without_provider (stub_env never_answers)
             (VStr "Draft") ["Add a summary"; "Clarify the scope"] "document"
             empty_world).
  - reflexivity.
  - intros k prompt system_prompt. now exists provider_error.
Defined.

Lemma last_answer_is_final_content_witness :
  exists history w',
    Refiner.iterative_refinement (stub_env fails_on_second_call) (VStr "Draft")
      ["Add a summary"; "Clarify the scope"; "Add a glossary"] "document"
      empty_world
    = (Ok (iterative_result (stub_env fails_on_second_call) (VStr "Draft")
             (VStr "A specification.") 3 history "document"),
       w').
Proof.
  apply (last_answer_is_final_content (stub_env fails_on_second_call) "Draft"
           ["Add a summary"; "Clarify the scope"] "Add a glossary" "document"
           "A specification." empty_world).
  intros prompt system_prompt. reflexivity.
Defined.

(** ** Every stage of a build, whatever the provider does *)

Section EveryStage.
Variable E : env.
Hypothesis Hfs : writes_succeed E.
Hypothesis Hstore : store_accepts E.

Ltac reduce :=
  cbn [Py.get Py.index Py.iter Py.len Py.items Py.values Py.join
       Py.strings_from Py.as_str Py.is_dict_with Py.truthy Py.has_key
       Py.str_list Py.or_empty_dict Py.is_not_none PyStr.truthy
       Dict.get_default Dict.get Dict.keys Dict.values
       String.eqb Ascii.eqb Bool.eqb map fst snd andb orb negb app].

Ltac forward :=
  repeat first
    [ progress cbv beta
    | match goal with
      | |- succeeds (bind _ _) _ _ => apply succeeds_bind
      | |- succeeds (ret _) _ _ => apply succeeds_ret
      | |- succeeds (lift (Ok _)) _ _ => apply succeeds_lift
      | |- succeeds (try_except _ _) _ _ => apply succeeds_try
      | |- succeeds (makedirs _ _) _ _ =>
          apply succeeds_makedirs; [exact Hfs|intros]
      | |- succeeds (write_file _ _ _) _ _ =>
          apply succeeds_write_file; [exact Hfs|intros]
      | |- succeeds (add_document _ (VStr _) _) _ _ =>
          apply succeeds_add_document; [exact Hstore|intros]
      | |- succeeds (log_history _ _ _ _ _) _ _ =>
          apply succeeds_log_history; intros
      | |- succeeds (get_collection_stats _) _ _ =>
          apply succeeds_get_collection_stats; intros
      end
    | progress reduce ].

Ltac shape :=
  unfold stage_shape, is_dict; eexists; split; [reflexivity|]; reduce;
  repeat split; eauto.

Ltac completed := split; [eexists; split; reflexivity|shape].

(** *** Analysis *)

Lemma analyze_requirements_shape (requirements : string) (context : value)
      (w : world) :
  succeeds (Analyzer.analyze_requirements E requirements context) w
           (fun v _ => analysis_shape v).
Proof.
  unfold succeeds, analysis_shape, Analyzer.analyze_requirements, try_except,
    bind, llm_complete, ret.
  destruct (complete E _ _ _); eexists _, _; (split; [reflexivity|]).
  - right. eexists _, _, _, _, _. reflexivity.
  - left. eexists _, _. reflexivity.
Qed.

Lemma analyze_bnmp_returns (bnm context : value) (w : world) :
  succeeds (Analyzer.analyze_bnmp E bnm context) w (fun _ _ => True).
Proof.
  unfold succeeds, Analyzer.analyze_bnmp, try_except, bind, llm_complete, ret.
  destruct (complete E _ _ _); eauto.
Qed.

Lemma save_analysis_ok (analysis : value) (dir : string) (w : world) :
  analysis_shape analysis ->
  succeeds (Analyzer.save_analysis E analysis dir) w (fun _ _ => True).
Proof.
  intros [(e & r & ->)|(r & c & ver & ctx & s & ->)];
    unfold Analyzer.save_analysis; forward; exact I.
Qed.

Lemma index_of_get (k : string) (d : list (string * value)) :
  Py.is_not_none (Dict.get_default k VNone d) = true ->
  exists v, Py.index (VDict d) k = Ok v.
Proof.
  unfold Dict.get_default. cbn [Py.index].
  destruct (Dict.get k d); [eauto|discriminate].
Qed.

Lemma run_analysis_completed (requirements : string)
      (context : list (string * value)) (w : world) :
  succeeds (Orchestrator._run_analysis E requirements (VDict context)) w
           (fun v _ => completed_stage v /\ stage_shape v).
Proof.
  unfold Orchestrator._run_analysis. apply succeeds_try, succeeds_bind.
  apply (succeeds_weaken _ _ _ _ (analyze_requirements_shape _ _ _)).
  intros analysis w1 Hshape. cbv beta.
  apply succeeds_bind. cbn [Py.get]. apply succeeds_lift. cbv beta.
  apply succeeds_bind.
  match goal with
  | |- succeeds ?m _ _ =>
      assert (Hbnmp : forall w0 (Q : unit -> world -> Prop),
                 (forall w', Q tt w') -> succeeds m w0 Q)
  end.
  { intros w0 Q HQ.
    destruct (Py.is_not_none (Dict.get_default "business_needs" VNone context))
      eqn:Hneeds; [|apply succeeds_ret, HQ].
    apply succeeds_bind, succeeds_lift. cbv beta.
    destruct (Py.is_not_none (Dict.get_default "market_context" VNone context))
      eqn:Hmarket; [|apply succeeds_ret, HQ].
    destruct (index_of_get _ _ Hneeds) as [bnm ->].
    destruct (index_of_get _ _ Hmarket) as [ctx ->].
    do 2 (apply succeeds_bind, succeeds_lift; cbv beta).
    apply succeeds_bind.
    apply (succeeds_weaken _ _ _ _ (analyze_bnmp_returns _ _ _)).
    intros _ w2 _. apply succeeds_ret, HQ. }
  apply Hbnmp. intros w2. apply succeeds_bind.
  apply (succeeds_weaken _ _ _ _ (save_analysis_ok _ _ _ Hshape)).
  intros file w3 _. cbv beta.
  destruct Hshape as [(e & r & ->)|(r & c & ver & ctx & s & ->)];
    forward; completed.
Qed.

(** With the default context [None] the stage fails after the analysis
    has been generated: one call is issued and nothing is saved. *)
Lemma run_analysis_without_context (requirements : string) (w : world) :
  Orchestrator._run_analysis E requirements VNone w
  = (Ok analysis_without_context, with_llm_calls (S (llm_calls w)) w).
Proof.
  unfold Orchestrator._run_analysis, Analyzer.analyze_requirements,
    Orchestrator.failed, try_except, bind, llm_complete, lift, ret.
  destruct (complete E _ _ _); reflexivity.
Qed.

(** *** Architecture *)

Lemma design_architecture_shape (analysis : value) (w : world) :
  succeeds (Architect.design_architecture E analysis "") w
           (fun v _ => architecture_shape v).
Proof.
  unfold Architect.design_architecture. apply try_succeeds.
  - apply returns_bind; intros content. apply returns_bind; intros text.
    apply returns_bind; intros metadata. apply returns_bind; intros based_on.
    apply returns_ret. right. eexists _, _, _, _, _, _. reflexivity.
  - intros e. left. eexists _, _. reflexivity.
Qed.

Lemma stack_bullets_ok (architecture : value) (category : string) (w : world)
      (P : string -> world -> Prop) :
  architecture_shape architecture -> (forall s w', P s w') ->
  succeeds (Architect.stack_bullets E architecture category) w P.
Proof.
  intros [(e & a & ->)|(a & c & ver & b & comps & stack & ->)] HP;
    unfold Architect.stack_bullets.
  - forward. apply HP.
  - apply succeeds_bind. reduce. apply succeeds_lift. cbv beta.
    apply succeeds_bind. unfold Py.list_dict, Py.get.
    rewrite get_default_list_dict. apply succeeds_lift. cbv beta.
    apply succeeds_bind. unfold Py.str_list, Py.iter. apply succeeds_lift.
    cbv beta. apply succeeds_ret. apply HP.
Qed.

Lemma save_architecture_ok (architecture : value) (dir : string) (w : world) :
  architecture_shape architecture ->
  succeeds (Architect.save_architecture E architecture dir) w (fun _ _ => True).
Proof.
  intros Hshape. unfold Architect.save_architecture.
  apply succeeds_bind, succeeds_makedirs; [exact Hfs|intros w1]. cbv beta.
  assert (Hhead :
            exists c l,
              Py.get architecture "architecture_content" (VStr "N/A") = Ok c
              /\ Py.get architecture "components" (VList []) = Ok (VList l)).
  { destruct Hshape as [(e & a & ->)|(a & c & ver & b & comps & stack & ->)];
      reduce; unfold Py.str_list; eauto. }
  destruct Hhead as (c & l & -> & ->).
  do 2 (apply succeeds_bind, succeeds_lift; cbv beta).
  apply succeeds_bind. cbn [Py.iter]. apply succeeds_lift. cbv beta.
  do 5 (apply succeeds_bind, stack_bullets_ok; [exact Hshape|intros; cbv beta]).
  destruct Hshape as [(e & a & ->)|(a & cc & ver & b & comps & stack & ->)];
    forward; exact I.
Qed.

Lemma run_architecture_always_completed (analysis_state : value) (w : world) :
  is_dict analysis_state ->
  succeeds (Orchestrator._run_architecture E analysis_state) w
           (fun v _ => completed_stage v /\ stage_shape v).
Proof.
  intros [d ->]. unfold Orchestrator._run_architecture.
  apply succeeds_try, succeeds_bind. cbn [Py.get]. apply succeeds_lift. cbv beta.
  apply succeeds_bind.
  apply (succeeds_weaken _ _ _ _ (design_architecture_shape _ _)).
  intros architecture w1 Hshape. cbv beta. apply succeeds_bind.
  apply (succeeds_weaken _ _ _ _ (save_architecture_ok _ _ _ Hshape)).
  intros file w2 _. cbv beta.
  destruct Hshape as [(e & a & ->)|(a & c & ver & b & comps & stack & ->)];
    forward; completed.
Qed.

(** *** Documents *)

Lemma generate_brd_shape (analysis features : value) (w : world) :
  succeeds (DocumentWriter.generate_brd E analysis features) w
           (fun v _ => document_shape v).
Proof.
  unfold DocumentWriter.generate_brd. apply try_succeeds.
  - do 3 (apply returns_bind; intros). apply returns_ret. right.
    eexists _, _, _, ["analysis"; "features"], _, _, _. reflexivity.
  - intros e. left. eexists _, _. reflexivity.
Qed.

Lemma generate_srs_shape (analysis architecture features : value) (w : world) :
  succeeds (DocumentWriter.generate_srs E analysis architecture features) w
           (fun v _ => document_shape v).
Proof.
  unfold DocumentWriter.generate_srs. apply try_succeeds.
  - do 4 (apply returns_bind; intros). apply returns_ret. right.
    eexists _, _, _, ["analysis"; "architecture"; "features"], _, _, _.
    reflexivity.
  - intros e. left. eexists _, _. reflexivity.
Qed.

Lemma strings_from_strings (l : list string) (i : nat) :
  Py.strings_from i (map VStr l) = Ok l.
Proof.
  revert i. induction l as [|s l IH]; intros i; cbn [map Py.strings_from];
    [reflexivity|]. now rewrite IH.
Qed.

Lemma save_document_ok (document : value) (dir : string) (w : world) :
  document_shape document ->
  succeeds (DocumentWriter.save_document E document dir) w (fun _ _ => True).
Proof.
  intros [(e & t & ->)|(t & c & ver & inputs & s & key & r & ->)];
    unfold DocumentWriter.save_document.
  - forward. exact I.
  - forward. unfold Py.str_list. cbn [Py.join Py.iter].
    rewrite strings_from_strings. forward. exact I.
Qed.

Lemma document_shape_content (document : value) :
  document_shape document ->
  exists c, Py.get document "content" (VStr "") = Ok (VStr c).
Proof.
  intros [(e & t & ->)|(t & c & ver & inputs & s & key & r & ->)]; reduce; eauto.
Qed.

Lemma run_document_generation_completed
      (analysis_state architecture_state features_state : value) (w : world) :
  is_dict analysis_state -> is_dict architecture_state ->
  is_dict features_state ->
  succeeds
    (Orchestrator._run_document_generation E analysis_state architecture_state
                                           features_state)
    w (fun v _ => completed_stage v /\ stage_shape v).
Proof.
  intros [d1 ->] [d2 ->] [d3 ->]. unfold Orchestrator._run_document_generation.
  apply succeeds_try.
  do 3 (apply succeeds_bind; cbn [Py.get]; apply succeeds_lift; cbv beta).
  apply succeeds_bind.
  apply (succeeds_weaken _ _ _ _ (generate_brd_shape _ _ _)).
  intros brd w1 Hbrd. cbv beta. apply succeeds_bind.
  apply (succeeds_weaken _ _ _ _ (save_document_ok _ _ _ Hbrd)).
  intros brd_file w2 _. cbv beta. apply succeeds_bind.
  apply (succeeds_weaken _ _ _ _ (generate_srs_shape _ _ _ _)).
  intros srs w3 Hsrs. cbv beta. apply succeeds_bind.
  apply (succeeds_weaken _ _ _ _ (save_document_ok _ _ _ Hsrs)).
  intros srs_file w4 _. cbv beta.
  destruct (document_shape_content _ Hbrd) as [c1 Hc1].
  destruct (document_shape_content _ Hsrs) as [c2 Hc2].
  cbn [for_each]. rewrite Hc1, Hc2. forward. completed.
Qed.

(** *** Validation *)

Lemma validate_project_output_result (dir : string) (w : world) :
  exists overall results total valid_files average,
    Validator.validate_project_output E dir w
    = (Ok (Validator.project_result overall results total valid_files average),
       w).
Proof.
  unfold Validator.validate_project_output, path_exists. unfold bind at 1.
  destruct (os_path_exists E w dir); cbn [negb].
  - unfold bind at 1. unfold bind at 1.
    destruct (validate_loop_spec E (Validator.md_files_under E dir w) w [] 0%Z 0)
      as [results ->].
    unfold ret. eexists _, _, _, _, _. reflexivity.
  - unfold ret. eexists _, _, _, _, _. reflexivity.
Qed.

Lemma run_validation_completed (w : world) :
  succeeds (Orchestrator._run_validation E) w
           (fun v _ => completed_stage v /\ stage_shape v).
Proof.
  unfold Orchestrator._run_validation. apply succeeds_try, succeeds_bind.
  destruct (validate_project_output_result (output_base E) w)
    as (overall & results & total & valid_files & average & Hrun).
  exists (Validator.project_result overall results total valid_files average), w.
  split; [exact Hrun|]. unfold Validator.project_result. forward. completed.
Qed.

(** *** The whole build *)

Lemma run_analysis_cases (requirements : string) (context : value) (w : world) :
  succeeds (Orchestrator._run_analysis E requirements context) w
           (fun v _ =>
              stage_shape v
              /\ (is_dict context -> completed_stage v)
              /\ (context = VNone -> v = analysis_without_context)).
Proof.
  destruct (run_analysis_shape E requirements context w) as (v & w' & Hrun & Hv).
  exists v, w'. split; [exact Hrun|]. split; [exact Hv|]. split.
  - intros [d ->].
    destruct (run_analysis_completed requirements d w)
      as (v' & w'' & Hrun' & Hc & _).
    rewrite Hrun in Hrun'. now inversion Hrun'; subst.
  - intros ->. rewrite run_analysis_without_context in Hrun.
    now inversion Hrun.
Qed.

Lemma build_project_stages (requirements : string) (context : value)
      (detailed : bool) (w : world) :
  succeeds (Orchestrator.build_project E requirements context detailed) w
           (fun build_result _ =>
              exists t t' a1 a2 a3 a4 a5 a6,
                build_result = built E requirements context t t' a1 a2 a3 a4 a5 a6
                /\ (is_dict context -> completed_stage a1)
                /\ (context = VNone -> a1 = analysis_without_context)
                /\ Forall completed_stage [a2; a3; a4; a5; a6]).
Proof.
  unfold Orchestrator.build_project.
  apply succeeds_bind, succeeds_datetime_now. intros t w0. cbv beta.
  apply succeeds_bind.
  apply (succeeds_weaken _ _ _ _ (run_analysis_cases _ _ _)).
  intros a1 w1 (H1 & Hdict & Hnone).
  pose proof (stage_shape_dict _ H1) as Hd1. apply succeeds_bind.
  apply (succeeds_weaken _ _ _ _ (run_architecture_always_completed a1 w1 Hd1)).
  intros a2 w2 [Hc2 H2]. pose proof (stage_shape_dict _ H2) as Hd2.
  apply succeeds_bind.
  apply (succeeds_weaken _ _ _ _
           (run_feature_planning_completed E a1 a2 detailed w2 Hfs Hstore Hd1 Hd2)).
  intros a3 w3 [Hc3 H3]. pose proof (stage_shape_dict _ H3) as Hd3.
  apply succeeds_bind.
  apply (succeeds_weaken _ _ _ _
           (run_document_generation_completed a1 a2 a3 w3 Hd1 Hd2 Hd3)).
  intros a4 w4 [Hc4 H4]. apply succeeds_bind.
  apply (succeeds_weaken _ _ _ _ (run_validation_completed _)).
  intros a5 w5 [Hc5 H5]. apply succeeds_bind.
  apply (succeeds_weaken _ _ _ _
           (generate_final_report_completed E t requirements (version E)
              (Py.or_empty_dict context) a1 a2 a3 a4 a5 w5 Hfs H1 H2 H3 H4 H5)).
  intros a6 w6 [Hc6 H6].
  apply succeeds_bind, succeeds_datetime_now. intros t' w7. cbv beta.
  apply succeeds_bind, succeeds_log_history. intros w8. apply succeeds_ret.
  exists t, t', a1, a2, a3, a4, a5, a6. repeat split; auto.
  repeat constructor; assumption.
Qed.

(** X14.  When every path can be written, the vector store accepts every
    document and the context is a dictionary, a build records all six
    stages as completed, whatever the provider does: a provider that fails
    never shows as a failed stage. *)
Theorem every_stage_completes
        (requirements : string) (context : value) (detailed : bool) (w : world) :
  is_dict context ->
  exists build_result w',
    Orchestrator.build_project E requirements context detailed w
    = (Ok build_result, w')
    /\ Forall (fun stage =>
                 stage_status build_result stage = Some (VStr "completed"))
              stages.
Proof.
  intros Hcontext.
  destruct (build_project_stages requirements context detailed w)
    as (br & w' & Hrun & t & t' & a1 & a2 & a3 & a4 & a5 & a6 & -> & Hc1 & _
        & Hrest).
  exists (built E requirements context t t' a1 a2 a3 a4 a5 a6), w'.
  split; [exact Hrun|].
  inversion_clear Hrest as [|? ? H2 Hs2]. inversion_clear Hs2 as [|? ? H3 Hs3].
  inversion_clear Hs3 as [|? ? H4 Hs4]. inversion_clear Hs4 as [|? ? H5 Hs5].
  inversion_clear Hs5 as [|? ? H6 _]. specialize (Hc1 Hcontext).
  unfold stages.
  repeat constructor;
    (eapply stage_status_built;
     [reflexivity|now apply completed_stage_status]).
Qed.

(** X15.  A build that is started without a context, as the default
    [context=None] has it, records the analysis stage as failed with the
    message of the [AttributeError] that [context.get] raises; when writes
    and the vector store work, the five later stages are nevertheless
    recorded as completed. *)
Theorem build_without_context_fails_analysis
        (requirements : string) (detailed : bool) (w : world) :
  exists build_result w',
    Orchestrator.build_project E requirements VNone detailed w
    = (Ok build_result, w')
    /\ stage_record build_result "analysis" = Some analysis_without_context
    /\ Forall (fun stage =>
                 stage_status build_result stage = Some (VStr "completed"))
              ["architecture"; "features"; "documents"; "validation"; "final"].
Proof.
  destruct (build_project_stages requirements VNone detailed w)
    as (br & w' & Hrun & t & t' & a1 & a2 & a3 & a4 & a5 & a6 & -> & _ & Hnone
        & Hrest).
  exists (built E requirements VNone t t' a1 a2 a3 a4 a5 a6), w'.
  split; [exact Hrun|]. rewrite (Hnone eq_refl). split; [reflexivity|].
  inversion_clear Hrest as [|? ? H2 Hs2]. inversion_clear Hs2 as [|? ? H3 Hs3].
  inversion_clear Hs3 as [|? ? H4 Hs4]. inversion_clear Hs4 as [|? ? H5 Hs5].
  inversion_clear Hs5 as [|? ? H6 _].
  repeat constructor;
    (eapply stage_status_built;
     [reflexivity|now apply completed_stage_status]).
Qed.

End EveryStage.

Lemma stub_writes_succeed (provider : nat -> string -> string -> outcome string) :
  writes_succeed (stub_env provider).
Proof. intros path. reflexivity. Qed.

Lemma stub_store_accepts (provider : nat -> string -> string -> outcome string) :
  store_accepts (stub_env provider).
Proof. intros store content metadata. reflexivity. Qed.

Lemma every_stage_completes_witness :
  exists build_result w',
    Orchestrator.build_project (stub_env never_answers)
      "Build a blog with posts and comments" (VDict []) false empty_world
    = (Ok build_result, w')
    /\ Forall (fun stage =>
                 stage_status build_result stage = Some (VStr "completed"))
              stages.
Proof.
  apply (every_stage_completes (stub_env never_answers)
           (stub_writes_succeed never_answers)
           (stub_store_accepts never_answers)).
  now exists [].
Defined.

Lemma build_without_context_witness :
  exists build_result w',
    Orchestrator.build_project (stub_env always_answers)
      "Build a blog with posts and comments" VNone false empty_world
    = (Ok build_result, w')
    /\ stage_record build_result "analysis" = Some analysis_without_context
    /\ Forall (fun stage =>
                 stage_status build_result stage = Some (VStr "completed"))
              ["architecture"; "features"; "documents"; "validation"; "final"].
Proof.
  apply (build_without_context_fails_analysis (stub_env always_answers)
           (stub_writes_succeed always_answers)
           (stub_store_accepts always_answers)).
Defined.

(** ** The timeline of a feature plan *)

Section Timeline.
Import FeaturePlanner.

Lemma split_once_spec (sep : ascii) (s h t : string) :
  split_once sep s = (h, Some t) ->
  s = h ++ String sep t
  /\ all_chars (fun c => negb (Ascii.eqb c sep)) h = true.
Proof.
  revert h. induction s as [|c s IH]; intros h; cbn [split_once];
    [discriminate|].
  destruct (Ascii.eqb_spec c sep) as [->|Hne].
  - intros H. inversion H; subst. now split.
  - destruct (split_once sep s) as [h' t'] eqn:Hs. intros H.
    inversion H; subst. destruct (IH h' eq_refl) as [-> Hall].
    split; [reflexivity|]. cbn [all_chars]. rewrite Hall.
    apply Ascii.eqb_neq in Hne. now rewrite Hne.
Qed.

Lemma timeline_step_keeps (content : string) (timeline : list (string * string))
      (line : string) :
  In line (split_lines content) ->
  NoDup (Dict.keys timeline) /\ Forall (timeline_entry content) timeline ->
  NoDup (Dict.keys (timeline_step timeline line))
  /\ Forall (timeline_entry content) (timeline_step timeline line).
Proof.
  intros Hin [Hnd Hall]. unfold timeline_step.
  destruct (any_in _ (lower line)) eqn:Hkey; [|now split].
  destruct (split_once ":" line) as [label [description|]] eqn:Hsplit;
    [|now split].
  destruct (split_once_spec _ _ _ _ Hsplit) as [-> Hlabel]. split.
  - now apply nodup_keys_set.
  - apply forall_set; [exact Hall|]. exists label, description. auto.
Qed.

(** X17.  The timeline that [_extract_timeline] returns has distinct
    labels, and every entry comes from a line of the content that mentions
    one of the timeline keywords and contains a colon: its label is the
    stripped text before the first colon of that line and its description
    the stripped text after it. *)
Theorem timeline_is_well_formed (content : string) :
  NoDup (Dict.keys (_extract_timeline content))
  /\ Forall (timeline_entry content) (_extract_timeline content).
Proof.
  unfold _extract_timeline.
  assert (H : forall lines timeline,
             (forall line, In line lines -> In line (split_lines content)) ->
             NoDup (Dict.keys timeline)
             /\ Forall (timeline_entry content) timeline ->
             NoDup (Dict.keys (fold_left timeline_step lines timeline))
             /\ Forall (timeline_entry content)
                       (fold_left timeline_step lines timeline)).
  { induction lines as [|line lines IH]; intros timeline Hsub Hinv;
      cbn [fold_left]; [exact Hinv|].
    apply IH; [intros l Hl; apply Hsub; now right|].
    apply timeline_step_keeps; [apply Hsub; now left|exact Hinv]. }
  apply H; [auto|]. split; constructor.
Qed.

End Timeline.

(** ** Saving documents and refinements *)

Section Saving.
Variable E : env.

(** X18.  When the directory of the documents stage cannot be created,
    the stage is recorded as failed with the message of the
    [UnboundLocalError] that the handler of [save_document] raises while it
    formats its log message, not with the error of the file system; the
    BRD has been generated by then, with one completion call, and the SRS
    is not asked for. *)
Theorem documents_stage_masks_write_error
        (analysis_state architecture_state features_state : value)
        (e : exn) (w : world) :
  fs_error E (path_join (output_base E) (Orchestrator.state_dirs 4)) = Some e ->
  stage_shape analysis_state -> stage_shape architecture_state ->
  stage_shape features_state ->
  Orchestrator._run_document_generation E analysis_state architecture_state
                                        features_state w
  = (Ok (VDict [("status", VStr "failed");
                ("error", VStr (str_of_exn DocumentWriter.doc_type_unbound))]),
     with_llm_calls (S (llm_calls w)) w).
Proof.
  intros Hfs (d1 & -> & _ & _ & r1 & Hr1) (d2 & -> & _) (d3 & -> & _ & _ & r3 & Hr3).
  unfold Orchestrator._run_document_generation, DocumentWriter.generate_brd,
    DocumentWriter.save_document, Orchestrator.failed, try_except, bind,
    llm_complete, makedirs, lift, ret, raise.
  cbn [Py.get]. rewrite Hr1, Hr3. cbn [Py.get].
  destruct (complete E _ _ _); rewrite Hfs; reflexivity.
Qed.

Lemma history_lines_ok (rounds : list (nat * string)) (history : list value) :
  Forall2 round_entry rounds history ->
  exists lines, Refiner.history_lines E history = Ok lines.
Proof.
  induction 1 as [|round v rounds history (s & i & ->) _ [lines IH]];
    cbn [Refiner.history_lines]; [eauto|].
  unfold Refiner.history_line.
  cbn [Py.index Dict.get String.eqb Ascii.eqb Bool.eqb]. rewrite IH. eauto.
Qed.

(** X19.  Saving the result of an iterative refinement without a file
    name writes [refined_document.md], whatever the content type of the
    refinement was: the result keeps its content type under its metadata,
    where [save_refinement] does not look for the name.  With a file
    system that accepts every write the refinement and the save both
    return, with any provider. *)
Theorem iterative_refinement_is_saved_as_document
        (content : value) (feedback_list : list string)
        (content_type output_dir : string) (w : world) :
  writes_succeed E ->
  exists w',
    bind (Refiner.iterative_refinement E content feedback_list content_type)
         (fun refinement =>
            Refiner.save_refinement E refinement output_dir None) w
    = (Ok (path_join output_dir "refined_document.md"), w')
    /\ In (path_join output_dir "refined_document.md") (Dict.keys (files w')).
Proof.
  intros Hfs.
  destruct (iterative_refinement_rounds E content feedback_list content_type w)
    as (final & history & Hrun & Hall).
  destruct (history_lines_ok _ _ Hall) as [lines Hlines].
  unfold bind at 1. rewrite Hrun.
  unfold Refiner.save_refinement, iterative_result, bind, makedirs, write_file,
    lift, ret.
  rewrite !Hfs.
  cbn [Py.get Py.has_key Py.index Py.iter Dict.get Dict.get_default String.eqb
       Ascii.eqb Bool.eqb].
  rewrite Hlines, !Hfs. eexists. split; [reflexivity|].
  cbn [files with_files]. apply in_keys_set. now right.
Qed.

End Saving.

Lemma documents_stage_masks_write_error_witness :
  fst (Orchestrator._run_document_generation (read_only_env always_answers)
         (VDict [("status", VStr "failed")]) (VDict [("status", VStr "failed")])
         (VDict [("status", VStr "failed")]) empty_world)
  = Ok (VDict [("status", VStr "failed");
               ("error",
                VStr "cannot access local variable 'doc_type' where it is not associated with a value")]).
Proof.
  assert (Hfailed : stage_shape (VDict [("status", VStr "failed")])).
  { eexists. split; [reflexivity|]. split; [exists "failed"; auto|].
    split; [now exists []|now exists []]. }
  rewrite (documents_stage_masks_write_error (read_only_env always_answers)
             (VDict [("status", VStr "failed")])
             (VDict [("status", VStr "failed")])
             (VDict [("status", VStr "failed")])
             (Exception "PermissionError" "[Errno 13] Permission denied")
             empty_world eq_refl Hfailed Hfailed Hfailed).
  reflexivity.
Defined.

Lemma iterative_refinement_is_saved_witness :
  exists w',
    bind (Refiner.iterative_refinement (stub_env always_answers)
            (VStr "Draft") ["Add a summary"] "analysis")
         (fun refinement =>
            Refiner.save_refinement (stub_env always_answers) refinement
                                    "./output/v1/refined" None) empty_world
    = (Ok "./output/v1/refined/refined_document.md", w')
    /\ In "./output/v1/refined/refined_document.md" (Dict.keys (files w')).
Proof.
  apply (iterative_refinement_is_saved_as_document (stub_env always_answers)
           (VStr "Draft") ["Add a summary"] "analysis" "./output/v1/refined"
           empty_world).
  intros path. reflexivity.
Defined.

(** ** Features whose file names collide *)

Section Collisions.
Variable E : env.
Hypothesis Hfs : writes_succeed E.
Hypothesis Hfmt : format_succeeds E.
Import FeaturePlanner.

Lemma detail_step_run (template dir : string) (acc : list (string * value))
      (f : string) (w : world) :
  answers E (llm_calls w) 1 ->
  exists content,
    detail_step E template dir acc (VStr f) w
    = (Ok (Dict.set f (detail_of content (detail_path dir f)) acc),
       with_files (Dict.set (detail_path dir f) content (files w))
                  (with_llm_calls (S (llm_calls w)) w)).
Proof.
  intros Hok. unfold detail_step, bind, lift, llm_complete.
  destruct (Hfmt template f) as [prompt ->].
  match goal with
  | |- context [complete E (llm_calls w) ?p ?s] =>
      destruct (Hok (llm_calls w) p s ltac:(lia)) as [content ->]
  end.
  cbn [Py.as_str]. unfold write_file. rewrite Hfs. unfold ret.
  exists content. reflexivity.
Qed.

Lemma details_on_disk_step (dir : string) (acc : list (string * value))
      (f content : string) (w : world) :
  details_on_disk dir acc w ->
  details_on_disk dir
    (Dict.set f (detail_of content (detail_path dir f)) acc)
    (with_files (Dict.set (detail_path dir f) content (files w))
                (with_llm_calls (S (llm_calls w)) w)).
Proof.
  intros Hinv k Hk. cbn [files with_files with_llm_calls].
  rewrite !get_set. apply in_keys_set in Hk.
  destruct (String.eqb_spec k f) as [->|Hne].
  - split; [now exists content|]. exists content, f.
    rewrite String.eqb_refl, get_set, String.eqb_refl. auto.
  - destruct Hk as [Hk|Hk]; [|contradiction].
    destruct (Hinv k Hk) as [Hentry (c & h & Hfile & Hsame & Hh)].
    split; [exact Hentry|].
    destruct (String.eqb_spec (detail_path dir k) (detail_path dir f))
      as [Heq|Hdiff].
    + exists content, f. rewrite get_set, String.eqb_refl, Heq. auto.
    + exists c, h. split; [exact Hfile|]. split; [exact Hsame|].
      rewrite get_set. destruct (String.eqb_spec h f) as [->|_];
        [congruence|exact Hh].
Qed.

Lemma details_loop (template dir : string) (l : list string) :
  forall (acc : list (string * value)) (w : world),
    answers E (llm_calls w) (List.length l) ->
    details_on_disk dir acc w ->
    exists acc' w',
      fold_m (map VStr l) (detail_step E template dir) acc w = (Ok acc', w')
      /\ details_on_disk dir acc' w'
      /\ (forall f, In f (Dict.keys acc) \/ In f l -> In f (Dict.keys acc')).
Proof.
  induction l as [|f l IH]; intros acc w Hok Hinv.
  - exists acc, w. cbn [map fold_m]. unfold ret.
    split; [reflexivity|]. split; [exact Hinv|]. now intros g [Hg|[]].
  - cbn [List.length] in Hok.
    assert (Hfirst : answers E (llm_calls w) 1)
      by (intros k p s Hk; apply Hok; lia).
    destruct (detail_step_run template dir acc f w Hfirst) as [content Hstep].
    match type of Hstep with
    | _ = (Ok ?a, ?w1) =>
        destruct (IH a w1) as (acc' & w' & Hfold & Hinv' & Hkeys)
    end.
    + intros k p s Hk. apply Hok. cbn [llm_calls with_files with_llm_calls] in Hk.
      lia.
    + now apply details_on_disk_step.
    + exists acc', w'. cbn [map fold_m]. unfold bind at 1. rewrite Hstep.
      split; [exact Hfold|]. split; [exact Hinv'|].
      intros g Hg. apply Hkeys. rewrite in_keys_set. cbn [In] in Hg.
      intuition congruence.
Qed.

(** X20.  The file of a detailed specification is named after the safe
    name of its feature only.  When the provider answers for every
    feature, two features with the same safe name are both returned with
    their own content and the same file path, and the one file holds the
    content of a single entry: the specification of the other feature is
    not on disk. *)
Theorem colliding_features_share_a_file
        (fd : list (string * value)) (categories : list (string * list string))
        (dir f g : string) (w : world) :
  Dict.get "feature_categories" fd = Some (Py.list_dict categories) ->
  answers E (llm_calls w) (List.length (all_features_of categories)) ->
  In f (all_features_of categories) -> In g (all_features_of categories) ->
  safe_name f = safe_name g ->
  exists r w' content_f content_g on_disk h,
    generate_detailed_features E (VDict fd) dir w = (Ok (VDict r), w')
    /\ Dict.get f r = Some (detail_of content_f (detail_path dir f))
    /\ Dict.get g r = Some (detail_of content_g (detail_path dir f))
    /\ Dict.get (detail_path dir f) (files w') = Some on_disk
    /\ Dict.get h r = Some (detail_of on_disk (detail_path dir f)).
Proof.
  intros Hget Hok Hf Hg Hsame.
  rewrite (generate_detailed_features_loop E fd categories dir w Hget Hfs).
  destruct (details_loop (get_prompt E "feature_detail" []) dir
              (all_features_of categories) []
              (with_dirs (dirs w ++ [path_join dir "features"]) w) Hok)
    as (r & w' & Hfold & Hinv & Hkeys); [intros k []|].
  destruct (Hinv f (Hkeys f (or_intror Hf)))
    as [[cf Hcf] (c & h & Hfile & _ & Hh)].
  destruct (Hinv g (Hkeys g (or_intror Hg))) as [[cg Hcg] _].
  assert (Hpath : detail_path dir g = detail_path dir f)
    by (unfold detail_path; now rewrite Hsame).
  rewrite Hpath in Hcg.
  exists r, w', cf, cg, c, h. unfold try_except, bind. rewrite Hfold.
  unfold ret. auto 6.
Qed.

End Collisions.

Lemma colliding_features_witness :
  exists r w' content_f content_g on_disk h,
    FeaturePlanner.generate_detailed_features (stub_env always_answers)
      (VDict [("feature_categories",
               Py.list_dict [("core", ["User Login"; "user-login"])])])
      "out" empty_world
    = (Ok (VDict r), w')
    /\ Dict.get "User Login" r
       = Some (detail_of content_f "out/features/user_login.md")
    /\ Dict.get "user-login" r
       = Some (detail_of content_g "out/features/user_login.md")
    /\ Dict.get "out/features/user_login.md" (files w') = Some on_disk
    /\ Dict.get h r = Some (detail_of on_disk "out/features/user_login.md").
Proof.
  apply (colliding_features_share_a_file (stub_env always_answers)
           (stub_writes_succeed always_answers)
           (fun template feature => ex_intro _ template eq_refl)
           [("feature_categories",
             Py.list_dict [("core", ["User Login"; "user-login"])])]
           [("core", ["User Login"; "user-login"])]
           "out" "User Login" "user-login" empty_world eq_refl).
  - intros k prompt system_prompt _. now exists stub_markdown.
  - now left.
  - right. now left.
  - reflexivity.
Defined.

(** ** Documents without a remark *)

Section CleanDocuments.
Import Validator.

Lemma no_long_lines (lines : list string) (i : nat) :
  Forall (fun line => String.length line <= 200) lines ->
  long_line_warnings i lines = [].
Proof.
  intros H. revert i. induction H as [|line lines Hline _ IH]; intros i;
    cbn [long_line_warnings]; [reflexivity|].
  rewrite IH. apply Nat.ltb_ge in Hline. now rewrite Hline.
Qed.

(** X21.  A document of a known type that is not blank, has at least five
    lines, none longer than 200 characters, has headers whose levels never
    skip, and mentions every section that its type requires, is returned
    without errors and warnings, with the score 100, and valid. *)
Theorem clean_document_scores_100
        (content doc_type : string) (required : list string) :
  clean_markdown content ->
  required_sections doc_type = Some required ->
  missing_sections required content = [] ->
  validate_document content doc_type = mk_result true [] [] 100 [].
Proof.
  intros (Hfull & Hlines & Hlong & Hheaders & Hskip) Hreq Hmissing.
  assert (Hknown : is_in doc_type ["markdown"; "brd"; "srs"] = true).
  { unfold required_sections in Hreq. unfold is_in. cbn [existsb].
    destruct (String.eqb doc_type "markdown"); [reflexivity|].
    destruct (String.eqb doc_type "brd"); [reflexivity|].
    destruct (String.eqb doc_type "srs"); [reflexivity|discriminate]. }
  assert (Hbasic : _check_basic_format content (mk_result true [] [] 0 [])
                   = mk_result true [] [] 0 []).
  { unfold _check_basic_format. rewrite Hfull. cbn [negb].
    rewrite (no_long_lines _ _ Hlong).
    apply Nat.ltb_ge in Hlines. rewrite Hlines. reflexivity. }
  assert (Hstructure :
            _check_markdown_structure content (mk_result true [] [] 0 [])
            = mk_result true [] [] 0 []).
  { unfold _check_markdown_structure. rewrite Hskip.
    destruct (header_levels (split_lines content)); [contradiction|reflexivity]. }
  assert (Hsections :
            _check_document_sections content doc_type (mk_result true [] [] 0 [])
            = mk_result true [] [] 0 []).
  { unfold _check_document_sections. rewrite Hreq, Hmissing. reflexivity. }
  unfold validate_document. cbv zeta.
  rewrite Hbasic, Hknown, Hstructure.
  destruct (is_in doc_type ["brd"; "srs"]); rewrite ?Hsections; reflexivity.
Qed.

End CleanDocuments.

Lemma clean_document_witness :
  Validator.validate_document
    ("# Notes" ++ nl ++ "## Scope" ++ nl ++ "A blog." ++ nl ++ "## Risks"
     ++ nl ++ "Spam.")
    "markdown"
  = Validator.mk_result true [] [] 100 [].
Proof.
  apply (clean_document_scores_100 _ "markdown" []); [|reflexivity|reflexivity].
  unfold clean_markdown. split; [reflexivity|].
  split; [vm_compute; lia|]. split; [|split; [discriminate|reflexivity]].
  repeat constructor; vm_compute; lia.
Defined.

